(** * QTI HID helper service: command channel, injection engine, mode
      controller and watchdog, embedded from the driver source.

    Machine integers are [Z] with the wrap-around written out.  The driver is
    a Linux kernel module; the kernel is built with [-fno-strict-overflow], so
    signed [int] arithmetic wraps modulo 2^32 and [unsigned long] is 64 bits
    wide on the arm64 GKI target. *)

From Stdlib Require Import ZArith List Bool Lia.
From Stdlib Require Import Strings.Byte.
Import ListNotations.
Local Open Scope Z_scope.

(** ** Machine arithmetic *)

Module CInt.

(** [int]: 32-bit two's complement. *)
Definition wrap (z : Z) : Z := (z + 2 ^ 31) mod 2 ^ 32 - 2 ^ 31.

(** [unsigned short], [unsigned int] / [u32], [unsigned long]. *)
Definition u16 (z : Z) : Z := z mod 2 ^ 16.
Definition u32 (z : Z) : Z := z mod 2 ^ 32.
Definition u64 (z : Z) : Z := z mod 2 ^ 64.

Definition in_int (z : Z) : Prop := - 2 ^ 31 <= z < 2 ^ 31.

Definition add (a b : Z) : Z := wrap (a + b).
Definition sub (a b : Z) : Z := wrap (a - b).
Definition mul (a b : Z) : Z := wrap (a * b).
(** C division and remainder truncate toward zero. *)
Definition div (a b : Z) : Z := wrap (Z.quot a b).
Definition rem (a b : Z) : Z := Z.rem a b.
Definition abs (a : Z) : Z := wrap (Z.abs a).

(** A C truth value. *)
Definition truthy (z : Z) : bool := negb (z =? 0).

End CInt.

Import CInt.

(** ** Helper utilities *)

(** [stealth_clamp]: note the order of the two tests. *)
Definition stealth_clamp (val min max : Z) : Z :=
  if val <? min then min
  else if val >? max then max
  else val.

(** [fast_sqrt]: the body of [while (b > 0)].  [fuel] bounds the number of
    iterations; sixteen are enough for [b = 1 << 15] (see
    [fast_sqrt_loop_fuel]). *)
Fixpoint fast_sqrt_loop (fuel : nat) (x y b : Z) : Z :=
  match fuel with
  | O => y
  | S fuel' =>
      if b >? 0 then
        let y_plus_b := add y b in
        let y' := if mul y_plus_b y_plus_b <=? x then y_plus_b else y in
        fast_sqrt_loop fuel' x y' (Z.shiftr b 1)
      else y
  end.

Definition fast_sqrt (x : Z) : Z :=
  let y := 0 in
  let b := Z.shiftl 1 15 in
  if x <=? 0 then 0
  else fast_sqrt_loop 16 x y b.

(** [simple_crc16]: the inner [for (j = 0; j < 8; j++)] loop. *)
Fixpoint crc_bits (j : nat) (crc : Z) : Z :=
  match j with
  | O => crc
  | S j' =>
      let crc' :=
        if Z.land crc 1 =? 0 then Z.shiftr crc 1
        else u16 (Z.lxor (Z.shiftr crc 1) 0xA001) in
      crc_bits j' crc'
  end.

Definition byte_val (b : byte) : Z := Z.of_N (Byte.to_N b).

Definition simple_crc16 (data : list byte) : Z :=
  fold_left (fun crc b => crc_bits 8 (u16 (Z.lxor crc (byte_val b)))) data 0xFFFF.

(** ** Unaligned little-endian reads from the request buffer.
    Reads are always guarded by a length test in the callers; an index past
    the end of the list reads as zero here and is never relied upon. *)

Definition byte_at (data : list byte) (i : Z) : Z :=
  byte_val (nth (Z.to_nat i) data Byte.x00).

Definition get_unaligned_le16 (data : list byte) (off : Z) : Z :=
  Z.lor (byte_at data off) (Z.shiftl (byte_at data (off + 1)) 8).

Definition get_unaligned_le32 (data : list byte) (off : Z) : Z :=
  Z.lor (Z.lor (byte_at data off) (Z.shiftl (byte_at data (off + 1)) 8))
        (Z.lor (Z.shiftl (byte_at data (off + 2)) 16)
               (Z.shiftl (byte_at data (off + 3)) 24)).

(** ** Data model *)

Module slide_key.
(** [config.slide_key] *)
Record t : Type := mk {
  enabled : Z;
  trigger_key : Z;
  slide_x : Z;
  slide_y : Z;
  max_radius : Z;
  sensitivity : Z;
  require_shift : Z;
  shift_key : Z;
  active : Z;
  sliding : Z;
  current_x : Z;
  current_y : Z;
  hold_time : Z;
  release_delay : Z
}.

Definition set_enabled (v : Z) (s : t) : t :=
  {| enabled := v; trigger_key := trigger_key s; slide_x := slide_x s;
     slide_y := slide_y s; max_radius := max_radius s;
     sensitivity := sensitivity s; require_shift := require_shift s;
     shift_key := shift_key s; active := active s; sliding := sliding s;
     current_x := current_x s; current_y := current_y s;
     hold_time := hold_time s; release_delay := release_delay s |}.

Definition set_trigger_key (v : Z) (s : t) : t :=
  {| enabled := enabled s; trigger_key := v; slide_x := slide_x s;
     slide_y := slide_y s; max_radius := max_radius s;
     sensitivity := sensitivity s; require_shift := require_shift s;
     shift_key := shift_key s; active := active s; sliding := sliding s;
     current_x := current_x s; current_y := current_y s;
     hold_time := hold_time s; release_delay := release_delay s |}.

Definition set_slide_x (v : Z) (s : t) : t :=
  {| enabled := enabled s; trigger_key := trigger_key s; slide_x := v;
     slide_y := slide_y s; max_radius := max_radius s;
     sensitivity := sensitivity s; require_shift := require_shift s;
     shift_key := shift_key s; active := active s; sliding := sliding s;
     current_x := current_x s; current_y := current_y s;
     hold_time := hold_time s; release_delay := release_delay s |}.

Definition set_slide_y (v : Z) (s : t) : t :=
  {| enabled := enabled s; trigger_key := trigger_key s;
     slide_x := slide_x s; slide_y := v; max_radius := max_radius s;
     sensitivity := sensitivity s; require_shift := require_shift s;
     shift_key := shift_key s; active := active s; sliding := sliding s;
     current_x := current_x s; current_y := current_y s;
     hold_time := hold_time s; release_delay := release_delay s |}.

Definition set_max_radius (v : Z) (s : t) : t :=
  {| enabled := enabled s; trigger_key := trigger_key s;
     slide_x := slide_x s; slide_y := slide_y s; max_radius := v;
     sensitivity := sensitivity s; require_shift := require_shift s;
     shift_key := shift_key s; active := active s; sliding := sliding s;
     current_x := current_x s; current_y := current_y s;
     hold_time := hold_time s; release_delay := release_delay s |}.

Definition set_sensitivity (v : Z) (s : t) : t :=
  {| enabled := enabled s; trigger_key := trigger_key s;
     slide_x := slide_x s; slide_y := slide_y s; max_radius := max_radius s;
     sensitivity := v; require_shift := require_shift s;
     shift_key := shift_key s; active := active s; sliding := sliding s;
     current_x := current_x s; current_y := current_y s;
     hold_time := hold_time s; release_delay := release_delay s |}.

Definition set_hold_time (v : Z) (s : t) : t :=
  {| enabled := enabled s; trigger_key := trigger_key s;
     slide_x := slide_x s; slide_y := slide_y s; max_radius := max_radius s;
     sensitivity := sensitivity s; require_shift := require_shift s;
     shift_key := shift_key s; active := active s; sliding := sliding s;
     current_x := current_x s; current_y := current_y s; hold_time := v;
     release_delay := release_delay s |}.

Definition set_release_delay (v : Z) (s : t) : t :=
  {| enabled := enabled s; trigger_key := trigger_key s;
     slide_x := slide_x s; slide_y := slide_y s; max_radius := max_radius s;
     sensitivity := sensitivity s; require_shift := require_shift s;
     shift_key := shift_key s; active := active s; sliding := sliding s;
     current_x := current_x s; current_y := current_y s;
     hold_time := hold_time s; release_delay := v |}.

End slide_key.

Module cursor.
(** [config.cursor] *)
Record t : Type := mk {
  speed : Z;
  left_click_x : Z;
  left_click_y : Z;
  right_click_x : Z;
  right_click_y : Z;
  current_x : Z;
  current_y : Z;
  active : Z;
  last_key : Z
}.

Definition set_active (v : Z) (s : t) : t :=
  {| speed := speed s; left_click_x := left_click_x s;
     left_click_y := left_click_y s; right_click_x := right_click_x s;
     right_click_y := right_click_y s; current_x := current_x s;
     current_y := current_y s; active := v; last_key := last_key s |}.

Definition set_last_key (v : Z) (s : t) : t :=
  {| speed := speed s; left_click_x := left_click_x s;
     left_click_y := left_click_y s; right_click_x := right_click_x s;
     right_click_y := right_click_y s; current_x := current_x s;
     current_y := current_y s; active := active s; last_key := v |}.

End cursor.

Module view.
(** [config.view] *)
Record t : Type := mk {
  center_x : Z;
  center_y : Z;
  max_radius : Z;
  deadzone : Z;
  sensitivity : Z;
  auto_release_time : Z;
  active : Z;
  current_x : Z;
  current_y : Z;
  last_dx : Z;
  last_dy : Z
}.

Definition set_sensitivity (v : Z) (s : t) : t :=
  {| center_x := center_x s; center_y := center_y s;
     max_radius := max_radius s; deadzone := deadzone s; sensitivity := v;
     auto_release_time := auto_release_time s; active := active s;
     current_x := current_x s; current_y := current_y s;
     last_dx := last_dx s; last_dy := last_dy s |}.

End view.

Module joystick.
(** [config.joystick]; [key_states] is an [unsigned long] bitmap *)
Record t : Type := mk {
  enabled : Z;
  center_x : Z;
  center_y : Z;
  radius : Z;
  deadzone : Z;
  active : Z;
  current_x : Z;
  current_y : Z;
  move_slot : Z;
  key_up : Z;
  key_down : Z;
  key_left : Z;
  key_right : Z;
  key_states : Z
}.

Definition set_enabled (v : Z) (s : t) : t :=
  {| enabled := v; center_x := center_x s; center_y := center_y s;
     radius := radius s; deadzone := deadzone s; active := active s;
     current_x := current_x s; current_y := current_y s;
     move_slot := move_slot s; key_up := key_up s; key_down := key_down s;
     key_left := key_left s; key_right := key_right s;
     key_states := key_states s |}.

Definition set_center_x (v : Z) (s : t) : t :=
  {| enabled := enabled s; center_x := v; center_y := center_y s;
     radius := radius s; deadzone := deadzone s; active := active s;
     current_x := current_x s; current_y := current_y s;
     move_slot := move_slot s; key_up := key_up s; key_down := key_down s;
     key_left := key_left s; key_right := key_right s;
     key_states := key_states s |}.

Definition set_center_y (v : Z) (s : t) : t :=
  {| enabled := enabled s; center_x := center_x s; center_y := v;
     radius := radius s; deadzone := deadzone s; active := active s;
     current_x := current_x s; current_y := current_y s;
     move_slot := move_slot s; key_up := key_up s; key_down := key_down s;
     key_left := key_left s; key_right := key_right s;
     key_states := key_states s |}.

Definition set_radius (v : Z) (s : t) : t :=
  {| enabled := enabled s; center_x := center_x s; center_y := center_y s;
     radius := v; deadzone := deadzone s; active := active s;
     current_x := current_x s; current_y := current_y s;
     move_slot := move_slot s; key_up := key_up s; key_down := key_down s;
     key_left := key_left s; key_right := key_right s;
     key_states := key_states s |}.

Definition set_deadzone (v : Z) (s : t) : t :=
  {| enabled := enabled s; center_x := center_x s; center_y := center_y s;
     radius := radius s; deadzone := v; active := active s;
     current_x := current_x s; current_y := current_y s;
     move_slot := move_slot s; key_up := key_up s; key_down := key_down s;
     key_left := key_left s; key_right := key_right s;
     key_states := key_states s |}.

Definition set_active (v : Z) (s : t) : t :=
  {| enabled := enabled s; center_x := center_x s; center_y := center_y s;
     radius := radius s; deadzone := deadzone s; active := v;
     current_x := current_x s; current_y := current_y s;
     move_slot := move_slot s; key_up := key_up s; key_down := key_down s;
     key_left := key_left s; key_right := key_right s;
     key_states := key_states s |}.

Definition set_current_x (v : Z) (s : t) : t :=
  {| enabled := enabled s; center_x := center_x s; center_y := center_y s;
     radius := radius s; deadzone := deadzone s; active := active s;
     current_x := v; current_y := current_y s; move_slot := move_slot s;
     key_up := key_up s; key_down := key_down s; key_left := key_left s;
     key_right := key_right s; key_states := key_states s |}.

Definition set_current_y (v : Z) (s : t) : t :=
  {| enabled := enabled s; center_x := center_x s; center_y := center_y s;
     radius := radius s; deadzone := deadzone s; active := active s;
     current_x := current_x s; current_y := v; move_slot := move_slot s;
     key_up := key_up s; key_down := key_down s; key_left := key_left s;
     key_right := key_right s; key_states := key_states s |}.

Definition set_move_slot (v : Z) (s : t) : t :=
  {| enabled := enabled s; center_x := center_x s; center_y := center_y s;
     radius := radius s; deadzone := deadzone s; active := active s;
     current_x := current_x s; current_y := current_y s; move_slot := v;
     key_up := key_up s; key_down := key_down s; key_left := key_left s;
     key_right := key_right s; key_states := key_states s |}.

Definition set_key_states (v : Z) (s : t) : t :=
  {| enabled := enabled s; center_x := center_x s; center_y := center_y s;
     radius := radius s; deadzone := deadzone s; active := active s;
     current_x := current_x s; current_y := current_y s;
     move_slot := move_slot s; key_up := key_up s; key_down := key_down s;
     key_left := key_left s; key_right := key_right s; key_states := v |}.

End joystick.

Module key_mapping.
(** The [params] union of [struct key_mapping]: five [int]-sized words whose
    meaning depends on [action]; [click], [hold] and [swipe] overlay them. *)
Record params_t : Type := mk_params {
  word0 : Z;
  word1 : Z;
  word2 : Z;
  word3 : Z;
  word4 : Z
}.

Definition click_x (p : params_t) : Z := word0 p.
Definition click_y (p : params_t) : Z := word1 p.
Definition click_duration (p : params_t) : Z := word2 p.
Definition hold_x (p : params_t) : Z := word0 p.
Definition hold_y (p : params_t) : Z := word1 p.
Definition hold_pressure (p : params_t) : Z := word2 p.
Definition swipe_start_x (p : params_t) : Z := word0 p.
Definition swipe_start_y (p : params_t) : Z := word1 p.
Definition swipe_end_x (p : params_t) : Z := word2 p.
Definition swipe_end_y (p : params_t) : Z := word3 p.
Definition swipe_duration (p : params_t) : Z := word4 p.

(** One node of [keymap_list]; the [next] pointer is the tail of the list. *)
Record t : Type := mk {
  keycode : Z;
  key_name : list byte;
  action : Z;
  instant_release : Z;
  slot : Z;
  params : params_t
}.

End key_mapping.

(** [struct stealth_config]. *)
Record stealth_config : Type := mk_config {
  activated : Z;
  activate_time : Z;
  screen_width : Z;
  screen_height : Z;
  max_touch_points : Z;
  slide_key : slide_key.t;
  cursor : cursor.t;
  view : view.t;
  joystick : joystick.t;
  keymap_list : list key_mapping.t;
  current_mode : Z;
  jitter_range : Z;
  stealth_level : Z;
  initialized : Z;
  heartbeat_interval : Z;
  mode_switch_key : Z;
  enable_instant_release : Z;
  stats_moves : Z;
  stats_clicks : Z;
  stats_slides : Z;
  stats_commands : Z
}.

Definition set_activated (v : Z) (c : stealth_config) : stealth_config :=
  {| activated := v; activate_time := activate_time c;
     screen_width := screen_width c; screen_height := screen_height c;
     max_touch_points := max_touch_points c; slide_key := slide_key c;
     cursor := cursor c; view := view c; joystick := joystick c;
     keymap_list := keymap_list c; current_mode := current_mode c;
     jitter_range := jitter_range c; stealth_level := stealth_level c;
     initialized := initialized c;
     heartbeat_interval := heartbeat_interval c;
     mode_switch_key := mode_switch_key c;
     enable_instant_release := enable_instant_release c;
     stats_moves := stats_moves c; stats_clicks := stats_clicks c;
     stats_slides := stats_slides c; stats_commands := stats_commands c |}.

Definition set_activate_time (v : Z) (c : stealth_config) : stealth_config :=
  {| activated := activated c; activate_time := v;
     screen_width := screen_width c; screen_height := screen_height c;
     max_touch_points := max_touch_points c; slide_key := slide_key c;
     cursor := cursor c; view := view c; joystick := joystick c;
     keymap_list := keymap_list c; current_mode := current_mode c;
     jitter_range := jitter_range c; stealth_level := stealth_level c;
     initialized := initialized c;
     heartbeat_interval := heartbeat_interval c;
     mode_switch_key := mode_switch_key c;
     enable_instant_release := enable_instant_release c;
     stats_moves := stats_moves c; stats_clicks := stats_clicks c;
     stats_slides := stats_slides c; stats_commands := stats_commands c |}.

Definition set_slide_key (v : slide_key.t) (c : stealth_config) : stealth_config :=
  {| activated := activated c; activate_time := activate_time c;
     screen_width := screen_width c; screen_height := screen_height c;
     max_touch_points := max_touch_points c; slide_key := v;
     cursor := cursor c; view := view c; joystick := joystick c;
     keymap_list := keymap_list c; current_mode := current_mode c;
     jitter_range := jitter_range c; stealth_level := stealth_level c;
     initialized := initialized c;
     heartbeat_interval := heartbeat_interval c;
     mode_switch_key := mode_switch_key c;
     enable_instant_release := enable_instant_release c;
     stats_moves := stats_moves c; stats_clicks := stats_clicks c;
     stats_slides := stats_slides c; stats_commands := stats_commands c |}.

Definition set_cursor (v : cursor.t) (c : stealth_config) : stealth_config :=
  {| activated := activated c; activate_time := activate_time c;
     screen_width := screen_width c; screen_height := screen_height c;
     max_touch_points := max_touch_points c; slide_key := slide_key c;
     cursor := v; view := view c; joystick := joystick c;
     keymap_list := keymap_list c; current_mode := current_mode c;
     jitter_range := jitter_range c; stealth_level := stealth_level c;
     initialized := initialized c;
     heartbeat_interval := heartbeat_interval c;
     mode_switch_key := mode_switch_key c;
     enable_instant_release := enable_instant_release c;
     stats_moves := stats_moves c; stats_clicks := stats_clicks c;
     stats_slides := stats_slides c; stats_commands := stats_commands c |}.

Definition set_view (v : view.t) (c : stealth_config) : stealth_config :=
  {| activated := activated c; activate_time := activate_time c;
     screen_width := screen_width c; screen_height := screen_height c;
     max_touch_points := max_touch_points c; slide_key := slide_key c;
     cursor := cursor c; view := v; joystick := joystick c;
     keymap_list := keymap_list c; current_mode := current_mode c;
     jitter_range := jitter_range c; stealth_level := stealth_level c;
     initialized := initialized c;
     heartbeat_interval := heartbeat_interval c;
     mode_switch_key := mode_switch_key c;
     enable_instant_release := enable_instant_release c;
     stats_moves := stats_moves c; stats_clicks := stats_clicks c;
     stats_slides := stats_slides c; stats_commands := stats_commands c |}.

Definition set_joystick (v : joystick.t) (c : stealth_config) : stealth_config :=
  {| activated := activated c; activate_time := activate_time c;
     screen_width := screen_width c; screen_height := screen_height c;
     max_touch_points := max_touch_points c; slide_key := slide_key c;
     cursor := cursor c; view := view c; joystick := v;
     keymap_list := keymap_list c; current_mode := current_mode c;
     jitter_range := jitter_range c; stealth_level := stealth_level c;
     initialized := initialized c;
     heartbeat_interval := heartbeat_interval c;
     mode_switch_key := mode_switch_key c;
     enable_instant_release := enable_instant_release c;
     stats_moves := stats_moves c; stats_clicks := stats_clicks c;
     stats_slides := stats_slides c; stats_commands := stats_commands c |}.

Definition set_current_mode (v : Z) (c : stealth_config) : stealth_config :=
  {| activated := activated c; activate_time := activate_time c;
     screen_width := screen_width c; screen_height := screen_height c;
     max_touch_points := max_touch_points c; slide_key := slide_key c;
     cursor := cursor c; view := view c; joystick := joystick c;
     keymap_list := keymap_list c; current_mode := v;
     jitter_range := jitter_range c; stealth_level := stealth_level c;
     initialized := initialized c;
     heartbeat_interval := heartbeat_interval c;
     mode_switch_key := mode_switch_key c;
     enable_instant_release := enable_instant_release c;
     stats_moves := stats_moves c; stats_clicks := stats_clicks c;
     stats_slides := stats_slides c; stats_commands := stats_commands c |}.

Definition set_jitter_range (v : Z) (c : stealth_config) : stealth_config :=
  {| activated := activated c; activate_time := activate_time c;
     screen_width := screen_width c; screen_height := screen_height c;
     max_touch_points := max_touch_points c; slide_key := slide_key c;
     cursor := cursor c; view := view c; joystick := joystick c;
     keymap_list := keymap_list c; current_mode := current_mode c;
     jitter_range := v; stealth_level := stealth_level c;
     initialized := initialized c;
     heartbeat_interval := heartbeat_interval c;
     mode_switch_key := mode_switch_key c;
     enable_instant_release := enable_instant_release c;
     stats_moves := stats_moves c; stats_clicks := stats_clicks c;
     stats_slides := stats_slides c; stats_commands := stats_commands c |}.

Definition set_stats_moves (v : Z) (c : stealth_config) : stealth_config :=
  {| activated := activated c; activate_time := activate_time c;
     screen_width := screen_width c; screen_height := screen_height c;
     max_touch_points := max_touch_points c; slide_key := slide_key c;
     cursor := cursor c; view := view c; joystick := joystick c;
     keymap_list := keymap_list c; current_mode := current_mode c;
     jitter_range := jitter_range c; stealth_level := stealth_level c;
     initialized := initialized c;
     heartbeat_interval := heartbeat_interval c;
     mode_switch_key := mode_switch_key c;
     enable_instant_release := enable_instant_release c; stats_moves := v;
     stats_clicks := stats_clicks c; stats_slides := stats_slides c;
     stats_commands := stats_commands c |}.

Definition set_stats_clicks (v : Z) (c : stealth_config) : stealth_config :=
  {| activated := activated c; activate_time := activate_time c;
     screen_width := screen_width c; screen_height := screen_height c;
     max_touch_points := max_touch_points c; slide_key := slide_key c;
     cursor := cursor c; view := view c; joystick := joystick c;
     keymap_list := keymap_list c; current_mode := current_mode c;
     jitter_range := jitter_range c; stealth_level := stealth_level c;
     initialized := initialized c;
     heartbeat_interval := heartbeat_interval c;
     mode_switch_key := mode_switch_key c;
     enable_instant_release := enable_instant_release c;
     stats_moves := stats_moves c; stats_clicks := v;
     stats_slides := stats_slides c; stats_commands := stats_commands c |}.

Definition set_stats_slides (v : Z) (c : stealth_config) : stealth_config :=
  {| activated := activated c; activate_time := activate_time c;
     screen_width := screen_width c; screen_height := screen_height c;
     max_touch_points := max_touch_points c; slide_key := slide_key c;
     cursor := cursor c; view := view c; joystick := joystick c;
     keymap_list := keymap_list c; current_mode := current_mode c;
     jitter_range := jitter_range c; stealth_level := stealth_level c;
     initialized := initialized c;
     heartbeat_interval := heartbeat_interval c;
     mode_switch_key := mode_switch_key c;
     enable_instant_release := enable_instant_release c;
     stats_moves := stats_moves c; stats_clicks := stats_clicks c;
     stats_slides := v; stats_commands := stats_commands c |}.

Definition set_stats_commands (v : Z) (c : stealth_config) : stealth_config :=
  {| activated := activated c; activate_time := activate_time c;
     screen_width := screen_width c; screen_height := screen_height c;
     max_touch_points := max_touch_points c; slide_key := slide_key c;
     cursor := cursor c; view := view c; joystick := joystick c;
     keymap_list := keymap_list c; current_mode := current_mode c;
     jitter_range := jitter_range c; stealth_level := stealth_level c;
     initialized := initialized c;
     heartbeat_interval := heartbeat_interval c;
     mode_switch_key := mode_switch_key c;
     enable_instant_release := enable_instant_release c;
     stats_moves := stats_moves c; stats_clicks := stats_clicks c;
     stats_slides := stats_slides c; stats_commands := v |}.

(** ** Protocol and mode constants *)

Definition MAGIC_SIGNATURE : Z := 0x51444953.

Definition CMD_SET_SLIDE_KEY : Z := 0xA1.
Definition CMD_SET_KEY_MAPPING : Z := 0xA2.
Definition CMD_SET_SENSITIVITY : Z := 0xA3.
Definition CMD_SET_MODE : Z := 0xA4.
Definition CMD_SET_JOYSTICK : Z := 0xA5.
Definition CMD_SET_CONFIG : Z := 0xA6.
Definition CMD_GET_STATUS : Z := 0xA7.
Definition CMD_ACTIVATE : Z := 0xA8.
Definition CMD_DEACTIVATE : Z := 0xA9.
Definition CMD_HEARTBEAT : Z := 0xAA.

Definition MODE_CURSOR : Z := 0.
Definition MODE_VIEW : Z := 1.
Definition MODE_JOYSTICK : Z := 2.
Definition MODE_SILENT : Z := 3.

Definition EINVAL : Z := 22.

(** ** The device and its environment *)

Inductive abs_code : Type :=
| ABS_MT_POSITION_X
| ABS_MT_POSITION_Y
| ABS_MT_PRESSURE
| ABS_MT_TOUCH_MAJOR
| ABS_MT_TRACKING_ID.

(** What the driver does to the outside: calls into the input subsystem, in
    program order, and the sleeps it takes between them. *)
Inductive effect : Type :=
| input_mt_slot (slot : Z)
| input_mt_report_slot_state (active : bool)
| input_report_abs (code : abs_code) (value : Z)
| input_sync
| msleep (ms : Z).

(** [struct stealth_device], reduced to what the core touches: whether
    [input_dev] is non-NULL, and the configuration. *)
Record stealth_device : Type := mk_device {
  input_dev : bool;
  config : stealth_config
}.

(** The device together with its environment: the effects performed so far
    (oldest first) and the kernel random source, read by [get_random_bytes]
    as the [draws]-th element of [entropy]. *)
Record world : Type := mk_world {
  stealth_dev : stealth_device;
  sink : list effect;
  entropy : nat -> Z;
  draws : nat
}.

Definition cfg_of (w : world) : stealth_config := config (stealth_dev w).

Definition with_config (f : stealth_config -> stealth_config) (w : world) : world :=
  {| stealth_dev := {| input_dev := input_dev (stealth_dev w);
                       config := f (config (stealth_dev w)) |};
     sink := sink w; entropy := entropy w; draws := draws w |}.

Definition emit (es : list effect) (w : world) : world :=
  {| stealth_dev := stealth_dev w; sink := sink w ++ es;
     entropy := entropy w; draws := draws w |}.

(** [get_random_bytes(&rand_val, sizeof(rand_val))] for an [unsigned int]. *)
Definition get_random_bytes (w : world) : Z * world :=
  (u32 (entropy w (draws w)),
   {| stealth_dev := stealth_dev w; sink := sink w;
      entropy := entropy w; draws := S (draws w) |}).

Definition upd_joystick (f : joystick.t -> joystick.t) (c : stealth_config) : stealth_config :=
  set_joystick (f (joystick c)) c.

Definition upd_slide_key (f : slide_key.t -> slide_key.t) (c : stealth_config) : stealth_config :=
  set_slide_key (f (slide_key c)) c.

Definition upd_cursor (f : cursor.t -> cursor.t) (c : stealth_config) : stealth_config :=
  set_cursor (f (cursor c)) c.

Definition upd_view (f : view.t -> view.t) (c : stealth_config) : stealth_config :=
  set_view (f (view c)) c.

(** ** Input injection engine *)

(** The jitter block of [send_touch_event_safe]: one draw, two offsets taken
    from different byte lanes; the arithmetic on [rand_val] is unsigned and
    the results are stored in [int]s. *)
Definition jitter_offsets (jitter_range rand_val : Z) : Z * Z :=
  let span := u32 (add (mul jitter_range 2) 1) in
  let jx := wrap (u32 (rand_val mod span - u32 jitter_range)) in
  let jy := wrap (u32 (Z.shiftr rand_val 8 mod span - u32 jitter_range)) in
  (jx, jy).

(** The calls made on the input device once the coordinates are final. *)
Definition report_touch (slot x y pressure : Z) : list effect :=
  [input_mt_slot slot; input_mt_report_slot_state (pressure >? 0)]
  ++ (if pressure >? 0 then
        [input_report_abs ABS_MT_POSITION_X x;
         input_report_abs ABS_MT_POSITION_Y y;
         input_report_abs ABS_MT_PRESSURE pressure;
         input_report_abs ABS_MT_TOUCH_MAJOR 10;
         input_report_abs ABS_MT_TRACKING_ID slot]
      else
        [input_report_abs ABS_MT_TRACKING_ID (-1)])
  ++ [input_sync].

Definition send_touch_event_safe (slot x y pressure : Z) (w : world) : world :=
  let c := cfg_of w in
  if negb (input_dev (stealth_dev w)) || negb (truthy (activated c)) then w
  else
    let x := stealth_clamp x 0 (sub (screen_width c) 1) in
    let y := stealth_clamp y 0 (sub (screen_height c) 1) in
    let pressure := stealth_clamp pressure 0 255 in
    let '(x, y, w) :=
      if (jitter_range c >? 0) && (pressure >? 0) then
        let '(rand_val, w) := get_random_bytes w in
        let '(jx, jy) := jitter_offsets (jitter_range c) rand_val in
        let x := add x jx in
        let y := add y jy in
        (stealth_clamp x 0 (sub (screen_width c) 1),
         stealth_clamp y 0 (sub (screen_height c) 1), w)
      else (x, y, w) in
    let w := emit (report_touch slot x y pressure) w in
    with_config (fun c => set_stats_moves (u64 (stats_moves c + 1)) c) w.

(** ** Joystick *)

(** [key_states |= (1 << n)] and [key_states &= ~(1 << n)] on the
    [unsigned long] bitmap; [~(1 << n)] is an [int] that is sign-extended. *)
Definition set_bit (n : Z) (ks : Z) : Z := Z.lor ks (Z.shiftl 1 n).
Definition clear_bit (n : Z) (ks : Z) : Z :=
  Z.land ks (u64 (Z.lnot (Z.shiftl 1 n))).
Definition test_bit (n : Z) (ks : Z) : bool :=
  negb (Z.land ks (Z.shiftl 1 n) =? 0).

Definition toggle_key (n : Z) (pressed : Z) (ks : Z) : Z :=
  if truthy pressed then set_bit n ks else clear_bit n ks.

(** The if / else-if chain that maps a keycode to its direction bit. *)
Definition joystick_key_update (keycode pressed : Z) (j : joystick.t) : joystick.t :=
  let ks := joystick.key_states j in
  if keycode =? joystick.key_up j then joystick.set_key_states (toggle_key 0 pressed ks) j
  else if keycode =? joystick.key_down j then joystick.set_key_states (toggle_key 1 pressed ks) j
  else if keycode =? joystick.key_left j then joystick.set_key_states (toggle_key 2 pressed ks) j
  else if keycode =? joystick.key_right j then joystick.set_key_states (toggle_key 3 pressed ks) j
  else j.

(** Net displacement from the bitmap, after the deadzone test. *)
Definition joystick_vector (j : joystick.t) : Z * Z :=
  let ks := joystick.key_states j in
  let r := joystick.radius j in
  let dx := 0 in
  let dy := 0 in
  let dy := if test_bit 0 ks then sub dy r else dy in
  let dy := if test_bit 1 ks then add dy r else dy in
  let dx := if test_bit 2 ks then sub dx r else dx in
  let dx := if test_bit 3 ks then add dx r else dx in
  let dx := if abs dx <? joystick.deadzone j then 0 else dx in
  let dy := if abs dy <? joystick.deadzone j then 0 else dy in
  (dx, dy).

(** The position update of the non-zero branch, including the rescaling to
    the circle.  The rescaling divides by [distance]; it is only reached with
    [distance > radius], so the divisor is positive whenever [radius >= 0]
    (with a negative radius the driver can divide by zero, which [Z.quot]
    maps to 0 here). *)
Definition joystick_move (dx dy : Z) (j : joystick.t) : joystick.t :=
  let j := joystick.set_current_x (add (joystick.center_x j) dx) j in
  let j := joystick.set_current_y (add (joystick.center_y j) dy) j in
  let j := joystick.set_active 1 j in
  let dist_x := sub (joystick.current_x j) (joystick.center_x j) in
  let dist_y := sub (joystick.current_y j) (joystick.center_y j) in
  let distance := fast_sqrt (add (mul dist_x dist_x) (mul dist_y dist_y)) in
  if distance >? joystick.radius j then
    let j := joystick.set_current_x
               (add (joystick.center_x j) (div (mul dist_x (joystick.radius j)) distance)) j in
    joystick.set_current_y
      (add (joystick.center_y j) (div (mul dist_y (joystick.radius j)) distance)) j
  else j.

Definition update_joystick_state (keycode pressed : Z) (w : world) : world :=
  let c := cfg_of w in
  if negb (truthy (joystick.enabled (joystick c))) || negb (current_mode c =? MODE_JOYSTICK)
  then w
  else
    let w := with_config (upd_joystick (joystick_key_update keycode pressed)) w in
    let '(dx, dy) := joystick_vector (joystick (cfg_of w)) in
    if negb (dx =? 0) || negb (dy =? 0) then
      let w := with_config (upd_joystick (joystick_move dx dy)) w in
      let j := joystick (cfg_of w) in
      send_touch_event_safe (joystick.move_slot j)
        (joystick.current_x j) (joystick.current_y j) 100 w
    else if truthy (joystick.active (joystick (cfg_of w))) then
      let w := with_config (upd_joystick (joystick.set_active 0)) w in
      send_touch_event_safe (joystick.move_slot (joystick (cfg_of w))) 0 0 0 w
    else w.

(** ** Key handling *)

(** [case MODE_CURSOR] of the mode switch. *)
Definition cursor_mode_key (keycode pressed : Z) (w : world) : world :=
  let c := cfg_of w in
  let w :=
    if (keycode =? cursor.last_key (cursor c)) && truthy pressed then
      let w := send_touch_event_safe 0 (cursor.current_x (cursor c))
                 (cursor.current_y (cursor c)) 100 w in
      let w := emit [msleep 50] w in
      let w := send_touch_event_safe 0 (cursor.current_x (cursor c))
                 (cursor.current_y (cursor c)) 0 w in
      with_config (upd_cursor (cursor.set_active 0)) w
    else w in
  with_config (upd_cursor (cursor.set_last_key keycode)) w.

(** [switch (cfg->current_mode)]: only two modes have a case. *)
Definition mode_key (keycode pressed : Z) (w : world) : world :=
  let m := current_mode (cfg_of w) in
  if m =? MODE_JOYSTICK then update_joystick_state keycode pressed w
  else if m =? MODE_CURSOR then cursor_mode_key keycode pressed w
  else w.

(** What is done for the node whose keycode matches. *)
Definition keymap_fire (km : key_mapping.t) (pressed : Z) (w : world) : world :=
  let p := key_mapping.params km in
  if truthy pressed then
    if key_mapping.action km =? 0 then
      let w := send_touch_event_safe (key_mapping.slot km)
                 (key_mapping.click_x p) (key_mapping.click_y p) 100 w in
      let w := emit [msleep (key_mapping.click_duration p)] w in
      send_touch_event_safe (key_mapping.slot km)
        (key_mapping.click_x p) (key_mapping.click_y p) 0 w
    else if key_mapping.action km =? 1 then
      send_touch_event_safe (key_mapping.slot km)
        (key_mapping.hold_x p) (key_mapping.hold_y p) (key_mapping.hold_pressure p) w
    else w
  else if truthy (key_mapping.instant_release km) then
    send_touch_event_safe (key_mapping.slot km) 0 0 0 w
  else w.

(** [while (km)]: the walk stops at the first node with the keycode. *)
Fixpoint keymap_walk (km : list key_mapping.t) (keycode pressed : Z) (w : world) : world :=
  match km with
  | [] => w
  | node :: next =>
      if key_mapping.keycode node =? keycode then keymap_fire node pressed w
      else keymap_walk next keycode pressed w
  end.

Definition handle_key_mapping (keycode pressed : Z) (w : world) : world :=
  let c := cfg_of w in
  if (keycode =? mode_switch_key c) && truthy pressed then
    with_config (set_current_mode (rem (add (current_mode c) 1) 4)) w
  else
    let w := mode_key keycode pressed w in
    keymap_walk (keymap_list (cfg_of w)) keycode pressed w.

(** ** Command channel processor *)

Definition hdr_min_len : Z := 7.

(** The three early returns of [process_hidden_command], in program order,
    and the command byte of a frame that passes them.  The buffer pointer is
    never NULL here: the only caller passes a fresh allocation. *)
Inductive frame_check : Type :=
| TooShort
| BadMagic
| BadCrc
| FrameOk (cmd : Z).

Definition check_frame (data : list byte) : frame_check :=
  let len := Z.of_nat (length data) in
  if len <? hdr_min_len then TooShort
  else
    let magic_val := get_unaligned_le32 data 0 in
    let crc_val := get_unaligned_le16 data 4 in
    let cmd := byte_at data 6 in
    if negb (magic_val =? MAGIC_SIGNATURE) then BadMagic
    else
      let crc_calc := simple_crc16 (skipn 6 data) in
      if negb (crc_val =? crc_calc) then BadCrc
      else FrameOk cmd.

(** One step of the read-on-demand pattern
    [if (offset + 4 <= len) { tmp = le32(data + offset); offset += 4; field = (int)tmp; }]. *)
Definition read_field (data : list byte) (store : Z -> stealth_config -> stealth_config)
    (st : stealth_config * Z) : stealth_config * Z :=
  let '(c, offset) := st in
  let len := Z.of_nat (length data) in
  if offset + 4 <=? len then
    (store (wrap (get_unaligned_le32 data offset)) c, offset + 4)
  else (c, offset).

Definition set_joystick_fields (data : list byte) (c : stealth_config) : stealth_config :=
  let st := (c, 7) in
  let st := read_field data (fun v => upd_joystick (joystick.set_center_x v)) st in
  let st := read_field data (fun v => upd_joystick (joystick.set_center_y v)) st in
  let st := read_field data (fun v => upd_joystick (joystick.set_radius v)) st in
  let st := read_field data (fun v => upd_joystick (joystick.set_deadzone v)) st in
  let st := read_field data (fun v => upd_joystick (joystick.set_move_slot v)) st in
  let st := read_field data (fun v => upd_joystick (joystick.set_enabled v)) st in
  fst st.

Definition set_slide_key_fields (data : list byte) (c : stealth_config) : stealth_config :=
  let st := (c, 7) in
  let st := read_field data (fun v => upd_slide_key (slide_key.set_enabled v)) st in
  let st := read_field data (fun v => upd_slide_key (slide_key.set_trigger_key v)) st in
  let st := read_field data (fun v => upd_slide_key (slide_key.set_slide_x v)) st in
  let st := read_field data (fun v => upd_slide_key (slide_key.set_slide_y v)) st in
  let st := read_field data (fun v => upd_slide_key (slide_key.set_max_radius v)) st in
  let st := read_field data (fun v => upd_slide_key (slide_key.set_sensitivity v)) st in
  let st := read_field data (fun v => upd_slide_key (slide_key.set_hold_time v)) st in
  let st := read_field data (fun v => upd_slide_key (slide_key.set_release_delay v)) st in
  fst st.

(** The [switch (cmd)] executed under the mutex: the return value [ret] and
    the configuration it leaves.  [jiffies] is the tick counter read by the
    ACTIVATE and HEARTBEAT cases. *)
Definition dispatch (cmd : Z) (data : list byte) (jiffies : Z) (c : stealth_config)
    : Z * stealth_config :=
  let len := Z.of_nat (length data) in
  if cmd =? CMD_ACTIVATE then
    (0, set_activate_time (u64 jiffies) (set_activated 1 c))
  else if cmd =? CMD_DEACTIVATE then
    (0, set_activated 0 c)
  else if cmd =? CMD_HEARTBEAT then
    (0, set_activate_time (u64 jiffies) c)
  else if cmd =? CMD_SET_CONFIG then
    if len <? 15 then (- EINVAL, c)
    else
      let mode_le := get_unaligned_le32 data 7 in
      let jitter_le := get_unaligned_le32 data 11 in
      (0, set_jitter_range (wrap jitter_le) (set_current_mode (wrap mode_le) c))
  else if cmd =? CMD_SET_MODE then
    if len <? 11 then (- EINVAL, c)
    else
      let new_mode := get_unaligned_le32 data 7 in
      (0, set_current_mode (wrap new_mode) c)
  else if cmd =? CMD_SET_SENSITIVITY then
    if len <? 11 then (- EINVAL, c)
    else
      let sens := get_unaligned_le32 data 7 in
      (0, upd_view (view.set_sensitivity (stealth_clamp (wrap sens) 1 10000)) c)
  else if cmd =? CMD_SET_JOYSTICK then
    (0, set_joystick_fields data c)
  else if cmd =? CMD_SET_SLIDE_KEY then
    (0, set_slide_key_fields data c)
  else if cmd =? CMD_SET_KEY_MAPPING then
    if len >=? 11 then
      let simple_flag := get_unaligned_le32 data 7 in
      if negb (simple_flag =? 0)
      then (0, set_stats_clicks (u64 (stats_clicks c + 1)) c)
      else (0, c)
    else (- EINVAL, c)
  else (- EINVAL, c).

Definition process_hidden_command (data : list byte) (jiffies : Z) (c : stealth_config)
    : Z * stealth_config :=
  match check_frame data with
  | TooShort => (- EINVAL, c)
  | BadMagic => (- EINVAL, c)
  | BadCrc => (- EINVAL, c)
  | FrameOk cmd =>
      let '(ret, c) := dispatch cmd data jiffies c in
      if ret =? 0 then (ret, set_stats_commands (u64 (stats_commands c + 1)) c)
      else (ret, c)
  end.

(** ** Heartbeat watchdog and worker *)

(** The body of the timer callback between [spin_lock_irqsave] and
    [spin_unlock_irqrestore].  [HZ] is the kernel's tick rate, a build-time
    constant that is not part of the driver source. *)
Definition heartbeat_check (HZ now : Z) (c : stealth_config) : stealth_config :=
  if truthy (activated c) then
    let interval := u64 (now - activate_time c) in
    let hb_interval := u64 (heartbeat_interval c) in
    if (hb_interval >? 0) && (interval >? u64 (hb_interval * HZ))
    then set_activated 0 c
    else c
  else c.

(** [heartbeat_timer_callback]: with no device the callback returns without
    re-arming; otherwise it runs the check and re-arms the timer (the
    boolean). *)
Definition heartbeat_timer_callback (HZ now : Z) (dev : option stealth_device)
    : option stealth_device * bool :=
  match dev with
  | None => (None, false)
  | Some d =>
      (Some {| input_dev := input_dev d; config := heartbeat_check HZ now (config d) |},
       true)
  end.

(** One wake-up of [stealth_worker] after its [msleep(100)]. *)
Definition stealth_worker_tick (c : stealth_config) : stealth_config :=
  if stats_commands c >? 10000 then
    set_stats_commands 0 (set_stats_slides 0 (set_stats_clicks 0 (set_stats_moves 0 c)))
  else c.

(** ** Initialisation *)

(** The configuration left by [stealth_driver_init]: the device structure is
    zero-allocated and only the fields assigned there are non-zero. *)
Definition init_config : stealth_config :=
  {| activated := 0;
     activate_time := 0;
     screen_width := 2800;
     screen_height := 2000;
     max_touch_points := 10;
     slide_key :=
       {| slide_key.enabled := 1; slide_key.trigger_key := 56;
          slide_key.slide_x := 1400; slide_key.slide_y := 1000;
          slide_key.max_radius := 200; slide_key.sensitivity := 100;
          slide_key.require_shift := 0; slide_key.shift_key := 0;
          slide_key.active := 0; slide_key.sliding := 0;
          slide_key.current_x := 0; slide_key.current_y := 0;
          slide_key.hold_time := 50; slide_key.release_delay := 0 |};
     cursor :=
       {| cursor.speed := 5;
          cursor.left_click_x := 2100; cursor.left_click_y := 1800;
          cursor.right_click_x := 2000; cursor.right_click_y := 1800;
          cursor.current_x := 1400; cursor.current_y := 1000;
          cursor.active := 0; cursor.last_key := 0 |};
     view :=
       {| view.center_x := 1400; view.center_y := 1000;
          view.max_radius := 300; view.deadzone := 20;
          view.sensitivity := 100; view.auto_release_time := 0;
          view.active := 0; view.current_x := 0; view.current_y := 0;
          view.last_dx := 0; view.last_dy := 0 |};
     joystick :=
       {| joystick.enabled := 1;
          joystick.center_x := 700; joystick.center_y := 1500;
          joystick.radius := 150; joystick.deadzone := 10;
          joystick.active := 0;
          joystick.current_x := 0; joystick.current_y := 0;
          joystick.move_slot := 3;
          joystick.key_up := 17; joystick.key_down := 31;
          joystick.key_left := 30; joystick.key_right := 32;
          joystick.key_states := 0 |};
     keymap_list := [];
     current_mode := MODE_SILENT;
     jitter_range := 2;
     stealth_level := 5;
     initialized := 1;
     heartbeat_interval := 30;
     mode_switch_key := 59;
     enable_instant_release := 1;
     stats_moves := 0;
     stats_clicks := 0;
     stats_slides := 0;
     stats_commands := 0 |}.

(** The world after a successful [stealth_driver_init]: the input device is
    registered, nothing has been emitted, and [generate_hidden_id] has taken
    four draws for its sixteen bytes. *)
Definition init_world (e : nat -> Z) : world :=
  {| stealth_dev := {| input_dev := true; config := init_config |};
     sink := []; entropy := e; draws := 4 |}.

(** ** Operations and reachable states *)

Inductive operation : Type :=
| Command (data : list byte) (jiffies : Z)
| KeyEvent (keycode pressed : Z)
| TimerTick (jiffies : Z)
| WorkerTick.

Definition step (HZ : Z) (o : operation) (w : world) : world :=
  match o with
  | Command data jiffies =>
      with_config (fun c => snd (process_hidden_command data jiffies c)) w
  | KeyEvent keycode pressed => handle_key_mapping keycode pressed w
  | TimerTick jiffies => with_config (heartbeat_check HZ jiffies) w
  | WorkerTick => with_config stealth_worker_tick w
  end.

Definition run (HZ : Z) (ops : list operation) (w : world) : world :=
  fold_left (fun w o => step HZ o w) ops w.

Inductive reachable (HZ : Z) : world -> Prop :=
| reach_init : forall e, reachable HZ (init_world e)
| reach_step : forall w o, reachable HZ w -> reachable HZ (step HZ o w).

(** ** Vocabulary of the properties *)

(** The effects a call added to the sink. *)
Definition emitted_by (w w' : world) : list effect :=
  skipn (length (sink w)) (sink w').

(** A reported coordinate lies on the screen of configuration [c]. *)
Definition coords_in_screen (c : stealth_config) (e : effect) : Prop :=
  match e with
  | input_report_abs ABS_MT_POSITION_X v => 0 <= v <= screen_width c - 1
  | input_report_abs ABS_MT_POSITION_Y v => 0 <= v <= screen_height c - 1
  | _ => True
  end.

(** The part of the configuration that no operation writes after
    initialisation. *)
Definition fixed (c : stealth_config) : Z * Z * Z * Z * list key_mapping.t * Z * Z :=
  (screen_width c, screen_height c, heartbeat_interval c, mode_switch_key c,
   keymap_list c, view.current_x (view c), view.current_y (view c)).

(** [w'] differs from [w] at most in the sink, the random source position and
    configuration fields outside [fixed] and [current_mode]. *)
Definition kept (w w' : world) : Prop :=
  input_dev (stealth_dev w') = input_dev (stealth_dev w) /\
  fixed (cfg_of w') = fixed (cfg_of w) /\
  current_mode (cfg_of w') = current_mode (cfg_of w).

(** How a client frames a command: magic, CRC16 of command byte and payload,
    command byte, payload (all little-endian).  Used to build concrete
    requests. *)
Definition byte_of_Z (z : Z) : byte :=
  match Byte.of_N (Z.to_N (z mod 256)) with
  | Some b => b
  | None => Byte.x00
  end.

Definition le_bytes (n : nat) (z : Z) : list byte :=
  map (fun i => byte_of_Z (Z.shiftr z (8 * Z.of_nat i))) (seq 0 n).

Definition mk_frame (cmd : Z) (payload : list byte) : list byte :=
  let body := byte_of_Z cmd :: payload in
  le_bytes 4 MAGIC_SIGNATURE ++ le_bytes 2 (simple_crc16 body) ++ body.

(** An ACTIVATE frame whose CRC field is zero. *)
Definition bad_crc_frame : list byte :=
  le_bytes 4 MAGIC_SIGNATURE ++ le_bytes 2 0 ++ [byte_of_Z CMD_ACTIVATE].

(** The optional fields of SET_JOYSTICK and SET_SLIDE_KEY in protocol order,
    and the [i]-th 32-bit payload word as it is stored into an [int]. *)
Definition joystick_params (c : stealth_config) : list Z :=
  let j := joystick c in
  [joystick.center_x j; joystick.center_y j; joystick.radius j;
   joystick.deadzone j; joystick.move_slot j; joystick.enabled j].

Definition slide_key_params (c : stealth_config) : list Z :=
  let s := slide_key c in
  [slide_key.enabled s; slide_key.trigger_key s; slide_key.slide_x s;
   slide_key.slide_y s; slide_key.max_radius s; slide_key.sensitivity s;
   slide_key.hold_time s; slide_key.release_delay s].

Definition payload_word (data : list byte) (i : nat) : Z :=
  wrap (get_unaligned_le32 data (7 + 4 * Z.of_nat i)).

(** Overwrite the protocol fields with the given values (used to compare two
    configurations outside those fields). *)
Definition put_joystick_params (l : list Z) (c : stealth_config) : stealth_config :=
  upd_joystick (fun j =>
    joystick.set_enabled (nth 5 l 0)
      (joystick.set_move_slot (nth 4 l 0)
        (joystick.set_deadzone (nth 3 l 0)
          (joystick.set_radius (nth 2 l 0)
            (joystick.set_center_y (nth 1 l 0)
              (joystick.set_center_x (nth 0 l 0) j)))))) c.

Definition put_slide_key_params (l : list Z) (c : stealth_config) : stealth_config :=
  upd_slide_key (fun s =>
    slide_key.set_release_delay (nth 7 l 0)
      (slide_key.set_hold_time (nth 6 l 0)
        (slide_key.set_sensitivity (nth 5 l 0)
          (slide_key.set_max_radius (nth 4 l 0)
            (slide_key.set_slide_y (nth 3 l 0)
              (slide_key.set_slide_x (nth 2 l 0)
                (slide_key.set_trigger_key (nth 1 l 0)
                  (slide_key.set_enabled (nth 0 l 0) s)))))))) c.

(** The command counter after one accepted command. *)
Definition count_command (c : stealth_config) : stealth_config :=
  set_stats_commands (u64 (stats_commands c + 1)) c.

(** [c'] is [c] after a SET_JOYSTICK frame applied its first [K] fields: the
    first [K] protocol fields hold the payload words, the other protocol
    fields are those of [c], and outside the protocol fields [c'] is [c] with
    the command counted. *)
Definition joystick_prefix_applied (K : Z) (data : list byte) (c c' : stealth_config) : Prop :=
  (forall i : nat, Z.of_nat i < Z.min K 6 ->
     nth i (joystick_params c') 0 = payload_word data i) /\
  (forall i : nat, K <= Z.of_nat i < 6 ->
     nth i (joystick_params c') 0 = nth i (joystick_params c) 0) /\
  put_joystick_params (joystick_params c) c' = count_command c.

Definition slide_key_prefix_applied (K : Z) (data : list byte) (c c' : stealth_config) : Prop :=
  (forall i : nat, Z.of_nat i < Z.min K 8 ->
     nth i (slide_key_params c') 0 = payload_word data i) /\
  (forall i : nat, K <= Z.of_nat i < 8 ->
     nth i (slide_key_params c') 0 = nth i (slide_key_params c) 0) /\
  put_slide_key_params (slide_key_params c) c' = count_command c.

(** Two partial updates: centre only, with two stray bytes; and the first
    slide-key field only. *)
Definition joystick_centre_frame : list byte :=
  mk_frame CMD_SET_JOYSTICK (le_bytes 4 800 ++ le_bytes 4 1600 ++ [Byte.x01; Byte.x02]).

Definition slide_enable_frame : list byte :=
  mk_frame CMD_SET_SLIDE_KEY (le_bytes 4 0).

(** The four operating modes. *)
Definition valid_mode (m : Z) : Prop :=
  m = MODE_CURSOR \/ m = MODE_VIEW \/ m = MODE_JOYSTICK \/ m = MODE_SILENT.

(** The mode value an accepted SET_CONFIG or SET_MODE frame stores, if the
    buffer is such a frame. *)
Definition carried_mode (data : list byte) : option Z :=
  let len := Z.of_nat (length data) in
  match check_frame data with
  | FrameOk cmd =>
      if cmd =? CMD_SET_CONFIG then
        if len <? 15 then None else Some (wrap (get_unaligned_le32 data 7))
      else if cmd =? CMD_SET_MODE then
        if len <? 11 then None else Some (wrap (get_unaligned_le32 data 7))
      else None
  | _ => None
  end.

(** An operation that does not install a mode outside the four. *)
Definition well_moded (o : operation) : Prop :=
  match o with
  | Command data _ =>
      match carried_mode data with
      | Some m => valid_mode m
      | None => True
      end
  | _ => True
  end.

Inductive reachable_well_moded (HZ : Z) : world -> Prop :=
| reach_wm_init : forall e, reachable_well_moded HZ (init_world e)
| reach_wm_step : forall w o,
    reachable_well_moded HZ w -> well_moded o -> reachable_well_moded HZ (step HZ o w).

(** A SET_MODE request for mode 7. *)
Definition set_mode_7_frame : list byte := mk_frame CMD_SET_MODE (le_bytes 4 7).

(** A world in which the service was activated at tick 1000 (used with a
    tick rate of 250). *)
Definition activated_world : world :=
  step 250 (Command (mk_frame CMD_ACTIVATE []) 1000) (init_world (fun _ => 0)).

(** The synthesized tap of cursor mode: press at the cursor position, 50 ms
    of sleep, release, then the active flag is cleared. *)
Definition cursor_tap (w : world) : world :=
  let cur := cursor (cfg_of w) in
  let w := send_touch_event_safe 0 (cursor.current_x cur) (cursor.current_y cur) 100 w in
  let w := emit [msleep 50] w in
  let w := send_touch_event_safe 0 (cursor.current_x cur) (cursor.current_y cur) 0 w in
  with_config (upd_cursor (cursor.set_active 0)) w.

(** The first node of the mapping list with the given keycode. *)
Definition first_mapping (keycode : Z) (km : list key_mapping.t) : option key_mapping.t :=
  find (fun node => key_mapping.keycode node =? keycode) km.

(** A world in cursor mode, activated, with jitter off. *)
Definition cursor_world : world :=
  run 250 [Command (mk_frame CMD_ACTIVATE []) 1000;
           Command (mk_frame CMD_SET_CONFIG (le_bytes 4 0 ++ le_bytes 4 0)) 1001]
    (init_world (fun _ => 0)).

(** A mapping list whose first node for key 30 is a swipe (action 2). *)
Definition swipe_keymap : list key_mapping.t :=
  [ {| key_mapping.keycode := 30; key_mapping.key_name := [];
       key_mapping.action := 2; key_mapping.instant_release := 1;
       key_mapping.slot := 4;
       key_mapping.params := key_mapping.mk_params 100 100 900 900 200 |};
    {| key_mapping.keycode := 30; key_mapping.key_name := [];
       key_mapping.action := 0; key_mapping.instant_release := 0;
       key_mapping.slot := 5;
       key_mapping.params := key_mapping.mk_params 10 20 30 0 0 |} ].

(** Distance of a position from a centre, with the floor square root. *)
Definition distance_from (cx cy x y : Z) : Z :=
  Z.sqrt ((x - cx) * (x - cx) + (y - cy) * (y - cy)).

Definition joystick_within_radius (j : joystick.t) : Prop :=
  distance_from (joystick.center_x j) (joystick.center_y j)
    (joystick.current_x j) (joystick.current_y j) <= joystick.radius j.

Definition view_within_radius (v : view.t) : Prop :=
  distance_from (view.center_x v) (view.center_y v)
    (view.current_x v) (view.current_y v) <= view.max_radius v.

(** Distance of the joystick position from the joystick centre. *)
Definition joystick_distance (j : joystick.t) : Z :=
  distance_from (joystick.center_x j) (joystick.center_y j)
    (joystick.current_x j) (joystick.current_y j).

(** A joystick geometry on which the position update does not overflow: the
    radius is at most 23170 (twice its square stays below 2^30) and the
    circle around the centre fits in [int]. *)
Definition joystick_geometry_ok (j : joystick.t) : Prop :=
  0 <= joystick.radius j <= 23170 /\
  in_int (joystick.center_x j - joystick.radius j) /\
  in_int (joystick.center_x j + joystick.radius j) /\
  in_int (joystick.center_y j - joystick.radius j) /\
  in_int (joystick.center_y j + joystick.radius j).

(** Activated, in joystick mode, jitter off; then "up" (17) and "right" (32)
    held together. *)
Definition joystick_world : world :=
  run 250 [Command (mk_frame CMD_ACTIVATE []) 1000;
           Command (mk_frame CMD_SET_CONFIG (le_bytes 4 2 ++ le_bytes 4 0)) 1001]
    (init_world (fun _ => 0)).

Definition diagonal_world : world :=
  run 250 [KeyEvent 17 1; KeyEvent 32 1] joystick_world.

(** "Up" held alone in [joystick_world]. *)
Definition up_world : world := run 250 [KeyEvent 17 1] joystick_world.

(** The ASCII digits "123456789", the usual CRC check input. *)
Definition check_digits : list byte :=
  [Byte.x31; Byte.x32; Byte.x33; Byte.x34; Byte.x35;
   Byte.x36; Byte.x37; Byte.x38; Byte.x39].

(** ** Vocabulary of the further properties *)

(** The shortest accepted length of each handled command code; codes without
    a case, GET_STATUS (0xA7) among them, have none. *)
Definition min_frame_len (cmd : Z) : option Z :=
  if cmd =? CMD_ACTIVATE then Some 7
  else if cmd =? CMD_DEACTIVATE then Some 7
  else if cmd =? CMD_HEARTBEAT then Some 7
  else if cmd =? CMD_SET_CONFIG then Some 15
  else if cmd =? CMD_SET_MODE then Some 11
  else if cmd =? CMD_SET_SENSITIVITY then Some 11
  else if cmd =? CMD_SET_JOYSTICK then Some 7
  else if cmd =? CMD_SET_SLIDE_KEY then Some 7
  else if cmd =? CMD_SET_KEY_MAPPING then Some 11
  else None.

(** A projection of the configuration that the key handlers cannot change:
    they write only the moves counter, the joystick and cursor sub-states and
    the mode. *)
Definition untouched_by_keys {A : Type} (f : stealth_config -> A) : Prop :=
  (forall v c, f (set_stats_moves v c) = f c) /\
  (forall g c, f (upd_joystick g c) = f c) /\
  (forall g c, f (upd_cursor g c) = f c) /\
  (forall v c, f (set_current_mode v c) = f c).


(** A mapping list with a hold on key 31 followed by a tap and a hold on
    key 30. *)
Definition hold_31 : key_mapping.t :=
  {| key_mapping.keycode := 31; key_mapping.key_name := [];
     key_mapping.action := 1; key_mapping.instant_release := 1;
     key_mapping.slot := 2;
     key_mapping.params := key_mapping.mk_params 300 400 80 0 0 |}.

Definition tap_30 : key_mapping.t :=
  {| key_mapping.keycode := 30; key_mapping.key_name := [];
     key_mapping.action := 0; key_mapping.instant_release := 0;
     key_mapping.slot := 5;
     key_mapping.params := key_mapping.mk_params 3000 20 30 0 0 |}.

Definition hold_30 : key_mapping.t :=
  {| key_mapping.keycode := 30; key_mapping.key_name := [];
     key_mapping.action := 1; key_mapping.instant_release := 0;
     key_mapping.slot := 6;
     key_mapping.params := key_mapping.mk_params 1 2 3 0 0 |}.

(** [activated_world] with the jitter switched off. *)
Definition steady_world : world :=
  with_config (set_jitter_range 0) activated_world.

(** The part of the joystick sub-state that only key events can write: the
    four direction keycodes (which nothing writes) and the bitmap. *)
Definition joystick_keys (c : stealth_config) : Z * Z * Z * Z * Z :=
  let j := joystick c in
  (joystick.key_up j, joystick.key_down j, joystick.key_left j,
   joystick.key_right j, joystick.key_states j).

(** The direction keys are those of initialisation and the bitmap has at
    most its four low bits set. *)
Definition joystick_keys_ok (c : stealth_config) : Prop :=
  joystick.key_up (joystick c) = 17 /\ joystick.key_down (joystick c) = 31 /\
  joystick.key_left (joystick c) = 30 /\ joystick.key_right (joystick c) = 32 /\
  0 <= joystick.key_states (joystick c) <= 15.

(** ** Device entry points and identifier generation *)

Definition ENOMEM : Z := 12.
Definition EFAULT : Z := 14.
Definition CMD_CHANNEL_NUM : Z := 5.

(** The text "hidhelper v1.0\nstatus: ok\n" that [stealth_read] formats into
    its static buffer. *)
Definition response : list byte :=
  [Byte.x68; Byte.x69; Byte.x64; Byte.x68; Byte.x65; Byte.x6c; Byte.x70;
   Byte.x65; Byte.x72; Byte.x20; Byte.x76; Byte.x31; Byte.x2e; Byte.x30;
   Byte.x0a;
   Byte.x73; Byte.x74; Byte.x61; Byte.x74; Byte.x75; Byte.x73; Byte.x3a;
   Byte.x20; Byte.x6f; Byte.x6b; Byte.x0a].

(** [stealth_read]: [len] is the requested size, [off] the file offset on
    entry, [copy_fails] whether [copy_to_user] reports a fault.  The result is
    the return value, the file offset on exit and the bytes delivered to the
    caller. *)
Definition stealth_read (len off : Z) (copy_fails : bool) : Z * Z * list byte :=
  if off >? 0 then (0, off, [])
  else
    let resp_len := Z.of_nat (length response) in
    let len := if len >? resp_len then resp_len else len in
    if copy_fails then (- EFAULT, off, [])
    else (len, len, firstn (Z.to_nat len) response).

(** [stealth_write]: [buf] holds the bytes offered by the caller ([len] is its
    length); [alloc_fails] and [copy_fails] say whether [kzalloc] returns NULL
    and whether [copy_from_user] reports a fault.  The channel number drawn
    from the random source is computed and never used. *)
Definition stealth_write (buf : list byte) (alloc_fails copy_fails : bool)
    (jiffies : Z) (w : world) : Z * world :=
  let len := Z.of_nat (length buf) in
  if len <? 7 then (- EINVAL, w)
  else
    let len := if len >? 256 then 256 else len in
    if alloc_fails then (- ENOMEM, w)
    else if copy_fails then (- EFAULT, w)
    else
      let data := firstn (Z.to_nat len) buf in
      let '(r, w) := get_random_bytes w in
      let channel := r mod CMD_CHANNEL_NUM in
      let '(ret, c) := process_hidden_command data jiffies (cfg_of w) in
      let w := with_config (fun _ => c) w in
      if ret <? 0 then (ret, w) else (len, w).

(** [id[i] = v] on the identifier buffer; the callers never index past its
    end. *)
Fixpoint store_byte (i : nat) (v : byte) (id : list byte) : list byte :=
  match id, i with
  | [], _ => []
  | _ :: rest, O => v :: rest
  | b :: rest, S i' => b :: store_byte i' v rest
  end.

(** The filling loop of [generate_hidden_id]: [n] iterations remain, [i] is
    the loop index and [rand_val] the last value drawn. *)
Fixpoint hidden_id_fill (n i : nat) (rand_val : Z) (id : list byte) (w : world)
    : list byte * world :=
  match n with
  | O => (id, w)
  | S n' =>
      let '(rand_val, w) :=
        if Z.of_nat i mod 4 =? 0 then get_random_bytes w else (rand_val, w) in
      let v := Z.land (Z.shiftr rand_val (Z.of_nat i mod 4 * 8)) 0xFF in
      hidden_id_fill n' (S i) rand_val (store_byte i (byte_of_Z v) id) w
  end.

(** [id[i] ^= v]. *)
Definition xor_byte (i : nat) (v : Z) (id : list byte) : list byte :=
  store_byte i (byte_of_Z (Z.lxor (byte_val (nth i id Byte.x00)) v)) id.

(** [generate_hidden_id(id, len)], with [tv_sec] the wall-clock seconds read
    at entry.  [rand_val] is uninitialised before the first draw; the first
    iteration always draws. *)
Definition generate_hidden_id (id : list byte) (len : nat) (tv_sec : Z) (w : world)
    : list byte * world :=
  let '(id, w) := hidden_id_fill len 0 0 id w in
  let id := xor_byte 0 (Z.land (Z.shiftr tv_sec 24) 0xFF) id in
  let id := xor_byte 1 (Z.land (Z.shiftr tv_sec 16) 0xFF) id in
  let id := xor_byte 2 (Z.land (Z.shiftr tv_sec 8) 0xFF) id in
  let id := xor_byte 3 (Z.land tv_sec 0xFF) id in
  (id, w).

(** The random value whose byte lane ends up at index [k], for a loop that
    starts at index [i] holding [rand_val]. *)
Definition lane_source (w : world) (rand_val : Z) (i k : nat) : Z :=
  if (Z.of_nat k / 4 =? Z.of_nat i / 4) && negb (Z.of_nat i mod 4 =? 0) then rand_val
  else u32 (entropy w (draws w + Z.to_nat (Z.of_nat k / 4 - (Z.of_nat i + 3) / 4))).

(** A sequence of commands applied to the configuration, each with its tick
    count. *)
Definition run_commands (frames : list (list byte * Z)) (c : stealth_config)
    : stealth_config :=
  fold_left (fun c fr => snd (process_hidden_command (fst fr) (snd fr) c)) frames c.

(** * Properties *)

(** ** Machine arithmetic *)

Lemma wrap_small (z : Z) : in_int z -> wrap z = z.
Proof.
  unfold in_int, wrap. intros H.
  rewrite Z.mod_small by lia. lia.
Qed.

Lemma wrap_in_int (z : Z) : in_int (wrap z).
Proof.
  unfold in_int, wrap.
  pose proof (Z.mod_pos_bound (z + 2 ^ 31) (2 ^ 32) ltac:(lia)). lia.
Qed.

Lemma clamp_bounds (v lo hi : Z) : lo <= hi -> lo <= stealth_clamp v lo hi <= hi.
Proof.
  intros H. unfold stealth_clamp.
  destruct (Z.ltb_spec v lo); [lia|].
  destruct (Z.gtb_spec v hi); lia.
Qed.

(** ** Integer square root *)

Lemma fast_sqrt_loop_fuel (x : Z) (fuel extra : nat) :
  forall y b, 0 <= b < 2 ^ Z.of_nat fuel ->
    fast_sqrt_loop (fuel + extra) x y b = fast_sqrt_loop fuel x y b.
Proof.
  induction fuel as [|fuel IH]; intros y b Hb.
  - assert (b = 0) by (change (2 ^ Z.of_nat 0) with 1 in Hb; lia). subst b.
    destruct extra; reflexivity.
  - cbn [Nat.add fast_sqrt_loop].
    destruct (b >? 0) eqn:E; [|reflexivity].
    apply IH.
    rewrite Z.shiftr_div_pow2 by lia. change (2 ^ 1) with 2.
    rewrite Nat2Z.inj_succ, Z.pow_succ_r in Hb by lia.
    split; [apply Z.div_pos; lia | apply Z.div_lt_upper_bound; lia].
Qed.

(** The loop leaves through its [b > 0] test: more fuel changes nothing. *)
Lemma fast_sqrt_terminates (x : Z) (extra : nat) :
  fast_sqrt_loop (16 + extra) x 0 (Z.shiftl 1 15) = fast_sqrt_loop 16 x 0 (Z.shiftl 1 15).
Proof. apply fast_sqrt_loop_fuel. cbn. lia. Qed.

Lemma fast_sqrt_loop_exact (x : Z) (n : nat) :
  forall y, 0 <= y -> y * y <= x -> x < (y + 2 ^ Z.of_nat n) * (y + 2 ^ Z.of_nat n) ->
    y + 2 ^ Z.of_nat n <= 2 ^ 15 ->
    fast_sqrt_loop n x y (2 ^ Z.of_nat n / 2) = Z.sqrt x.
Proof.
  induction n as [|n IH]; intros y Hy Hlo Hhi Hcap.
  - cbn [fast_sqrt_loop]. change (2 ^ Z.of_nat 0) with 1 in Hhi.
    symmetry. apply Z.sqrt_unique. unfold Z.succ. lia.
  - rewrite Nat2Z.inj_succ, Z.pow_succ_r in * by lia.
    set (p := 2 ^ Z.of_nat n) in *.
    assert (Hp : 0 < p) by (apply Z.pow_pos_nonneg; lia).
    replace (2 * p / 2) with p by (rewrite Z.mul_comm, Z.div_mul; lia).
    cbn [fast_sqrt_loop].
    replace (p >? 0) with true by (symmetry; apply Z.gtb_lt; lia).
    assert (Hadd : add y p = y + p) by (apply wrap_small; unfold in_int; lia).
    rewrite Hadd.
    assert (Hmul : mul (y + p) (y + p) = (y + p) * (y + p)).
    { apply wrap_small. unfold in_int. nia. }
    rewrite Hmul.
    replace (Z.shiftr p 1) with (p / 2)
      by (rewrite Z.shiftr_div_pow2 by lia; reflexivity).
    destruct (Z.leb_spec ((y + p) * (y + p)) x).
    + apply IH; lia.
    + apply IH; lia.
Qed.

Lemma fast_sqrt_loop_S (n : nat) (x y b : Z) :
  fast_sqrt_loop (S n) x y b =
  if b >? 0 then
    fast_sqrt_loop n x
      (if mul (add y b) (add y b) <=? x then add y b else y) (Z.shiftr b 1)
  else y.
Proof. reflexivity. Qed.

(** Below 2^30 the helper is the exact floor square root. *)
Lemma fast_sqrt_exact (x : Z) : 0 < x < 2 ^ 30 -> fast_sqrt x = Z.sqrt x.
Proof.
  intros Hx. unfold fast_sqrt.
  replace (x <=? 0) with false by (symmetry; apply Z.leb_gt; lia).
  replace (Z.shiftl 1 15) with 32768 by reflexivity.
  rewrite (fast_sqrt_loop_S 15).
  replace (32768 >? 0) with true by reflexivity.
  replace (add 0 32768) with 32768 by reflexivity.
  replace (mul 32768 32768) with 1073741824 by reflexivity.
  replace (1073741824 <=? x) with false by (symmetry; apply Z.leb_gt; lia).
  replace (Z.shiftr 32768 1) with (2 ^ Z.of_nat 15 / 2) by reflexivity.
  apply fast_sqrt_loop_exact.
  - lia.
  - lia.
  - replace (2 ^ Z.of_nat 15) with 32768 by reflexivity. lia.
  - replace (2 ^ Z.of_nat 15) with 32768 by reflexivity. lia.
Qed.

Lemma fast_sqrt_nonpos (x : Z) : x <= 0 -> fast_sqrt x = 0.
Proof.
  intros H. unfold fast_sqrt.
  replace (x <=? 0) with true by (symmetry; apply Z.leb_le; lia). reflexivity.
Qed.

(** C9 (integer square root, the failing input): at x = 2^30 the square
    [y_plus_b * y_plus_b] overflows [int] from the second iteration on, every
    comparison then succeeds, and the helper returns 65535 where the floor of
    the square root is 32768. *)
Theorem fast_sqrt_overflow :
  in_int 1073741824 /\ fast_sqrt 1073741824 = 65535 /\ Z.sqrt 1073741824 = 32768.
Proof.
  split; [unfold in_int; lia|]. split; vm_compute; reflexivity.
Qed.

(** ** What the operations leave alone *)

Lemma kept_refl (w : world) : kept w w.
Proof. repeat split. Qed.

Lemma kept_trans (w1 w2 w3 : world) : kept w1 w2 -> kept w2 w3 -> kept w1 w3.
Proof.
  unfold kept. intros (A1 & A2 & A3) (B1 & B2 & B3).
  repeat split; congruence.
Qed.

Lemma kept_emit (es : list effect) (w : world) : kept w (emit es w).
Proof. repeat split. Qed.

Lemma kept_random (w : world) : kept w (snd (get_random_bytes w)).
Proof. repeat split. Qed.

Lemma kept_with_config (f : stealth_config -> stealth_config) (w : world) :
  fixed (f (cfg_of w)) = fixed (cfg_of w) ->
  current_mode (f (cfg_of w)) = current_mode (cfg_of w) ->
  kept w (with_config f w).
Proof. intros H1 H2. repeat split; assumption. Qed.

Lemma kept_send (slot x y pressure : Z) (w : world) :
  kept w (send_touch_event_safe slot x y pressure w).
Proof.
  unfold send_touch_event_safe.
  destruct (negb (input_dev (stealth_dev w)) || negb (truthy (activated (cfg_of w))));
    [apply kept_refl|].
  destruct ((jitter_range (cfg_of w) >? 0) && (stealth_clamp pressure 0 255 >? 0)).
  - destruct (get_random_bytes w) as [rand_val w1] eqn:E.
    destruct (jitter_offsets (jitter_range (cfg_of w)) rand_val) as [jx jy].
    assert (w1 = snd (get_random_bytes w)) by (rewrite E; reflexivity). subst w1.
    repeat split.
  - repeat split.
Qed.

Lemma kept_update_joystick (keycode pressed : Z) (w : world) :
  kept w (update_joystick_state keycode pressed w).
Proof.
  unfold update_joystick_state.
  destruct (negb (truthy (joystick.enabled (joystick (cfg_of w))))
            || negb (current_mode (cfg_of w) =? MODE_JOYSTICK)); [apply kept_refl|].
  set (w1 := with_config (upd_joystick (joystick_key_update keycode pressed)) w).
  assert (K1 : kept w w1) by (apply kept_with_config; reflexivity).
  destruct (joystick_vector (joystick (cfg_of w1))) as [dx dy].
  destruct (negb (dx =? 0) || negb (dy =? 0)).
  - eapply kept_trans; [exact K1|].
    eapply kept_trans; [|apply kept_send].
    apply kept_with_config; reflexivity.
  - destruct (truthy (joystick.active (joystick (cfg_of w1)))); [|exact K1].
    eapply kept_trans; [exact K1|].
    eapply kept_trans; [|apply kept_send].
    apply kept_with_config; reflexivity.
Qed.

Lemma kept_cursor_mode_key (keycode pressed : Z) (w : world) :
  kept w (cursor_mode_key keycode pressed w).
Proof.
  unfold cursor_mode_key.
  eapply kept_trans; [|apply kept_with_config; reflexivity].
  destruct ((keycode =? cursor.last_key (cursor (cfg_of w))) && truthy pressed);
    [|apply kept_refl].
  eapply kept_trans; [|apply kept_with_config; reflexivity].
  eapply kept_trans; [|apply kept_send].
  eapply kept_trans; [|apply kept_emit].
  apply kept_send.
Qed.

Lemma kept_mode_key (keycode pressed : Z) (w : world) :
  kept w (mode_key keycode pressed w).
Proof.
  unfold mode_key.
  destruct (current_mode (cfg_of w) =? MODE_JOYSTICK); [apply kept_update_joystick|].
  destruct (current_mode (cfg_of w) =? MODE_CURSOR); [apply kept_cursor_mode_key|].
  apply kept_refl.
Qed.

Lemma kept_keymap_fire (km : key_mapping.t) (pressed : Z) (w : world) :
  kept w (keymap_fire km pressed w).
Proof.
  unfold keymap_fire.
  destruct (truthy pressed).
  - destruct (key_mapping.action km =? 0).
    + eapply kept_trans; [|apply kept_send].
      eapply kept_trans; [|apply kept_emit].
      apply kept_send.
    + destruct (key_mapping.action km =? 1); [apply kept_send|apply kept_refl].
  - destruct (truthy (key_mapping.instant_release km)); [apply kept_send|apply kept_refl].
Qed.

Lemma kept_keymap_walk (km : list key_mapping.t) (keycode pressed : Z) (w : world) :
  kept w (keymap_walk km keycode pressed w).
Proof.
  induction km as [|node next IH]; cbn [keymap_walk]; [apply kept_refl|].
  destruct (key_mapping.keycode node =? keycode); [apply kept_keymap_fire|exact IH].
Qed.

Lemma read_field_fixed (data : list byte)
    (store : Z -> stealth_config -> stealth_config) (st : stealth_config * Z) :
  (forall v c, fixed (store v c) = fixed c) ->
  fixed (fst (read_field data store st)) = fixed (fst st).
Proof.
  intros H. destruct st as [c offset]. unfold read_field.
  destruct (offset + 4 <=? Z.of_nat (length data)); cbn [fst]; [apply H|reflexivity].
Qed.

Lemma read_field_mode (data : list byte)
    (store : Z -> stealth_config -> stealth_config) (st : stealth_config * Z) :
  (forall v c, current_mode (store v c) = current_mode c) ->
  current_mode (fst (read_field data store st)) = current_mode (fst st).
Proof.
  intros H. destruct st as [c offset]. unfold read_field.
  destruct (offset + 4 <=? Z.of_nat (length data)); cbn [fst]; [apply H|reflexivity].
Qed.

Lemma set_joystick_fields_fixed (data : list byte) (c : stealth_config) :
  fixed (set_joystick_fields data c) = fixed c.
Proof.
  unfold set_joystick_fields.
  repeat (rewrite read_field_fixed by reflexivity). reflexivity.
Qed.

Lemma set_slide_key_fields_fixed (data : list byte) (c : stealth_config) :
  fixed (set_slide_key_fields data c) = fixed c.
Proof.
  unfold set_slide_key_fields.
  repeat (rewrite read_field_fixed by reflexivity). reflexivity.
Qed.

Lemma set_joystick_fields_mode (data : list byte) (c : stealth_config) :
  current_mode (set_joystick_fields data c) = current_mode c.
Proof.
  unfold set_joystick_fields.
  repeat (rewrite read_field_mode by reflexivity). reflexivity.
Qed.

Lemma set_slide_key_fields_mode (data : list byte) (c : stealth_config) :
  current_mode (set_slide_key_fields data c) = current_mode c.
Proof.
  unfold set_slide_key_fields.
  repeat (rewrite read_field_mode by reflexivity). reflexivity.
Qed.

Ltac split_ifs :=
  repeat match goal with
         | |- context [if ?b then _ else _] => destruct b
         end.

Lemma dispatch_fixed (cmd : Z) (data : list byte) (jiffies : Z) (c : stealth_config) :
  fixed (snd (dispatch cmd data jiffies c)) = fixed c.
Proof.
  unfold dispatch. split_ifs; cbn [snd];
    auto using set_joystick_fields_fixed, set_slide_key_fields_fixed.
Qed.

Lemma process_hidden_command_fixed (data : list byte) (jiffies : Z) (c : stealth_config) :
  fixed (snd (process_hidden_command data jiffies c)) = fixed c.
Proof.
  unfold process_hidden_command.
  destruct (check_frame data); try reflexivity.
  pose proof (dispatch_fixed cmd data jiffies c) as H.
  destruct (dispatch cmd data jiffies c) as [ret c'].
  destruct (ret =? 0); exact H.
Qed.

Lemma heartbeat_check_fixed (HZ now : Z) (c : stealth_config) :
  fixed (heartbeat_check HZ now c) = fixed c.
Proof. unfold heartbeat_check. split_ifs; reflexivity. Qed.

Lemma stealth_worker_tick_fixed (c : stealth_config) :
  fixed (stealth_worker_tick c) = fixed c.
Proof. unfold stealth_worker_tick. split_ifs; reflexivity. Qed.

Lemma handle_key_mapping_fixed (keycode pressed : Z) (w : world) :
  input_dev (stealth_dev (handle_key_mapping keycode pressed w)) = input_dev (stealth_dev w) /\
  fixed (cfg_of (handle_key_mapping keycode pressed w)) = fixed (cfg_of w).
Proof.
  unfold handle_key_mapping.
  destruct ((keycode =? mode_switch_key (cfg_of w)) && truthy pressed).
  - split; reflexivity.
  - pose proof (kept_mode_key keycode pressed w) as K1.
    pose proof (kept_keymap_walk (keymap_list (cfg_of (mode_key keycode pressed w)))
                  keycode pressed (mode_key keycode pressed w)) as K2.
    destruct (kept_trans _ _ _ K1 K2) as (A & B & _). split; assumption.
Qed.

Lemma step_fixed (HZ : Z) (o : operation) (w : world) :
  input_dev (stealth_dev (step HZ o w)) = input_dev (stealth_dev w) /\
  fixed (cfg_of (step HZ o w)) = fixed (cfg_of w).
Proof.
  destruct o as [data jiffies|keycode pressed|jiffies|]; cbn [step].
  - split; [reflexivity|apply process_hidden_command_fixed].
  - apply handle_key_mapping_fixed.
  - split; [reflexivity|apply heartbeat_check_fixed].
  - split; [reflexivity|apply stealth_worker_tick_fixed].
Qed.

(** Screen size, heartbeat interval, mode-switch key, the (empty) mapping
    list and the view position are those of initialisation in every
    reachable state, and the input device stays registered. *)
Lemma reachable_fixed (HZ : Z) (w : world) :
  reachable HZ w ->
  input_dev (stealth_dev w) = true /\
  fixed (cfg_of w) = (2800, 2000, 30, 59, [], 0, 0).
Proof.
  induction 1 as [e|w o _ [IH1 IH2]].
  - split; reflexivity.
  - destruct (step_fixed HZ o w) as [A B]. split; congruence.
Qed.

(** ** Command validation *)

(** C1 (validation failures): a buffer shorter than 7 bytes, or with a wrong
    magic, or with a wrong CRC16 over bytes [6, len), is rejected with
    -EINVAL; the checks are made in that order (the first failing one decides
    the exit taken), and the configuration, counters included, is returned
    unchanged. *)
Theorem process_hidden_command_rejects_invalid
    (data : list byte) (jiffies : Z) (c : stealth_config) :
  Z.of_nat (length data) < 7 \/
  get_unaligned_le32 data 0 <> MAGIC_SIGNATURE \/
  get_unaligned_le16 data 4 <> simple_crc16 (skipn 6 data) ->
  check_frame data =
    (if Z.of_nat (length data) <? 7 then TooShort
     else if get_unaligned_le32 data 0 =? MAGIC_SIGNATURE then BadCrc
     else BadMagic) /\
  process_hidden_command data jiffies c = (- EINVAL, c).
Proof.
  intros H. unfold process_hidden_command, check_frame, hdr_min_len.
  destruct (Z.ltb_spec (Z.of_nat (length data)) 7) as [Hs|Hl]; [split; reflexivity|].
  destruct (Z.eqb_spec (get_unaligned_le32 data 0) MAGIC_SIGNATURE) as [Hm|Hm];
    cbn [negb]; [|split; reflexivity].
  destruct (Z.eqb_spec (get_unaligned_le16 data 4) (simple_crc16 (skipn 6 data))) as [Hc|Hc];
    cbn [negb]; [|split; reflexivity].
  exfalso. destruct H as [H|[H|H]]; [lia|exact (H Hm)|exact (H Hc)].
Qed.

Lemma process_hidden_command_rejects_invalid_witness :
  check_frame bad_crc_frame = BadCrc /\
  process_hidden_command bad_crc_frame 5 init_config = (- EINVAL, init_config).
Proof.
  apply (process_hidden_command_rejects_invalid bad_crc_frame 5 init_config).
  right. right. vm_compute. discriminate.
Defined.

(** ** Input injection engine *)

(** C2 (activation gate): with the activation flag clear, a call to the
    injection engine changes nothing at all; in particular the sink receives
    no event. *)
Theorem send_touch_event_safe_inactive (slot x y pressure : Z) (w : world) :
  activated (cfg_of w) = 0 ->
  send_touch_event_safe slot x y pressure w = w /\
  emitted_by w (send_touch_event_safe slot x y pressure w) = [].
Proof.
  intros H.
  assert (E : send_touch_event_safe slot x y pressure w = w).
  { unfold send_touch_event_safe. rewrite H.
    rewrite orb_true_r. reflexivity. }
  rewrite E. split; [reflexivity|].
  unfold emitted_by. apply skipn_all.
Qed.

Lemma send_touch_event_safe_inactive_witness :
  send_touch_event_safe 3 100 200 100 (init_world (fun _ => 7)) = init_world (fun _ => 7) /\
  emitted_by (init_world (fun _ => 7))
    (send_touch_event_safe 3 100 200 100 (init_world (fun _ => 7))) = [].
Proof.
  apply (send_touch_event_safe_inactive 3 100 200 100 (init_world (fun _ => 7))).
  reflexivity.
Defined.

Lemma emitted_by_app (w w' : world) (es : list effect) :
  sink w' = sink w ++ es -> emitted_by w w' = es.
Proof.
  intros H. unfold emitted_by. rewrite H.
  rewrite skipn_app, skipn_all, Nat.sub_diag. reflexivity.
Qed.

Lemma emitted_by_self (w : world) : emitted_by w w = [].
Proof. unfold emitted_by. apply skipn_all. Qed.

Lemma report_touch_in_screen (c : stealth_config) (slot x y pressure : Z) :
  0 <= x <= screen_width c - 1 -> 0 <= y <= screen_height c - 1 ->
  Forall (coords_in_screen c) (report_touch slot x y pressure).
Proof.
  intros Hx Hy. unfold report_touch.
  destruct (pressure >? 0); cbn [app];
    repeat (apply Forall_cons; [first [exact I|assumption]|]); apply Forall_nil.
Qed.

(** The shape of every call: either nothing happens, or one report is
    appended whose coordinates are the result of a final clamp. *)
Lemma send_touch_event_safe_shape (slot x y pressure : Z) (w : world) :
  send_touch_event_safe slot x y pressure w = w \/
  exists x0 y0,
    sink (send_touch_event_safe slot x y pressure w) =
      sink w ++ report_touch slot
                  (stealth_clamp x0 0 (sub (screen_width (cfg_of w)) 1))
                  (stealth_clamp y0 0 (sub (screen_height (cfg_of w)) 1))
                  (stealth_clamp pressure 0 255).
Proof.
  unfold send_touch_event_safe.
  destruct (negb (input_dev (stealth_dev w)) || negb (truthy (activated (cfg_of w))));
    [left; reflexivity|right].
  destruct ((jitter_range (cfg_of w) >? 0) && (stealth_clamp pressure 0 255 >? 0)).
  - destruct (get_random_bytes w) as [rand_val w1] eqn:E.
    destruct (jitter_offsets (jitter_range (cfg_of w)) rand_val) as [jx jy].
    assert (sink w1 = sink w) by (injection E as _ <-; reflexivity).
    eexists _, _. cbn [with_config emit sink]. rewrite H. reflexivity.
  - exists x, y. reflexivity.
Qed.

(** Clamping holds on any screen of positive size, with or without jitter. *)
Lemma send_touch_in_screen (slot x y pressure : Z) (w : world) :
  1 <= screen_width (cfg_of w) < 2 ^ 31 ->
  1 <= screen_height (cfg_of w) < 2 ^ 31 ->
  Forall (coords_in_screen (cfg_of w))
    (emitted_by w (send_touch_event_safe slot x y pressure w)).
Proof.
  intros Hw Hh.
  destruct (send_touch_event_safe_shape slot x y pressure w) as [E|(x0 & y0 & E)].
  - rewrite E, emitted_by_self. constructor.
  - rewrite (emitted_by_app _ _ _ E).
    unfold sub in *. rewrite !wrap_small by (unfold in_int; lia).
    apply report_touch_in_screen; apply clamp_bounds; lia.
Qed.

(** Without jitter the emitted position is the clamped request. *)
Lemma send_touch_no_jitter (slot x y pressure : Z) (w : world) :
  input_dev (stealth_dev w) = true ->
  activated (cfg_of w) <> 0 ->
  jitter_range (cfg_of w) <= 0 ->
  sink (send_touch_event_safe slot x y pressure w) =
    sink w ++ report_touch slot
                (stealth_clamp x 0 (sub (screen_width (cfg_of w)) 1))
                (stealth_clamp y 0 (sub (screen_height (cfg_of w)) 1))
                (stealth_clamp pressure 0 255).
Proof.
  intros Hd Ha Hj. unfold send_touch_event_safe.
  rewrite Hd. unfold truthy.
  replace (activated (cfg_of w) =? 0) with false by (symmetry; apply Z.eqb_neq; exact Ha).
  cbn [negb orb].
  replace (jitter_range (cfg_of w) >? 0) with false
    by (symmetry; destruct (Z.gtb_spec (jitter_range (cfg_of w)) 0); [lia|reflexivity]).
  reflexivity.
Qed.

(** C3 (clamping): in every reachable state, whatever a call to the injection
    engine emits has its coordinates inside
    [0, screen_width-1] x [0, screen_height-1], jitter included; and with the
    service activated and jitter disabled a press requested at (5000, -100)
    is reported at (2799, 0) on the 2800x2000 screen. *)
Theorem send_touch_event_safe_clamped
    (HZ : Z) (w : world) (slot x y pressure : Z) :
  reachable HZ w ->
  screen_width (cfg_of w) = 2800 /\ screen_height (cfg_of w) = 2000 /\
  Forall (coords_in_screen (cfg_of w))
    (emitted_by w (send_touch_event_safe slot x y pressure w)) /\
  (activated (cfg_of w) <> 0 -> jitter_range (cfg_of w) <= 0 -> 0 < pressure ->
   emitted_by w (send_touch_event_safe slot 5000 (-100) pressure w) =
     [input_mt_slot slot; input_mt_report_slot_state true;
      input_report_abs ABS_MT_POSITION_X 2799;
      input_report_abs ABS_MT_POSITION_Y 0;
      input_report_abs ABS_MT_PRESSURE (stealth_clamp pressure 0 255);
      input_report_abs ABS_MT_TOUCH_MAJOR 10;
      input_report_abs ABS_MT_TRACKING_ID slot;
      input_sync]).
Proof.
  intros R. destruct (reachable_fixed HZ w R) as [Hd Hf].
  unfold fixed in Hf. injection Hf as Hw Hh _ _ _ _ _.
  split; [exact Hw|]. split; [exact Hh|]. split.
  - apply send_touch_in_screen; lia.
  - intros Ha Hj Hp.
    rewrite (emitted_by_app _ _ _ (send_touch_no_jitter slot 5000 (-100) pressure w Hd Ha Hj)).
    rewrite Hw, Hh. unfold report_touch.
    replace (stealth_clamp pressure 0 255 >? 0) with true.
    + reflexivity.
    + symmetry. apply Z.gtb_lt. unfold stealth_clamp.
      destruct (Z.ltb_spec pressure 0); [lia|].
      destruct (Z.gtb_spec pressure 255); lia.
Qed.

Lemma reachable_run (HZ : Z) (ops : list operation) :
  forall w, reachable HZ w -> reachable HZ (run HZ ops w).
Proof.
  unfold run. induction ops as [|o ops IH]; intros w R; cbn [fold_left].
  - exact R.
  - apply IH. apply reach_step. exact R.
Qed.

Lemma send_touch_event_safe_clamped_witness :
  emitted_by
    (run 250 [Command (mk_frame CMD_ACTIVATE []) 1000;
              Command (mk_frame CMD_SET_CONFIG (le_bytes 4 3 ++ le_bytes 4 0)) 1001]
       (init_world (fun _ => 0)))
    (send_touch_event_safe 0 5000 (-100) 100
       (run 250 [Command (mk_frame CMD_ACTIVATE []) 1000;
                 Command (mk_frame CMD_SET_CONFIG (le_bytes 4 3 ++ le_bytes 4 0)) 1001]
          (init_world (fun _ => 0))))
  = [input_mt_slot 0; input_mt_report_slot_state true;
     input_report_abs ABS_MT_POSITION_X 2799;
     input_report_abs ABS_MT_POSITION_Y 0;
     input_report_abs ABS_MT_PRESSURE 100;
     input_report_abs ABS_MT_TOUCH_MAJOR 10;
     input_report_abs ABS_MT_TRACKING_ID 0;
     input_sync].
Proof.
  refine (proj2 (proj2 (proj2
    (send_touch_event_safe_clamped 250 _ 0 5000 (-100) 100
       (reachable_run 250 _ _ (reach_init 250 (fun _ => 0)))))) _ _ _).
  - vm_compute. discriminate.
  - vm_compute. discriminate.
  - reflexivity.
Defined.

(** ** Progressive-prefix commands *)

Lemma read_field_yes (data : list byte)
    (store : Z -> stealth_config -> stealth_config) (c : stealth_config) (offset : Z) :
  offset + 4 <= Z.of_nat (length data) ->
  read_field data store (c, offset)
  = (store (wrap (get_unaligned_le32 data offset)) c, offset + 4).
Proof.
  intros H. unfold read_field.
  replace (offset + 4 <=? Z.of_nat (length data)) with true
    by (symmetry; apply Z.leb_le; exact H).
  reflexivity.
Qed.

Lemma read_field_no (data : list byte)
    (store : Z -> stealth_config -> stealth_config) (c : stealth_config) (offset : Z) :
  Z.of_nat (length data) < offset + 4 ->
  read_field data store (c, offset) = (c, offset).
Proof.
  intros H. unfold read_field.
  replace (offset + 4 <=? Z.of_nat (length data)) with false
    by (symmetry; apply Z.leb_gt; exact H).
  reflexivity.
Qed.

Ltac read_fields :=
  repeat first [rewrite read_field_yes by lia | rewrite read_field_no by lia];
  cbn [fst].

Tactic Notation "by_field" integer(n) ident(i) :=
  do n (destruct i as [|i]; [first [exfalso; lia | reflexivity]|]);
  exfalso; lia.

(** What SET_JOYSTICK stores: exactly the fields whose four bytes are all in
    the buffer, in protocol order. *)
Lemma set_joystick_fields_prefix (data : list byte) (c : stealth_config) (K r : Z) :
  Z.of_nat (length data) = 7 + 4 * K + r -> 0 <= K -> 0 <= r < 4 ->
  (forall i : nat, Z.of_nat i < Z.min K 6 ->
     nth i (joystick_params (set_joystick_fields data c)) 0 = payload_word data i) /\
  (forall i : nat, K <= Z.of_nat i < 6 ->
     nth i (joystick_params (set_joystick_fields data c)) 0 = nth i (joystick_params c) 0) /\
  put_joystick_params (joystick_params c) (set_joystick_fields data c) = c.
Proof.
  intros Hlen HK Hr.
  assert (HKc : K = 0 \/ K = 1 \/ K = 2 \/ K = 3 \/ K = 4 \/ K = 5 \/ 6 <= K) by lia.
  unfold set_joystick_fields.
  destruct c as [a0 a1 a2 a3 a4 a5 a6 a7 [j0 j1 j2 j3 j4 j5 j6 j7 j8 j9 j10 j11 j12 j13]
                 a9 a10 a11 a12 a13 a14 a15 a16 a17 a18 a19 a20].
  destruct HKc as [HKc|[HKc|[HKc|[HKc|[HKc|[HKc|HKc]]]]]];
    read_fields;
    (split; [intros i Hi; by_field 6 i|split; [intros i Hi; by_field 6 i|reflexivity]]).
Qed.

Lemma set_slide_key_fields_prefix (data : list byte) (c : stealth_config) (K r : Z) :
  Z.of_nat (length data) = 7 + 4 * K + r -> 0 <= K -> 0 <= r < 4 ->
  (forall i : nat, Z.of_nat i < Z.min K 8 ->
     nth i (slide_key_params (set_slide_key_fields data c)) 0 = payload_word data i) /\
  (forall i : nat, K <= Z.of_nat i < 8 ->
     nth i (slide_key_params (set_slide_key_fields data c)) 0 = nth i (slide_key_params c) 0) /\
  put_slide_key_params (slide_key_params c) (set_slide_key_fields data c) = c.
Proof.
  intros Hlen HK Hr.
  assert (HKc : K = 0 \/ K = 1 \/ K = 2 \/ K = 3 \/ K = 4 \/ K = 5 \/ K = 6 \/ K = 7 \/ 8 <= K)
    by lia.
  unfold set_slide_key_fields.
  destruct c as [a0 a1 a2 a3 a4 [s0 s1 s2 s3 s4 s5 s6 s7 s8 s9 s10 s11 s12 s13]
                 a6 a7 a8 a9 a10 a11 a12 a13 a14 a15 a16 a17 a18 a19 a20].
  destruct HKc as [HKc|[HKc|[HKc|[HKc|[HKc|[HKc|[HKc|[HKc|HKc]]]]]]]];
    read_fields;
    (split; [intros i Hi; by_field 8 i|split; [intros i Hi; by_field 8 i|reflexivity]]).
Qed.

Lemma accepted_set_joystick (data : list byte) (jiffies : Z) (c : stealth_config) :
  check_frame data = FrameOk CMD_SET_JOYSTICK ->
  process_hidden_command data jiffies c = (0, count_command (set_joystick_fields data c)).
Proof. intros H. unfold process_hidden_command. rewrite H. reflexivity. Qed.

Lemma accepted_set_slide_key (data : list byte) (jiffies : Z) (c : stealth_config) :
  check_frame data = FrameOk CMD_SET_SLIDE_KEY ->
  process_hidden_command data jiffies c = (0, count_command (set_slide_key_fields data c)).
Proof. intros H. unfold process_hidden_command. rewrite H. reflexivity. Qed.

(** C4 as stated fails: an accepted SET_JOYSTICK frame with no payload field
    (K = 0) still changes the Config Store, because the command counter is
    incremented. *)
Lemma set_joystick_counts_command :
  check_frame (mk_frame CMD_SET_JOYSTICK []) = FrameOk CMD_SET_JOYSTICK /\
  Z.of_nat (length (mk_frame CMD_SET_JOYSTICK [])) = 7 + 4 * 0 /\
  stats_commands init_config = 0 /\
  stats_commands (snd (process_hidden_command (mk_frame CMD_SET_JOYSTICK []) 0 init_config)) = 1 /\
  snd (process_hidden_command (mk_frame CMD_SET_JOYSTICK []) 0 init_config) <> init_config.
Proof.
  repeat split; try (vm_compute; reflexivity).
  intros H. apply (f_equal stats_commands) in H. vm_compute in H. discriminate H.
Qed.

(** C4 (progressive-prefix commands), amended: an accepted SET_JOYSTICK
    (resp. SET_SLIDE_KEY) frame of length 7 + 4K + r with 0 <= r < 4 returns
    0, stores the first K payload words (at most 6, resp. 8) into the first K
    protocol fields, keeps the remaining protocol fields, and changes nothing
    else in the configuration except the command counter, which is
    incremented; the r trailing bytes update nothing. *)
Theorem prefix_commands_update_first_fields
    (data : list byte) (jiffies : Z) (c : stealth_config) (K r : Z) :
  Z.of_nat (length data) = 7 + 4 * K + r -> 0 <= K -> 0 <= r < 4 ->
  (check_frame data = FrameOk CMD_SET_JOYSTICK ->
   fst (process_hidden_command data jiffies c) = 0 /\
   joystick_prefix_applied K data c (snd (process_hidden_command data jiffies c))) /\
  (check_frame data = FrameOk CMD_SET_SLIDE_KEY ->
   fst (process_hidden_command data jiffies c) = 0 /\
   slide_key_prefix_applied K data c (snd (process_hidden_command data jiffies c))).
Proof.
  intros Hlen HK Hr. split; intros Hc.
  - rewrite (accepted_set_joystick data jiffies c Hc). cbn [fst snd].
    split; [reflexivity|].
    destruct (set_joystick_fields_prefix data c K r Hlen HK Hr) as (A & B & C).
    unfold joystick_prefix_applied.
    change (joystick_params (count_command (set_joystick_fields data c)))
      with (joystick_params (set_joystick_fields data c)).
    split; [exact A|]. split; [exact B|].
    change (put_joystick_params (joystick_params c)
              (count_command (set_joystick_fields data c)))
      with (count_command (put_joystick_params (joystick_params c)
              (set_joystick_fields data c))).
    rewrite C. reflexivity.
  - rewrite (accepted_set_slide_key data jiffies c Hc). cbn [fst snd].
    split; [reflexivity|].
    destruct (set_slide_key_fields_prefix data c K r Hlen HK Hr) as (A & B & C).
    unfold slide_key_prefix_applied.
    change (slide_key_params (count_command (set_slide_key_fields data c)))
      with (slide_key_params (set_slide_key_fields data c)).
    split; [exact A|]. split; [exact B|].
    change (put_slide_key_params (slide_key_params c)
              (count_command (set_slide_key_fields data c)))
      with (count_command (put_slide_key_params (slide_key_params c)
              (set_slide_key_fields data c))).
    rewrite C. reflexivity.
Qed.

Lemma prefix_commands_update_first_fields_witness :
  (fst (process_hidden_command joystick_centre_frame 9 init_config) = 0 /\
   joystick_prefix_applied 2 joystick_centre_frame init_config
     (snd (process_hidden_command joystick_centre_frame 9 init_config))) /\
  (fst (process_hidden_command slide_enable_frame 9 init_config) = 0 /\
   slide_key_prefix_applied 1 slide_enable_frame init_config
     (snd (process_hidden_command slide_enable_frame 9 init_config))).
Proof.
  split.
  - apply (prefix_commands_update_first_fields joystick_centre_frame 9 init_config 2 2);
      [vm_compute; reflexivity|lia|lia|vm_compute; reflexivity].
  - apply (prefix_commands_update_first_fields slide_enable_frame 9 init_config 1 0);
      [vm_compute; reflexivity|lia|lia|vm_compute; reflexivity].
Defined.

Example joystick_centre_frame_effect :
  joystick_params (snd (process_hidden_command joystick_centre_frame 9 init_config))
  = [800; 1600; 150; 10; 3; 1].
Proof. vm_compute. reflexivity. Qed.

(** ** Operating mode *)

Lemma process_hidden_command_mode (data : list byte) (jiffies : Z) (c : stealth_config) :
  current_mode (snd (process_hidden_command data jiffies c)) =
  match carried_mode data with
  | Some m => m
  | None => current_mode c
  end.
Proof.
  unfold process_hidden_command, carried_mode.
  destruct (check_frame data) as [| | |cmd]; try reflexivity.
  unfold dispatch.
  destruct (Z.eqb_spec cmd CMD_ACTIVATE) as [E|_]; [subst cmd; reflexivity|].
  destruct (Z.eqb_spec cmd CMD_DEACTIVATE) as [E|_]; [subst cmd; reflexivity|].
  destruct (Z.eqb_spec cmd CMD_HEARTBEAT) as [E|_]; [subst cmd; reflexivity|].
  destruct (Z.eqb_spec cmd CMD_SET_CONFIG) as [E|_].
  { subst cmd. destruct (Z.of_nat (length data) <? 15); reflexivity. }
  destruct (Z.eqb_spec cmd CMD_SET_MODE) as [E|_].
  { subst cmd. destruct (Z.of_nat (length data) <? 11); reflexivity. }
  destruct (Z.eqb_spec cmd CMD_SET_SENSITIVITY) as [E|_].
  { subst cmd. destruct (Z.of_nat (length data) <? 11); reflexivity. }
  destruct (Z.eqb_spec cmd CMD_SET_JOYSTICK) as [E|_].
  { subst cmd. cbn [snd Z.eqb]. apply set_joystick_fields_mode. }
  destruct (Z.eqb_spec cmd CMD_SET_SLIDE_KEY) as [E|_].
  { subst cmd. cbn [snd Z.eqb]. apply set_slide_key_fields_mode. }
  destruct (Z.eqb_spec cmd CMD_SET_KEY_MAPPING) as [E|_].
  { subst cmd. destruct (Z.of_nat (length data) >=? 11); [|reflexivity].
    destruct (negb (get_unaligned_le32 data 7 =? 0)); reflexivity. }
  reflexivity.
Qed.

Lemma valid_mode_bounds (m : Z) : valid_mode m <-> 0 <= m <= 3.
Proof.
  unfold valid_mode, MODE_CURSOR, MODE_VIEW, MODE_JOYSTICK, MODE_SILENT. lia.
Qed.

(** The mode-switch key cycles inside the four modes. *)
Lemma mode_switch_valid (m : Z) : valid_mode m -> valid_mode (rem (add m 1) 4).
Proof.
  intros [-> | [-> | [-> | ->]]]; apply valid_mode_bounds; vm_compute; split; discriminate.
Qed.

Lemma handle_key_mapping_mode (keycode pressed : Z) (w : world) :
  current_mode (cfg_of (handle_key_mapping keycode pressed w)) =
  if (keycode =? mode_switch_key (cfg_of w)) && truthy pressed
  then rem (add (current_mode (cfg_of w)) 1) 4
  else current_mode (cfg_of w).
Proof.
  unfold handle_key_mapping.
  destruct ((keycode =? mode_switch_key (cfg_of w)) && truthy pressed); [reflexivity|].
  pose proof (kept_mode_key keycode pressed w) as K1.
  pose proof (kept_keymap_walk (keymap_list (cfg_of (mode_key keycode pressed w)))
                keycode pressed (mode_key keycode pressed w)) as K2.
  destruct (kept_trans _ _ _ K1 K2) as (_ & _ & A). exact A.
Qed.

Lemma step_valid_mode (HZ : Z) (o : operation) (w : world) :
  well_moded o -> valid_mode (current_mode (cfg_of w)) ->
  valid_mode (current_mode (cfg_of (step HZ o w))).
Proof.
  intros Ho Hm. destruct o as [data jiffies|keycode pressed|jiffies|]; cbn [step].
  - change (cfg_of (with_config (fun c => snd (process_hidden_command data jiffies c)) w))
      with (snd (process_hidden_command data jiffies (cfg_of w))).
    rewrite process_hidden_command_mode. cbn [well_moded] in Ho.
    destruct (carried_mode data); assumption.
  - rewrite handle_key_mapping_mode.
    destruct ((keycode =? mode_switch_key (cfg_of w)) && truthy pressed);
      [apply mode_switch_valid|]; assumption.
  - change (cfg_of (with_config (heartbeat_check HZ jiffies) w))
      with (heartbeat_check HZ jiffies (cfg_of w)).
    unfold heartbeat_check. split_ifs; exact Hm.
  - change (cfg_of (with_config stealth_worker_tick w))
      with (stealth_worker_tick (cfg_of w)).
    unfold stealth_worker_tick. split_ifs; exact Hm.
Qed.

(** C5 as stated fails: one accepted SET_MODE command carrying 7 leads from
    the initial state to a reachable state whose mode is none of the four. *)
Lemma set_mode_escapes_modes :
  reachable 250 (step 250 (Command set_mode_7_frame 0) (init_world (fun _ => 0))) /\
  fst (process_hidden_command set_mode_7_frame 0 init_config) = 0 /\
  current_mode (cfg_of (step 250 (Command set_mode_7_frame 0) (init_world (fun _ => 0)))) = 7 /\
  ~ valid_mode
      (current_mode (cfg_of (step 250 (Command set_mode_7_frame 0) (init_world (fun _ => 0))))).
Proof.
  split; [apply reach_step, reach_init|].
  split; [vm_compute; reflexivity|].
  split; [vm_compute; reflexivity|].
  rewrite valid_mode_bounds. vm_compute. intros [_ H]. apply H. reflexivity.
Qed.

(** C5 (mode invariant), amended: in every state reachable from
    initialisation by commands, key events, timer ticks and worker ticks in
    which every accepted SET_MODE or SET_CONFIG command carries a mode value
    among the four, [current_mode] is one of CURSOR, VIEW, JOYSTICK, SILENT;
    a press of the mode-switch key keeps it so. *)
Theorem current_mode_valid (HZ : Z) (w : world) :
  reachable_well_moded HZ w -> valid_mode (current_mode (cfg_of w)).
Proof.
  induction 1 as [e|w o _ IH Ho].
  - right. right. right. reflexivity.
  - apply step_valid_mode; assumption.
Qed.

Lemma current_mode_valid_witness :
  valid_mode (current_mode (cfg_of
    (step 250 (KeyEvent 59 1)
       (step 250 (Command (mk_frame CMD_SET_MODE (le_bytes 4 2)) 0)
          (init_world (fun _ => 0)))))).
Proof.
  apply (current_mode_valid 250).
  apply reach_wm_step; [apply reach_wm_step; [apply reach_wm_init|]|].
  - vm_compute. right. right. left. reflexivity.
  - exact I.
Defined.

(** ** Heartbeat watchdog *)

Lemma u64_small (z : Z) : 0 <= z < 2 ^ 64 -> u64 z = z.
Proof. intros H. unfold u64. apply Z.mod_small. exact H. Qed.

Lemma u64_sub_u64 (a b : Z) : u64 (a - u64 b) = u64 (a - b).
Proof. unfold u64. apply Zminus_mod_idemp_r. Qed.

Lemma heartbeat_check_activated (HZ now : Z) (c : stealth_config) :
  activated (heartbeat_check HZ now c) = activated c \/
  activated (heartbeat_check HZ now c) = 0.
Proof. unfold heartbeat_check. split_ifs; auto. Qed.

(** C7 (watchdog): in every reachable state the heartbeat interval is 30
    seconds, and a timer tick at time [now] clears [activated] exactly when
    the service is activated and more than [heartbeat_interval * HZ] ticks
    have elapsed since [activate_time]; otherwise it changes nothing.  So a
    tick 31 seconds after the last ACTIVATE/HEARTBEAT deactivates, and after
    a HEARTBEAT at second 20 the ticks at seconds 20..49 leave [activated]
    as it was. *)
Theorem heartbeat_watchdog (HZ : Z) (w : world) (now : Z) :
  0 < HZ < 2 ^ 31 -> reachable HZ w ->
  heartbeat_interval (cfg_of w) = 30 /\
  heartbeat_check HZ now (cfg_of w) =
    (if truthy (activated (cfg_of w))
        && (u64 (now - activate_time (cfg_of w)) >? heartbeat_interval (cfg_of w) * HZ)
     then set_activated 0 (cfg_of w)
     else cfg_of w) /\
  (activated (cfg_of w) <> 0 ->
   activated (heartbeat_check HZ (activate_time (cfg_of w) + 31 * HZ) (cfg_of w)) = 0) /\
  (forall frame t0 k,
     check_frame frame = FrameOk CMD_HEARTBEAT -> 20 <= k <= 49 ->
     activated (heartbeat_check HZ (t0 + k * HZ)
                  (snd (process_hidden_command frame (t0 + 20 * HZ) (cfg_of w))))
     = activated (cfg_of w)).
Proof.
  intros HHZ R. destruct (reachable_fixed HZ w R) as [_ Hf].
  unfold fixed in Hf. injection Hf as _ _ Hhb _ _ _ _.
  assert (G : forall now' c, heartbeat_interval c = 30 ->
            heartbeat_check HZ now' c =
            (if truthy (activated c) && (u64 (now' - activate_time c) >? heartbeat_interval c * HZ)
             then set_activated 0 c else c)).
  { intros now' c Hc. unfold heartbeat_check. rewrite Hc.
    rewrite (u64_small 30) by lia. rewrite (u64_small (30 * HZ)) by lia.
    replace (30 >? 0) with true by reflexivity.
    destruct (truthy (activated c)); reflexivity. }
  split; [exact Hhb|]. split; [apply G; exact Hhb|]. split.
  - intros Ha. rewrite G by exact Hhb. rewrite Hhb.
    unfold truthy.
    replace (activated (cfg_of w) =? 0) with false by (symmetry; apply Z.eqb_neq; exact Ha).
    replace (activate_time (cfg_of w) + 31 * HZ - activate_time (cfg_of w)) with (31 * HZ) by lia.
    rewrite u64_small by lia.
    replace (31 * HZ >? 30 * HZ) with true by (symmetry; apply Z.gtb_lt; lia).
    reflexivity.
  - intros frame t0 k Hc Hk.
    unfold process_hidden_command. rewrite Hc.
    replace (dispatch CMD_HEARTBEAT frame (t0 + 20 * HZ) (cfg_of w))
      with (0, set_activate_time (u64 (t0 + 20 * HZ)) (cfg_of w)) by reflexivity.
    cbn [Z.eqb snd].
    rewrite G by exact Hhb.
    cbn [activate_time activated heartbeat_interval set_stats_commands set_activate_time].
    rewrite Hhb, u64_sub_u64.
    replace (t0 + k * HZ - (t0 + 20 * HZ)) with ((k - 20) * HZ) by lia.
    rewrite u64_small by nia.
    replace ((k - 20) * HZ >? 30 * HZ) with false
      by (symmetry; destruct (Z.gtb_spec ((k - 20) * HZ) (30 * HZ)); [nia|reflexivity]).
    rewrite andb_false_r. reflexivity.
Qed.

Lemma heartbeat_watchdog_witness :
  activated (heartbeat_check 250 (activate_time (cfg_of activated_world) + 31 * 250)
               (cfg_of activated_world)) = 0 /\
  activated (heartbeat_check 250 (1000 + 49 * 250)
               (snd (process_hidden_command (mk_frame CMD_HEARTBEAT []) (1000 + 20 * 250)
                       (cfg_of activated_world))))
  = activated (cfg_of activated_world).
Proof.
  assert (R : reachable 250 activated_world) by (apply reach_step, reach_init).
  destruct (heartbeat_watchdog 250 activated_world 0 ltac:(lia) R) as (_ & _ & A & B).
  split.
  - apply A. vm_compute. discriminate.
  - apply (B (mk_frame CMD_HEARTBEAT []) 1000 49); [vm_compute; reflexivity|lia].
Defined.

Example watchdog_timeline :
  map (fun s => activated (heartbeat_check 250 (1000 + s * 250) (cfg_of activated_world)))
      [1; 29; 30; 31; 60]
  = [1; 1; 1; 0; 0].
Proof. vm_compute. reflexivity. Qed.

(** ** Cursor mode *)

(** The engine writes nothing in the configuration but the moves counter. *)
Lemma send_touch_config (slot x y pressure : Z) (w : world) :
  exists k, cfg_of (send_touch_event_safe slot x y pressure w)
            = set_stats_moves k (cfg_of w).
Proof.
  unfold send_touch_event_safe.
  destruct (negb (input_dev (stealth_dev w)) || negb (truthy (activated (cfg_of w)))).
  - exists (stats_moves (cfg_of w)). destruct (cfg_of w). reflexivity.
  - destruct ((jitter_range (cfg_of w) >? 0) && (stealth_clamp pressure 0 255 >? 0)).
    + destruct (get_random_bytes w) as [rand_val w1] eqn:E.
      destruct (jitter_offsets (jitter_range (cfg_of w)) rand_val) as [jx jy].
      assert (cfg_of w1 = cfg_of w) by (injection E as _ <-; reflexivity).
      eexists. unfold cfg_of in *. cbn [with_config emit stealth_dev config].
      rewrite H. reflexivity.
    + eexists. reflexivity.
Qed.

Lemma keymap_fire_config (km : key_mapping.t) (pressed : Z) (w : world) :
  exists k, cfg_of (keymap_fire km pressed w) = set_stats_moves k (cfg_of w).
Proof.
  assert (Id : exists k, cfg_of w = set_stats_moves k (cfg_of w))
    by (exists (stats_moves (cfg_of w)); destruct (cfg_of w); reflexivity).
  unfold keymap_fire.
  destruct (truthy pressed).
  - destruct (key_mapping.action km =? 0).
    + match goal with
      | |- exists k, cfg_of (send_touch_event_safe ?s ?x ?y ?p (emit ?e ?w1)) = _ =>
          destruct (send_touch_config s x y p (emit e w1)) as [k2 E2]
      end.
      match goal with
      | E2 : context [emit _ (send_touch_event_safe ?s ?x ?y ?p w)] |- _ =>
          destruct (send_touch_config s x y p w) as [k1 E1]
      end.
      exists k2. rewrite E2.
      change (cfg_of (emit ?e ?w1)) with (cfg_of w1).
      unfold cfg_of in *. cbn [emit stealth_dev]. rewrite E1. reflexivity.
    + destruct (key_mapping.action km =? 1); [apply send_touch_config|exact Id].
  - destruct (truthy (key_mapping.instant_release km)); [apply send_touch_config|exact Id].
Qed.

Lemma keymap_walk_find (km : list key_mapping.t) (keycode pressed : Z) (w : world) :
  keymap_walk km keycode pressed w =
  match first_mapping keycode km with
  | Some node => keymap_fire node pressed w
  | None => w
  end.
Proof.
  unfold first_mapping.
  induction km as [|node next IH]; cbn [keymap_walk find]; [reflexivity|].
  destruct (key_mapping.keycode node =? keycode); [reflexivity|exact IH].
Qed.

Lemma keymap_walk_config (km : list key_mapping.t) (keycode pressed : Z) (w : world) :
  exists k, cfg_of (keymap_walk km keycode pressed w) = set_stats_moves k (cfg_of w).
Proof.
  rewrite keymap_walk_find.
  destruct (first_mapping keycode km); [apply keymap_fire_config|].
  exists (stats_moves (cfg_of w)). destruct (cfg_of w). reflexivity.
Qed.

(** After a key event handled in cursor mode, [last_key] is its keycode and
    the mode and the mode-switch key are as before. *)
Lemma cursor_event_records_key (keycode pressed : Z) (w : world) :
  current_mode (cfg_of w) = MODE_CURSOR ->
  (keycode =? mode_switch_key (cfg_of w)) && truthy pressed = false ->
  cursor.last_key (cursor (cfg_of (handle_key_mapping keycode pressed w))) = keycode /\
  current_mode (cfg_of (handle_key_mapping keycode pressed w)) = MODE_CURSOR /\
  mode_switch_key (cfg_of (handle_key_mapping keycode pressed w)) = mode_switch_key (cfg_of w).
Proof.
  intros Hm Hs.
  pose proof (handle_key_mapping_mode keycode pressed w) as M.
  destruct (handle_key_mapping_fixed keycode pressed w) as [_ F].
  rewrite Hs in M. split; [|split; [congruence|]].
  - unfold handle_key_mapping. rewrite Hs.
    destruct (keymap_walk_config
                (keymap_list (cfg_of (mode_key keycode pressed w)))
                keycode pressed (mode_key keycode pressed w)) as [k E].
    rewrite E. unfold mode_key. rewrite Hm. reflexivity.
  - unfold fixed in F. congruence.
Qed.

(** C8 as stated fails for the mode-switch key: in cursor mode, after a
    release of key 59 (the mode-switch key, recorded in [last_key]), a press
    of 59 has the keycode of the immediately preceding event, yet nothing is
    emitted; the press is consumed by the mode switch, which moves to VIEW
    and leaves [last_key] alone. *)
Lemma mode_switch_press_is_no_tap :
  activated (cfg_of cursor_world) = 1 /\
  current_mode (cfg_of (handle_key_mapping 59 0 cursor_world)) = MODE_CURSOR /\
  cursor.last_key (cursor (cfg_of (handle_key_mapping 59 0 cursor_world))) = 59 /\
  emitted_by (handle_key_mapping 59 0 cursor_world)
    (handle_key_mapping 59 1 (handle_key_mapping 59 0 cursor_world)) = [] /\
  current_mode (cfg_of (handle_key_mapping 59 1 (handle_key_mapping 59 0 cursor_world)))
    = MODE_VIEW.
Proof. repeat split; vm_compute; reflexivity. Qed.

(** C8 (cursor tap), amended: take two consecutive key events handled by the
    cursor handler (cursor mode, neither event a press of the mode-switch
    key, which is consumed before the mode handlers).  If the second is a
    press with the keycode of the first, whatever the kind of the first, the
    cursor handler performs the tap (press at the cursor position, 50 ms
    sleep, release), clears the active flag and records the key; otherwise
    it only records the key in [last_key] and the sink is untouched. *)
Theorem cursor_repeat_press_taps (k1 p1 k2 p2 : Z) (w : world) :
  current_mode (cfg_of w) = MODE_CURSOR ->
  (k1 =? mode_switch_key (cfg_of w)) && truthy p1 = false ->
  (k2 =? mode_switch_key (cfg_of w)) && truthy p2 = false ->
  mode_key k2 p2 (handle_key_mapping k1 p1 w) =
    (if (k2 =? k1) && truthy p2
     then with_config (upd_cursor (cursor.set_last_key k2))
            (cursor_tap (handle_key_mapping k1 p1 w))
     else with_config (upd_cursor (cursor.set_last_key k2))
            (handle_key_mapping k1 p1 w)) /\
  ((k2 =? k1) && truthy p2 = false ->
   sink (mode_key k2 p2 (handle_key_mapping k1 p1 w)) = sink (handle_key_mapping k1 p1 w)) /\
  handle_key_mapping k2 p2 (handle_key_mapping k1 p1 w) =
    keymap_walk (keymap_list (cfg_of (mode_key k2 p2 (handle_key_mapping k1 p1 w))))
      k2 p2 (mode_key k2 p2 (handle_key_mapping k1 p1 w)).
Proof.
  intros Hm H1 H2.
  destruct (cursor_event_records_key k1 p1 w Hm H1) as (L & M & S).
  set (w1 := handle_key_mapping k1 p1 w) in *.
  assert (E : mode_key k2 p2 w1 =
              (if (k2 =? k1) && truthy p2
               then with_config (upd_cursor (cursor.set_last_key k2)) (cursor_tap w1)
               else with_config (upd_cursor (cursor.set_last_key k2)) w1)).
  { unfold mode_key. rewrite M.
    replace (MODE_CURSOR =? MODE_JOYSTICK) with false by reflexivity.
    replace (MODE_CURSOR =? MODE_CURSOR) with true by reflexivity.
    unfold cursor_mode_key. rewrite L.
    destruct ((k2 =? k1) && truthy p2); reflexivity. }
  split; [exact E|]. split.
  - intros Hn. rewrite E, Hn. reflexivity.
  - unfold handle_key_mapping at 1. rewrite S, H2. reflexivity.
Qed.

Lemma cursor_repeat_press_taps_witness :
  mode_key 30 1 (handle_key_mapping 30 0 cursor_world) =
    with_config (upd_cursor (cursor.set_last_key 30))
      (cursor_tap (handle_key_mapping 30 0 cursor_world)).
Proof.
  exact (proj1 (cursor_repeat_press_taps 30 0 30 1 cursor_world
                  eq_refl eq_refl eq_refl)).
Defined.

Example cursor_tap_trace :
  emitted_by cursor_world
    (handle_key_mapping 30 1 (handle_key_mapping 30 0 cursor_world))
  = [input_mt_slot 0; input_mt_report_slot_state true;
     input_report_abs ABS_MT_POSITION_X 1400;
     input_report_abs ABS_MT_POSITION_Y 1000;
     input_report_abs ABS_MT_PRESSURE 100;
     input_report_abs ABS_MT_TOUCH_MAJOR 10;
     input_report_abs ABS_MT_TRACKING_ID 0;
     input_sync;
     msleep 50;
     input_mt_slot 0; input_mt_report_slot_state false;
     input_report_abs ABS_MT_TRACKING_ID (-1);
     input_sync].
Proof. vm_compute. reflexivity. Qed.

Example cursor_other_key_trace :
  emitted_by cursor_world
    (handle_key_mapping 31 1 (handle_key_mapping 30 1 cursor_world)) = [] /\
  emitted_by cursor_world
    (handle_key_mapping 30 0 (handle_key_mapping 30 1 cursor_world)) = [].
Proof. split; vm_compute; reflexivity. Qed.

(** ** Key-mapping list *)

(** C10 (mapping kinds without a press case): when the first node of the
    mapping list with the event's keycode has an action other than 0 (tap)
    and 1 (hold), such as a swipe, the walk over the list does nothing on a
    press: world and sink are unchanged.  On a release the only possible
    emission is the instant-release one. *)
Theorem keymap_press_without_case
    (km : list key_mapping.t) (keycode pressed : Z) (node : key_mapping.t) (w : world) :
  first_mapping keycode km = Some node ->
  key_mapping.action node <> 0 -> key_mapping.action node <> 1 ->
  (pressed <> 0 ->
   keymap_walk km keycode pressed w = w /\
   emitted_by w (keymap_walk km keycode pressed w) = []) /\
  keymap_walk km keycode 0 w =
    (if truthy (key_mapping.instant_release node)
     then send_touch_event_safe (key_mapping.slot node) 0 0 0 w
     else w).
Proof.
  intros Hf H0 H1. rewrite !keymap_walk_find, Hf. unfold keymap_fire. split.
  - intros Hp. unfold truthy.
    replace (pressed =? 0) with false by (symmetry; apply Z.eqb_neq; exact Hp).
    replace (key_mapping.action node =? 0) with false
      by (symmetry; apply Z.eqb_neq; exact H0).
    replace (key_mapping.action node =? 1) with false
      by (symmetry; apply Z.eqb_neq; exact H1).
    cbn [negb]. split; [reflexivity|apply emitted_by_self].
  - reflexivity.
Qed.

Lemma keymap_press_without_case_witness :
  (keymap_walk swipe_keymap 30 1 activated_world = activated_world /\
   emitted_by activated_world (keymap_walk swipe_keymap 30 1 activated_world) = []) /\
  keymap_walk swipe_keymap 30 0 activated_world =
    send_touch_event_safe 4 0 0 0 activated_world.
Proof.
  destruct (keymap_press_without_case swipe_keymap 30 1
              (nth 0 swipe_keymap (key_mapping.mk 0 [] 0 0 0 (key_mapping.mk_params 0 0 0 0 0)))
              activated_world eq_refl) as [A B].
  - vm_compute. discriminate.
  - vm_compute. discriminate.
  - split; [apply A; lia|exact B].
Defined.

Example swipe_release_trace :
  emitted_by activated_world (keymap_walk swipe_keymap 30 0 activated_world)
  = [input_mt_slot 4; input_mt_report_slot_state false;
     input_report_abs ABS_MT_TRACKING_ID (-1); input_sync].
Proof. vm_compute. reflexivity. Qed.

(** ** Joystick position *)

Lemma quot_scaled (a d : Z) :
  0 < d -> Z.quot a d * Z.quot a d * (d * d) <= a * a /\ Z.abs (Z.quot a d) <= Z.abs a.
Proof.
  intros Hd.
  pose proof (Z.quot_abs a d ltac:(lia)) as Habs.
  rewrite (Z.abs_eq d) in Habs by lia.
  pose proof (Z.mul_quot_le (Z.abs a) d ltac:(lia) ltac:(lia)) as Hle.
  rewrite Habs in Hle.
  assert (Hq : 0 <= Z.abs (Z.quot a d)) by lia.
  assert (Hsq : Z.abs (Z.quot a d) * Z.abs (Z.quot a d) = Z.quot a d * Z.quot a d) by lia.
  assert (Hsa : Z.abs a * Z.abs a = a * a) by lia.
  split; [|nia].
  rewrite <- Hsq, <- Hsa.
  replace (Z.abs (Z.quot a d) * Z.abs (Z.quot a d) * (d * d))
    with ((d * Z.abs (Z.quot a d)) * (d * Z.abs (Z.quot a d))) by ring.
  apply Z.mul_le_mono_nonneg; nia.
Qed.

(** Rescaling a vector whose floor length [d] exceeds [r] by [r / d], with
    truncating division, gives a vector of floor length at most [r]. *)
Lemma rescaled_inside (dx dy r d : Z) :
  0 <= r -> r < d ->
  d * d <= dx * dx + dy * dy -> dx * dx + dy * dy < (d + 1) * (d + 1) ->
  Z.quot (dx * r) d * Z.quot (dx * r) d + Z.quot (dy * r) d * Z.quot (dy * r) d
  < (r + 1) * (r + 1).
Proof.
  intros Hr Hd Hlo Hhi.
  destruct (quot_scaled (dx * r) d ltac:(lia)) as [Hx _].
  destruct (quot_scaled (dy * r) d ltac:(lia)) as [Hy _].
  set (qx := Z.quot (dx * r) d) in *. set (qy := Z.quot (dy * r) d) in *.
  set (S := dx * dx + dy * dy) in *.
  assert (H1 : (qx * qx + qy * qy) * (d * d) <= S * (r * r)) by (unfold S; nia).
  assert (H2 : S * (r * r) <= (d + 1) * (d + 1) * (r * r)) by nia.
  assert (H3 : (d + 1) * r < (r + 1) * d) by nia.
  assert (H4 : ((d + 1) * r) * ((d + 1) * r) < ((r + 1) * d) * ((r + 1) * d)).
  { apply Z.mul_lt_mono_nonneg; nia. }
  assert (H5 : (qx * qx + qy * qy) * (d * d) < (r + 1) * (r + 1) * (d * d)) by nia.
  assert (H6 : 0 < d * d) by nia.
  nia.
Qed.

Lemma fast_sqrt_floor (x : Z) : 0 <= x < 2 ^ 30 -> fast_sqrt x = Z.sqrt x.
Proof.
  intros H. destruct (Z.eq_dec x 0) as [->|Hn]; [reflexivity|].
  apply fast_sqrt_exact. lia.
Qed.

Lemma joystick_key_update_geometry (keycode pressed : Z) (j : joystick.t) :
  joystick.center_x (joystick_key_update keycode pressed j) = joystick.center_x j /\
  joystick.center_y (joystick_key_update keycode pressed j) = joystick.center_y j /\
  joystick.radius (joystick_key_update keycode pressed j) = joystick.radius j /\
  joystick.current_x (joystick_key_update keycode pressed j) = joystick.current_x j /\
  joystick.current_y (joystick_key_update keycode pressed j) = joystick.current_y j.
Proof. unfold joystick_key_update. split_ifs; repeat split. Qed.

(** Each component of the displacement is [-radius], 0 or [radius]. *)
Lemma joystick_vector_bound (j : joystick.t) :
  0 <= joystick.radius j < 2 ^ 31 ->
  - joystick.radius j <= fst (joystick_vector j) <= joystick.radius j /\
  - joystick.radius j <= snd (joystick_vector j) <= joystick.radius j.
Proof.
  intros Hr. unfold joystick_vector.
  set (r := joystick.radius j) in *.
  assert (E1 : sub 0 r = - r) by (unfold sub; rewrite wrap_small; unfold in_int; lia).
  assert (E2 : add 0 r = r) by (unfold add; rewrite wrap_small; unfold in_int; lia).
  assert (E3 : add (- r) r = 0) by (unfold add; rewrite wrap_small; unfold in_int; lia).
  cbv zeta.
  destruct (test_bit 0 (joystick.key_states j)), (test_bit 1 (joystick.key_states j)),
    (test_bit 2 (joystick.key_states j)), (test_bit 3 (joystick.key_states j));
    rewrite ?E1, ?E2, ?E3; split_ifs; cbn [fst snd]; lia.
Qed.

Lemma product_bound (a b m : Z) :
  - m <= a <= m -> 0 <= b <= m -> - (m * m) <= a * b <= m * m.
Proof. intros Ha Hb. nia. Qed.

Lemma square_bound (a m : Z) : - m <= a <= m -> 0 <= a * a <= m * m.
Proof. intros Ha. nia. Qed.

Lemma abs_product_bound (a r : Z) : - r <= a <= r -> Z.abs (a * r) <= r * r.
Proof. intros Ha. nia. Qed.

Lemma quot_small (a r d : Z) :
  0 <= r -> r < d -> Z.abs a <= r * r -> Z.abs (Z.quot a d) <= r.
Proof.
  intros Hr Hd Ha.
  rewrite <- (Z.abs_eq d) at 1 by lia.
  rewrite <- Z.quot_abs by lia. rewrite (Z.abs_eq d) by lia.
  apply Z.quot_le_upper_bound; [lia|]. nia.
Qed.

(** The position update leaves centre and radius alone and puts the current
    position within the radius of the centre. *)
Lemma joystick_move_inside (dx dy : Z) (j : joystick.t) :
  joystick_geometry_ok j ->
  - joystick.radius j <= dx <= joystick.radius j ->
  - joystick.radius j <= dy <= joystick.radius j ->
  joystick.center_x (joystick_move dx dy j) = joystick.center_x j /\
  joystick.center_y (joystick_move dx dy j) = joystick.center_y j /\
  joystick.radius (joystick_move dx dy j) = joystick.radius j /\
  joystick_within_radius (joystick_move dx dy j).
Proof.
  intros (Hr & Hx1 & Hx2 & Hy1 & Hy2) Hdx Hdy.
  destruct j as [en cx cy r dz act x y ms ku kd kl kr ks].
  cbn [joystick.radius joystick.center_x joystick.center_y] in *.
  unfold in_int in *.
  cbv beta iota zeta delta
    [joystick_move joystick.set_current_x joystick.set_current_y joystick.set_active
     joystick.enabled joystick.center_x joystick.center_y joystick.radius
     joystick.deadzone joystick.active joystick.current_x joystick.current_y
     joystick.move_slot joystick.key_up joystick.key_down joystick.key_left
     joystick.key_right joystick.key_states].
  assert (Ax : add cx dx = cx + dx) by (apply wrap_small; unfold in_int; lia).
  assert (Ay : add cy dy = cy + dy) by (apply wrap_small; unfold in_int; lia).
  rewrite Ax, Ay.
  assert (Sx : sub (cx + dx) cx = dx)
    by (unfold sub; replace (cx + dx - cx) with dx by lia;
        apply wrap_small; unfold in_int; lia).
  assert (Sy : sub (cy + dy) cy = dy)
    by (unfold sub; replace (cy + dy - cy) with dy by lia;
        apply wrap_small; unfold in_int; lia).
  rewrite Sx, Sy.
  pose proof (square_bound dx 23170 ltac:(lia)) as Bx.
  pose proof (square_bound dy 23170 ltac:(lia)) as By.
  assert (Mx : mul dx dx = dx * dx) by (apply wrap_small; unfold in_int; lia).
  assert (My : mul dy dy = dy * dy) by (apply wrap_small; unfold in_int; lia).
  rewrite Mx, My.
  assert (As : add (dx * dx) (dy * dy) = dx * dx + dy * dy)
    by (apply wrap_small; unfold in_int; lia).
  rewrite As.
  rewrite fast_sqrt_floor by lia.
  pose proof (Z.sqrt_spec (dx * dx + dy * dy) ltac:(lia)) as Hs.
  unfold Z.succ in Hs.
  set (d := Z.sqrt (dx * dx + dy * dy)) in *.
  unfold joystick_within_radius, distance_from.
  cbv beta iota zeta delta
    [joystick.center_x joystick.center_y joystick.radius
     joystick.current_x joystick.current_y].
  destruct (Z.gtb_spec d r) as [Hgt|Hle]; cbv beta iota.
  - repeat split.
    pose proof (product_bound dx r 23170 ltac:(lia) ltac:(lia)) as Rx.
    pose proof (product_bound dy r 23170 ltac:(lia) ltac:(lia)) as Ry.
    assert (Mrx : mul dx r = dx * r) by (apply wrap_small; unfold in_int; lia).
    assert (Mry : mul dy r = dy * r) by (apply wrap_small; unfold in_int; lia).
    rewrite Mrx, Mry.
    pose proof (rescaled_inside dx dy r d ltac:(lia) Hgt ltac:(lia) ltac:(lia)) as In.
    pose proof (quot_small (dx * r) r d ltac:(lia) Hgt (abs_product_bound dx r Hdx)) as Bqx.
    pose proof (quot_small (dy * r) r d ltac:(lia) Hgt (abs_product_bound dy r Hdy)) as Bqy.
    set (qx := Z.quot (dx * r) d) in *. set (qy := Z.quot (dy * r) d) in *.
    assert (Dx : div (dx * r) d = qx) by (apply wrap_small; unfold in_int; lia).
    assert (Dy : div (dy * r) d = qy) by (apply wrap_small; unfold in_int; lia).
    rewrite Dx, Dy.
    assert (Fx : add cx qx = cx + qx) by (apply wrap_small; unfold in_int; lia).
    assert (Fy : add cy qy = cy + qy) by (apply wrap_small; unfold in_int; lia).
    rewrite Fx, Fy.
    replace (cx + qx - cx) with qx by lia. replace (cy + qy - cy) with qy by lia.
    apply Z.lt_succ_r.
    apply (proj1 (Z.sqrt_lt_square (qx * qx + qy * qy) (Z.succ r)
                    ltac:(pose proof (Z.square_nonneg qx); pose proof (Z.square_nonneg qy); lia)
                    ltac:(lia))).
    unfold Z.succ. exact In.
  - repeat split.
    replace (cx + dx - cx) with dx by lia. replace (cy + dy - cy) with dy by lia.
    exact Hle.
Qed.

Lemma send_touch_joystick (slot x y pressure : Z) (w : world) :
  joystick (cfg_of (send_touch_event_safe slot x y pressure w)) = joystick (cfg_of w).
Proof.
  destruct (send_touch_config slot x y pressure w) as [k E]. rewrite E. reflexivity.
Qed.

(** Each component of the displacement is exactly [-radius], 0 or [radius]. *)
Lemma joystick_vector_cases (j : joystick.t) :
  0 <= joystick.radius j < 2 ^ 31 ->
  (fst (joystick_vector j) = - joystick.radius j \/ fst (joystick_vector j) = 0 \/
   fst (joystick_vector j) = joystick.radius j) /\
  (snd (joystick_vector j) = - joystick.radius j \/ snd (joystick_vector j) = 0 \/
   snd (joystick_vector j) = joystick.radius j).
Proof.
  intros Hr. unfold joystick_vector.
  set (r := joystick.radius j) in *.
  assert (E1 : sub 0 r = - r) by (unfold sub; rewrite wrap_small; unfold in_int; lia).
  assert (E2 : add 0 r = r) by (unfold add; rewrite wrap_small; unfold in_int; lia).
  assert (E3 : add (- r) r = 0) by (unfold add; rewrite wrap_small; unfold in_int; lia).
  cbv zeta.
  destruct (test_bit 0 (joystick.key_states j)), (test_bit 1 (joystick.key_states j)),
    (test_bit 2 (joystick.key_states j)), (test_bit 3 (joystick.key_states j));
    rewrite ?E1, ?E2, ?E3; split_ifs; cbn [fst snd]; lia.
Qed.

(** Rescaling the diagonal (r, r), of floor length [d] above [r], by [r / d]
    with truncating division loses at most 2 in floor length. *)
Lemma diagonal_rescaled_near (r d : Z) :
  0 <= r -> r < d -> d * d <= 2 * (r * r) ->
  (r - 2) * (r - 2) <= 2 * (Z.quot (r * r) d * Z.quot (r * r) d).
Proof.
  intros Hr Hd Hlo.
  assert (Hr2 : 2 <= r) by nia.
  pose proof (Z.quot_rem' (r * r) d) as Hq.
  pose proof (Z.rem_bound_pos (r * r) d ltac:(nia) ltac:(lia)) as Hm.
  set (q := Z.quot (r * r) d) in *. set (m := Z.rem (r * r) d) in *.
  assert (Hd2 : d <= 2 * r) by nia.
  assert (A : r * (r - 2) <= d * q) by nia.
  assert (A0 : 0 <= r * (r - 2)) by nia.
  assert (B : (r * (r - 2)) * (r * (r - 2)) <= (d * q) * (d * q))
    by (apply Z.mul_le_mono_nonneg; lia).
  assert (C : (d * d) * ((r - 2) * (r - 2)) <= 2 * (r * r) * ((r - 2) * (r - 2))).
  { apply Z.mul_le_mono_nonneg_r; [nia|lia]. }
  assert (D : (d * d) * ((r - 2) * (r - 2)) <= (d * d) * (2 * (q * q))) by nia.
  apply (Z.mul_le_mono_pos_l _ _ (d * d)); [nia|exact D].
Qed.

(** The distance from the centre after the position update, in unbounded
    arithmetic: the floor length of the displacement, or of the rescaled
    displacement when that length exceeds the radius. *)
Lemma joystick_move_distance (dx dy : Z) (j : joystick.t) :
  joystick_geometry_ok j ->
  - joystick.radius j <= dx <= joystick.radius j ->
  - joystick.radius j <= dy <= joystick.radius j ->
  joystick_distance (joystick_move dx dy j) =
    (if Z.sqrt (dx * dx + dy * dy) >? joystick.radius j
     then Z.sqrt
            (Z.quot (dx * joystick.radius j) (Z.sqrt (dx * dx + dy * dy)) *
             Z.quot (dx * joystick.radius j) (Z.sqrt (dx * dx + dy * dy)) +
             Z.quot (dy * joystick.radius j) (Z.sqrt (dx * dx + dy * dy)) *
             Z.quot (dy * joystick.radius j) (Z.sqrt (dx * dx + dy * dy)))
     else Z.sqrt (dx * dx + dy * dy)).
Proof.
  intros (Hr & Hx1 & Hx2 & Hy1 & Hy2) Hdx Hdy.
  destruct j as [en cx cy r dz act x y ms ku kd kl kr ks].
  cbn [joystick.radius joystick.center_x joystick.center_y] in *.
  unfold in_int in *.
  unfold joystick_distance, distance_from.
  cbv beta iota zeta delta
    [joystick_move joystick.set_current_x joystick.set_current_y joystick.set_active
     joystick.enabled joystick.center_x joystick.center_y joystick.radius
     joystick.deadzone joystick.active joystick.current_x joystick.current_y
     joystick.move_slot joystick.key_up joystick.key_down joystick.key_left
     joystick.key_right joystick.key_states].
  assert (Ax : add cx dx = cx + dx) by (apply wrap_small; unfold in_int; lia).
  assert (Ay : add cy dy = cy + dy) by (apply wrap_small; unfold in_int; lia).
  rewrite Ax, Ay.
  assert (Sx : sub (cx + dx) cx = dx)
    by (unfold sub; replace (cx + dx - cx) with dx by lia;
        apply wrap_small; unfold in_int; lia).
  assert (Sy : sub (cy + dy) cy = dy)
    by (unfold sub; replace (cy + dy - cy) with dy by lia;
        apply wrap_small; unfold in_int; lia).
  rewrite Sx, Sy.
  pose proof (square_bound dx 23170 ltac:(lia)) as Bx.
  pose proof (square_bound dy 23170 ltac:(lia)) as By.
  assert (Mx : mul dx dx = dx * dx) by (apply wrap_small; unfold in_int; lia).
  assert (My : mul dy dy = dy * dy) by (apply wrap_small; unfold in_int; lia).
  rewrite Mx, My.
  assert (As : add (dx * dx) (dy * dy) = dx * dx + dy * dy)
    by (apply wrap_small; unfold in_int; lia).
  rewrite As.
  rewrite fast_sqrt_floor by lia.
  set (d := Z.sqrt (dx * dx + dy * dy)) in *.
  destruct (Z.gtb_spec d r) as [Hgt|Hle]; cbv beta iota;
    cbv beta iota zeta delta
      [joystick.center_x joystick.center_y joystick.radius
       joystick.current_x joystick.current_y].
  - pose proof (product_bound dx r 23170 ltac:(lia) ltac:(lia)) as Rx.
    pose proof (product_bound dy r 23170 ltac:(lia) ltac:(lia)) as Ry.
    assert (Mrx : mul dx r = dx * r) by (apply wrap_small; unfold in_int; lia).
    assert (Mry : mul dy r = dy * r) by (apply wrap_small; unfold in_int; lia).
    rewrite Mrx, Mry.
    pose proof (quot_small (dx * r) r d ltac:(lia) Hgt (abs_product_bound dx r Hdx)) as Bqx.
    pose proof (quot_small (dy * r) r d ltac:(lia) Hgt (abs_product_bound dy r Hdy)) as Bqy.
    set (qx := Z.quot (dx * r) d) in *. set (qy := Z.quot (dy * r) d) in *.
    assert (Dx : div (dx * r) d = qx) by (apply wrap_small; unfold in_int; lia).
    assert (Dy : div (dy * r) d = qy) by (apply wrap_small; unfold in_int; lia).
    rewrite Dx, Dy.
    assert (Fx : add cx qx = cx + qx) by (apply wrap_small; unfold in_int; lia).
    assert (Fy : add cy qy = cy + qy) by (apply wrap_small; unfold in_int; lia).
    rewrite Fx, Fy.
    replace (cx + qx - cx) with qx by lia. replace (cy + qy - cy) with qy by lia.
    reflexivity.
  - replace (cx + dx - cx) with dx by lia. replace (cy + dy - cy) with dy by lia.
    reflexivity.
Qed.

Lemma square_of_radius (a r : Z) : a = - r \/ a = r -> a * a = r * r.
Proof. intros [-> | ->]; ring. Qed.

Lemma quot_square_of_radius (a r d : Z) :
  d <> 0 -> a = - r \/ a = r ->
  Z.quot (a * r) d * Z.quot (a * r) d = Z.quot (r * r) d * Z.quot (r * r) d.
Proof.
  intros Hd [-> | ->]; [|reflexivity].
  replace (- r * r) with (- (r * r)) by ring.
  rewrite Z.quot_opp_l by exact Hd. ring.
Qed.

(** After the position update with every component of the displacement
    [-radius], 0 or [radius] and not both 0, the position is at distance at
    least [radius - 2] from the centre, and exactly [radius] when one
    component is 0. *)
Lemma joystick_move_near_circle (dx dy : Z) (j : joystick.t) :
  joystick_geometry_ok j ->
  dx = - joystick.radius j \/ dx = 0 \/ dx = joystick.radius j ->
  dy = - joystick.radius j \/ dy = 0 \/ dy = joystick.radius j ->
  dx <> 0 \/ dy <> 0 ->
  joystick.radius j - 2 <= joystick_distance (joystick_move dx dy j) /\
  (dx = 0 \/ dy = 0 -> joystick_distance (joystick_move dx dy j) = joystick.radius j).
Proof.
  intros Hg Cx Cy Hn.
  assert (Hr : 0 <= joystick.radius j) by (destruct Hg as (A & _); lia).
  rewrite (joystick_move_distance dx dy j Hg) by lia.
  set (r := joystick.radius j) in *.
  destruct (Z.eq_dec dx 0) as [Zx|Nx]; [|destruct (Z.eq_dec dy 0) as [Zy|Ny]].
  - (* along the y axis *)
    assert (Sy : dy * dy = r * r) by (apply square_of_radius; lia).
    subst dx. replace (0 * 0 + dy * dy) with (r * r) by lia.
    rewrite Z.sqrt_square by exact Hr.
    replace (r >? r) with false by (rewrite Z.gtb_ltb; symmetry; apply Z.ltb_irrefl).
    split; [lia|reflexivity].
  - (* along the x axis *)
    assert (Sx : dx * dx = r * r) by (apply square_of_radius; lia).
    subst dy. replace (dx * dx + 0 * 0) with (r * r) by lia.
    rewrite Z.sqrt_square by exact Hr.
    replace (r >? r) with false by (rewrite Z.gtb_ltb; symmetry; apply Z.ltb_irrefl).
    split; [lia|reflexivity].
  - (* a diagonal *)
    assert (Sx : dx * dx = r * r) by (apply square_of_radius; lia).
    assert (Sy : dy * dy = r * r) by (apply square_of_radius; lia).
    split; [|intros [Z0 | Z0]; contradiction].
    rewrite Sx, Sy.
    pose proof (Z.sqrt_spec (r * r + r * r) ltac:(nia)) as Hs. unfold Z.succ in Hs.
    set (d := Z.sqrt (r * r + r * r)) in *.
    destruct (Z.gtb_spec d r) as [Hgt|Hle].
    + rewrite (quot_square_of_radius dx r d) ; [|lia|lia].
      rewrite (quot_square_of_radius dy r d); [|lia|lia].
      pose proof (diagonal_rescaled_near r d Hr Hgt ltac:(lia)) as Near.
      set (q := Z.quot (r * r) d) in *.
      destruct (Z_le_gt_dec (r - 2) 0) as [Small|Big].
      * pose proof (Z.sqrt_nonneg (q * q + q * q)). lia.
      * apply Z.sqrt_le_square; [nia|lia|lia].
    + assert (r <= d); [|lia].
      apply Z.sqrt_le_square; [nia|lia|lia].
Qed.

(** C6 as stated fails: in the initial state, which is reachable, the
    joystick position (0, 0) is at distance 1655 from the centre (700, 1500)
    with radius 150, and the view position (0, 0) at distance 1720 from
    (1400, 1000) with radius 300; and after "up" and "right" are held
    together the rescaled point (806, 1394) is at distance 149 from the
    centre, not on the circle of radius 150. *)
Lemma positions_outside_radius :
  reachable 250 (init_world (fun _ => 0)) /\
  ~ joystick_within_radius (joystick (cfg_of (init_world (fun _ => 0)))) /\
  ~ view_within_radius (view (cfg_of (init_world (fun _ => 0)))) /\
  reachable 250 diagonal_world /\
  joystick.radius (joystick (cfg_of diagonal_world)) = 150 /\
  distance_from
    (joystick.center_x (joystick (cfg_of diagonal_world)))
    (joystick.center_y (joystick (cfg_of diagonal_world)))
    (joystick.current_x (joystick (cfg_of diagonal_world)))
    (joystick.current_y (joystick (cfg_of diagonal_world))) = 149.
Proof.
  split; [apply reach_init|].
  split; [vm_compute; intros H; apply H; reflexivity|].
  split; [vm_compute; intros H; apply H; reflexivity|].
  split.
  - unfold diagonal_world, joystick_world.
    apply reachable_run, reachable_run, reach_init.
  - split; vm_compute; reflexivity.
Qed.

(** C6 (joystick position), amended: with the joystick enabled in joystick
    mode, a radius between 0 and 23170 and a circle that fits in [int], a
    joystick update never moves centre or radius; when the resulting
    displacement is non-zero the new current position is within the radius
    of the centre (floor square root of the squared distance at most the
    radius), also after rescaling, and no closer to the centre than the
    radius minus 2; along a single axis the distance is exactly the radius.
    When the displacement is zero the position is left where it was.  The
    view position is never written: it is (0, 0) in every reachable
    state. *)
Theorem joystick_update_within_radius (keycode pressed : Z) (w : world) :
  joystick_geometry_ok (joystick (cfg_of w)) ->
  joystick.enabled (joystick (cfg_of w)) <> 0 ->
  current_mode (cfg_of w) = MODE_JOYSTICK ->
  (joystick.center_x (joystick (cfg_of (update_joystick_state keycode pressed w)))
     = joystick.center_x (joystick (cfg_of w)) /\
   joystick.center_y (joystick (cfg_of (update_joystick_state keycode pressed w)))
     = joystick.center_y (joystick (cfg_of w)) /\
   joystick.radius (joystick (cfg_of (update_joystick_state keycode pressed w)))
     = joystick.radius (joystick (cfg_of w))) /\
  (joystick_vector (joystick_key_update keycode pressed (joystick (cfg_of w))) <> (0, 0) ->
   joystick_within_radius (joystick (cfg_of (update_joystick_state keycode pressed w))) /\
   joystick.radius (joystick (cfg_of w)) - 2
     <= joystick_distance (joystick (cfg_of (update_joystick_state keycode pressed w))) /\
   (fst (joystick_vector (joystick_key_update keycode pressed (joystick (cfg_of w)))) = 0 \/
    snd (joystick_vector (joystick_key_update keycode pressed (joystick (cfg_of w)))) = 0 ->
    joystick_distance (joystick (cfg_of (update_joystick_state keycode pressed w)))
      = joystick.radius (joystick (cfg_of w)))) /\
  (joystick_vector (joystick_key_update keycode pressed (joystick (cfg_of w))) = (0, 0) ->
   joystick.current_x (joystick (cfg_of (update_joystick_state keycode pressed w)))
     = joystick.current_x (joystick (cfg_of w)) /\
   joystick.current_y (joystick (cfg_of (update_joystick_state keycode pressed w)))
     = joystick.current_y (joystick (cfg_of w))) /\
  (forall HZ w0, reachable HZ w0 ->
     view.current_x (view (cfg_of w0)) = 0 /\ view.current_y (view (cfg_of w0)) = 0).
Proof.
  intros Hg He Hm.
  assert (Hview : forall HZ w0, reachable HZ w0 ->
            view.current_x (view (cfg_of w0)) = 0 /\ view.current_y (view (cfg_of w0)) = 0).
  { intros HZ w0 R. destruct (reachable_fixed HZ w0 R) as [_ Hf].
    unfold fixed in Hf. injection Hf as _ _ _ _ _ Vx Vy. split; assumption. }
  unfold update_joystick_state. unfold truthy. rewrite Hm.
  replace (joystick.enabled (joystick (cfg_of w)) =? 0) with false
    by (symmetry; apply Z.eqb_neq; exact He).
  replace (MODE_JOYSTICK =? MODE_JOYSTICK) with true by reflexivity.
  cbn [negb orb].
  set (j := joystick (cfg_of w)) in *.
  set (w1 := with_config (upd_joystick (joystick_key_update keycode pressed)) w).
  change (joystick (cfg_of w1)) with (joystick_key_update keycode pressed j).
  set (j1 := joystick_key_update keycode pressed j).
  destruct (joystick_key_update_geometry keycode pressed j) as (G1 & G2 & G3 & G4 & G5).
  fold j1 in G1, G2, G3, G4, G5.
  assert (Hg1 : joystick_geometry_ok j1).
  { unfold joystick_geometry_ok in *. rewrite G1, G2, G3. exact Hg. }
  destruct Hg as (Hr & _).
  pose proof (joystick_vector_bound j1 ltac:(rewrite G3; lia)) as [Bx By].
  pose proof (joystick_vector_cases j1 ltac:(rewrite G3; lia)) as [Cx Cy].
  destruct (joystick_vector j1) as [dx dy]. cbn [fst snd] in Bx, By, Cx, Cy |- *.
  destruct (Z.eqb_spec dx 0) as [Zx|Nx]; [destruct (Z.eqb_spec dy 0) as [Zy|Ny]|];
    cbn [negb orb].
  - (* zero displacement *)
    subst dx dy.
    destruct (negb (joystick.active j1 =? 0)).
    + rewrite send_touch_joystick.
      change (joystick (cfg_of (with_config (upd_joystick (joystick.set_active 0)) w1)))
        with (joystick.set_active 0 j1).
      split; [repeat split; assumption|].
      split; [intros Hv; exfalso; apply Hv; reflexivity|].
      split; [intros _; split; assumption|exact Hview].
    + change (joystick (cfg_of w1)) with j1.
      split; [repeat split; assumption|].
      split; [intros Hv; exfalso; apply Hv; reflexivity|].
      split; [intros _; split; assumption|exact Hview].
  - rewrite send_touch_joystick.
    change (joystick (cfg_of (with_config (upd_joystick (joystick_move dx dy)) w1)))
      with (joystick_move dx dy j1).
    destruct (joystick_move_inside dx dy j1 Hg1 Bx By) as (M1 & M2 & M3 & M4).
    destruct (joystick_move_near_circle dx dy j1 Hg1 Cx Cy (or_intror Ny)) as (N1 & N2).
    rewrite G3 in N1, N2.
    split; [repeat split; congruence|].
    split; [intros _; split; [exact M4|split; [exact N1|exact N2]]|].
    split; [intros Hv; exfalso; inversion Hv; contradiction|exact Hview].
  - rewrite send_touch_joystick.
    change (joystick (cfg_of (with_config (upd_joystick (joystick_move dx dy)) w1)))
      with (joystick_move dx dy j1).
    destruct (joystick_move_inside dx dy j1 Hg1 Bx By) as (M1 & M2 & M3 & M4).
    destruct (joystick_move_near_circle dx dy j1 Hg1 Cx Cy (or_introl Nx)) as (N1 & N2).
    rewrite G3 in N1, N2.
    split; [repeat split; congruence|].
    split; [intros _; split; [exact M4|split; [exact N1|exact N2]]|].
    split; [intros Hv; exfalso; inversion Hv; contradiction|exact Hview].
Qed.

Lemma joystick_update_within_radius_witness :
  joystick_within_radius (joystick (cfg_of (update_joystick_state 32 1 up_world))) /\
  150 - 2 <= joystick_distance (joystick (cfg_of (update_joystick_state 32 1 up_world))).
Proof.
  refine ((fun H => conj (proj1 H) (proj1 (proj2 H)))
            (proj1 (proj2 (joystick_update_within_radius 32 1 up_world _ _ _)) _)).
  - unfold joystick_geometry_ok, in_int.
    repeat split; vm_compute; first [reflexivity|discriminate].
  - vm_compute. discriminate.
  - reflexivity.
  - vm_compute. discriminate.
Defined.

(** The lower bound is reached: with radius 18, "up" and "right" held
    together give the displacement (18, -18) of floor length 25, rescaled to
    (12, -12), at distance 16 from the centre. *)
Example joystick_rescale_loses_two :
  let w := run 250 [Command (mk_frame CMD_SET_JOYSTICK
                               (le_bytes 4 700 ++ le_bytes 4 1500 ++ le_bytes 4 18)) 1002;
                    KeyEvent 17 1; KeyEvent 32 1] joystick_world in
  joystick.radius (joystick (cfg_of w)) = 18 /\
  joystick.current_x (joystick (cfg_of w)) = 712 /\
  joystick.current_y (joystick (cfg_of w)) = 1488 /\
  joystick_distance (joystick (cfg_of w)) = 16.
Proof. vm_compute. repeat split. Qed.

(** ** Sanity checks on the helpers *)

Example simple_crc16_check_value : simple_crc16 check_digits = 0x4B37.
Proof. vm_compute. reflexivity. Qed.

Example fast_sqrt_values :
  map fast_sqrt [-5; 0; 1; 2; 3; 4; 15; 16; 17; 45000; 1073741823]
  = [0; 0; 1; 1; 1; 2; 3; 4; 4; 212; 32767].
Proof. vm_compute. reflexivity. Qed.

Example mk_frame_accepted :
  process_hidden_command (mk_frame CMD_ACTIVATE []) 1000 init_config
  = (0, count_command (set_activate_time 1000 (set_activated 1 init_config))).
Proof. vm_compute. reflexivity. Qed.

(** * Further properties of the helpers and of the framing *)

(** X1 (clamp): for a non-empty range the result lies in the range, and a
    value already in the range is returned as it is. *)
Theorem stealth_clamp_range (val min max : Z) :
  min <= max ->
  min <= stealth_clamp val min max <= max /\
  (min <= val <= max -> stealth_clamp val min max = val).
Proof.
  intros H. unfold stealth_clamp.
  destruct (Z.ltb_spec val min); destruct (Z.gtb_spec val max); lia.
Qed.

Lemma stealth_clamp_range_witness :
  0 <= stealth_clamp 5000 0 2799 <= 2799 /\
  (0 <= 5000 <= 2799 -> stealth_clamp 5000 0 2799 = 5000).
Proof. apply (stealth_clamp_range 5000 0 2799). lia. Defined.

(** X2 (integer square root, where it is right): for every input below 2^30
    the helper returns 0 on non-positive input and otherwise the floor of the
    square root. *)
Theorem fast_sqrt_floor_below_2_30 (x : Z) :
  x < 2 ^ 30 ->
  (x <= 0 -> fast_sqrt x = 0) /\
  (0 < x -> fast_sqrt x * fast_sqrt x <= x < (fast_sqrt x + 1) * (fast_sqrt x + 1)).
Proof.
  intros Hx. split.
  - apply fast_sqrt_nonpos.
  - intros Hp. rewrite fast_sqrt_exact by lia.
    pose proof (Z.sqrt_spec x ltac:(lia)) as H. unfold Z.succ in H. exact H.
Qed.

Lemma fast_sqrt_floor_below_2_30_witness :
  (45000 <= 0 -> fast_sqrt 45000 = 0) /\
  (0 < 45000 ->
   fast_sqrt 45000 * fast_sqrt 45000 <= 45000 < (fast_sqrt 45000 + 1) * (fast_sqrt 45000 + 1)).
Proof. apply (fast_sqrt_floor_below_2_30 45000). lia. Defined.

Lemma fast_sqrt_loop_take (n : nat) (x y b : Z) :
  0 < b -> mul (add y b) (add y b) <= x ->
  fast_sqrt_loop (S n) x y b = fast_sqrt_loop n x (add y b) (Z.shiftr b 1).
Proof.
  intros Hb Hle. rewrite fast_sqrt_loop_S.
  replace (b >? 0) with true by (symmetry; apply Z.gtb_lt; lia).
  replace (mul (add y b) (add y b) <=? x) with true by (symmetry; apply Z.leb_le; exact Hle).
  reflexivity.
Qed.

Ltac take_bit :=
  match goal with
  | |- fast_sqrt_loop (S ?n) ?x ?y ?b = _ =>
      let y' := eval vm_compute in (add y b) in
      let b' := eval vm_compute in (Z.shiftr b 1) in
      let sq := eval vm_compute in (mul (add y b) (add y b)) in
      replace (fast_sqrt_loop (S n) x y b) with (fast_sqrt_loop n x y' b')
        by (symmetry; apply (fast_sqrt_loop_take n x y b);
            [lia | change (mul (add y b) (add y b)) with sq; lia])
  end.

(** X3 (integer square root, where it is wrong): on every [int] from 2^30 up
    the helper returns 65535, whatever the input. *)
Theorem fast_sqrt_saturates (x : Z) :
  2 ^ 30 <= x < 2 ^ 31 -> fast_sqrt x = 65535.
Proof.
  intros Hx. unfold fast_sqrt.
  replace (x <=? 0) with false by (symmetry; apply Z.leb_gt; lia).
  replace (Z.shiftl 1 15) with 32768 by reflexivity.
  do 16 take_bit. reflexivity.
Qed.

Lemma fast_sqrt_saturates_witness : fast_sqrt 2000000000 = 65535.
Proof. apply (fast_sqrt_saturates 2000000000). lia. Defined.

Lemma byte_val_range (b : byte) : 0 <= byte_val b < 256.
Proof.
  unfold byte_val. pose proof (Byte.to_N_bounded b) as H. lia.
Qed.

Lemma byte_val_of_Z (z : Z) : byte_val (byte_of_Z z) = z mod 256.
Proof.
  unfold byte_val, byte_of_Z.
  pose proof (Z.mod_pos_bound z 256 ltac:(lia)) as Hb.
  pose proof (Byte.to_of_N_option_map (Z.to_N (z mod 256))) as H.
  replace (Z.to_N (z mod 256) <=? 255)%N with true in H
    by (symmetry; apply N.leb_le; lia).
  destruct (Byte.of_N (Z.to_N (z mod 256))) as [b|]; [|discriminate H].
  cbn [option_map] in H. injection H as H. rewrite H. apply Z2N.id. lia.
Qed.

Lemma crc_bits_range (j : nat) :
  forall crc, 0 <= crc < 2 ^ 16 -> 0 <= crc_bits j crc < 2 ^ 16.
Proof.
  induction j as [|j IH]; intros crc H; cbn [crc_bits]; [exact H|].
  apply IH. destruct (Z.land crc 1 =? 0).
  - rewrite Z.shiftr_div_pow2 by lia. change (2 ^ 1) with 2.
    split; [apply Z.div_pos; lia|apply Z.div_lt_upper_bound; lia].
  - unfold u16. apply Z.mod_pos_bound. lia.
Qed.

Lemma simple_crc16_bounds (data : list byte) : 0 <= simple_crc16 data < 2 ^ 16.
Proof.
  unfold simple_crc16.
  assert (G : forall l crc, 0 <= crc < 2 ^ 16 ->
            0 <= fold_left (fun crc b => crc_bits 8 (u16 (Z.lxor crc (byte_val b)))) l crc
              < 2 ^ 16).
  { induction l as [|b l IH]; intros crc H; cbn [fold_left]; [exact H|].
    apply IH. apply crc_bits_range. unfold u16. apply Z.mod_pos_bound. lia. }
  apply G. lia.
Qed.

(** X4 (CRC16 range): the checksum of any byte sequence is a 16-bit value,
    and that of the empty sequence is the seed 0xFFFF. *)
Theorem simple_crc16_range (data : list byte) :
  0 <= simple_crc16 data < 2 ^ 16 /\ simple_crc16 [] = 0xFFFF.
Proof. split; [apply simple_crc16_bounds|reflexivity]. Qed.

Lemma lor_shiftl_bytes (lo hi k : Z) :
  0 <= k -> 0 <= lo < 2 ^ k -> 0 <= hi -> Z.lor lo (Z.shiftl hi k) = lo + hi * 2 ^ k.
Proof.
  intros Hk Hlo Hhi.
  assert (L : Z.land lo (Z.shiftl hi k) = 0).
  { apply Z.bits_inj'. intros n Hn. rewrite Z.land_spec, Z.bits_0.
    destruct (Z.lt_ge_cases n k) as [Hlt|Hge].
    - rewrite (Z.shiftl_spec_low hi k n Hlt). apply andb_false_r.
    - replace lo with (lo mod 2 ^ k) by (apply Z.mod_small; exact Hlo).
      rewrite Z.mod_pow2_bits_high by lia. reflexivity. }
  rewrite <- Z.lxor_lor by exact L. rewrite <- Z.add_nocarry_lxor by exact L.
  rewrite Z.shiftl_mul_pow2 by lia. reflexivity.
Qed.

(** Little-endian decoding of two and of four bytes, as sums. *)
Lemma le16_sum (b0 b1 : Z) :
  0 <= b0 < 256 -> 0 <= b1 < 256 ->
  Z.lor b0 (Z.shiftl b1 8) = b0 + b1 * 256.
Proof. intros H0 H1. rewrite lor_shiftl_bytes by lia. reflexivity. Qed.

Lemma le32_sum (b0 b1 b2 b3 : Z) :
  0 <= b0 < 256 -> 0 <= b1 < 256 -> 0 <= b2 < 256 -> 0 <= b3 < 256 ->
  Z.lor (Z.lor b0 (Z.shiftl b1 8)) (Z.lor (Z.shiftl b2 16) (Z.shiftl b3 24))
  = b0 + b1 * 256 + b2 * 65536 + b3 * 16777216.
Proof.
  intros H0 H1 H2 H3.
  rewrite le16_sum by lia.
  replace (Z.lor (Z.shiftl b2 16) (Z.shiftl b3 24))
    with (Z.shiftl (Z.lor b2 (Z.shiftl b3 8)) 16).
  2:{ rewrite Z.shiftl_lor, Z.shiftl_shiftl by lia. reflexivity. }
  rewrite (le16_sum b2 b3) by lia.
  rewrite (lor_shiftl_bytes (b0 + b1 * 256) (b2 + b3 * 256) 16) by lia.
  change (2 ^ 16) with 65536. ring.
Qed.

Lemma le16_bytes (v : Z) :
  0 <= v < 2 ^ 16 ->
  Z.lor (byte_val (byte_of_Z v)) (Z.shiftl (byte_val (byte_of_Z (Z.shiftr v 8))) 8) = v.
Proof.
  intros Hv. rewrite !byte_val_of_Z.
  rewrite le16_sum by (apply Z.mod_pos_bound; lia).
  rewrite Z.shiftr_div_pow2 by lia. change (2 ^ 8) with 256.
  rewrite (Z.mod_small (v / 256)) by
    (split; [apply Z.div_pos; lia|apply Z.div_lt_upper_bound; lia]).
  pose proof (Z.div_mod v 256 ltac:(lia)). lia.
Qed.

Lemma le32_bytes (v : Z) :
  Z.lor (Z.lor (byte_val (byte_of_Z v)) (Z.shiftl (byte_val (byte_of_Z (Z.shiftr v 8))) 8))
        (Z.lor (Z.shiftl (byte_val (byte_of_Z (Z.shiftr v 16))) 16)
               (Z.shiftl (byte_val (byte_of_Z (Z.shiftr v 24))) 24))
  = v mod 2 ^ 32.
Proof.
  rewrite !byte_val_of_Z.
  rewrite le32_sum by (apply Z.mod_pos_bound; lia).
  rewrite !Z.shiftr_div_pow2 by lia.
  change (2 ^ 8) with 256. change (2 ^ 16) with 65536. change (2 ^ 24) with 16777216.
  change (2 ^ 32) with 4294967296.
  pose proof (Z.div_mod v 256 ltac:(lia)).
  pose proof (Z.div_mod (v / 256) 256 ltac:(lia)).
  pose proof (Z.div_mod (v / 256 / 256) 256 ltac:(lia)).
  pose proof (Z.div_mod (v / 256 / 256 / 256) 256 ltac:(lia)).
  pose proof (Z.mod_pos_bound v 256 ltac:(lia)).
  pose proof (Z.mod_pos_bound (v / 256) 256 ltac:(lia)).
  pose proof (Z.mod_pos_bound (v / 256 / 256) 256 ltac:(lia)).
  pose proof (Z.mod_pos_bound (v / 256 / 256 / 256) 256 ltac:(lia)).
  replace (v / 65536) with (v / 256 / 256) by (rewrite Z.div_div by lia; reflexivity).
  replace (v / 16777216) with (v / 256 / 256 / 256) by (rewrite !Z.div_div by lia; reflexivity).
  apply (Z.mod_unique v 4294967296 (v / 256 / 256 / 256 / 256)); lia.
Qed.

Lemma byte_at_app (pre l : list byte) (i : nat) :
  byte_at (pre ++ l) (Z.of_nat (length pre) + Z.of_nat i) = byte_at l (Z.of_nat i).
Proof.
  unfold byte_at. rewrite <- Nat2Z.inj_add, !Nat2Z.id.
  rewrite app_nth2 by lia. f_equal. f_equal. lia.
Qed.

Lemma get_unaligned_le32_app (pre l : list byte) :
  get_unaligned_le32 (pre ++ l) (Z.of_nat (length pre)) = get_unaligned_le32 l 0.
Proof.
  unfold get_unaligned_le32.
  pose proof (byte_at_app pre l 0) as H0. pose proof (byte_at_app pre l 1) as H1.
  pose proof (byte_at_app pre l 2) as H2. pose proof (byte_at_app pre l 3) as H3.
  cbn [Z.of_nat Pos.of_succ_nat Pos.succ] in H0, H1, H2, H3.
  rewrite Z.add_0_r in H0. rewrite H0, H1, H2, H3. reflexivity.
Qed.

Lemma get_unaligned_le32_le_bytes (v : Z) (post : list byte) :
  get_unaligned_le32 (le_bytes 4 v ++ post) 0 = v mod 2 ^ 32.
Proof. exact (le32_bytes v). Qed.

Lemma mk_frame_shape (cmd : Z) (payload : list byte) :
  mk_frame cmd payload =
  le_bytes 4 MAGIC_SIGNATURE ++
  [byte_of_Z (simple_crc16 (byte_of_Z cmd :: payload));
   byte_of_Z (Z.shiftr (simple_crc16 (byte_of_Z cmd :: payload)) 8);
   byte_of_Z cmd] ++ payload.
Proof. reflexivity. Qed.

(** Any frame built by [mk_frame] passes the three validation checks. *)
Lemma mk_frame_passes (cmd : Z) (payload : list byte) :
  check_frame (mk_frame cmd payload) = FrameOk (cmd mod 256).
Proof.
  pose proof (simple_crc16_bounds (byte_of_Z cmd :: payload)) as Hc.
  rewrite mk_frame_shape.
  set (crc := simple_crc16 (byte_of_Z cmd :: payload)) in *.
  unfold check_frame, hdr_min_len.
  replace (Z.of_nat (length (le_bytes 4 MAGIC_SIGNATURE ++
             [byte_of_Z crc; byte_of_Z (Z.shiftr crc 8); byte_of_Z cmd] ++ payload)) <? 7)
    with false.
  2:{ symmetry. apply Z.ltb_ge. cbn [le_bytes map seq app length]. lia. }
  replace (get_unaligned_le32 (le_bytes 4 MAGIC_SIGNATURE ++
             [byte_of_Z crc; byte_of_Z (Z.shiftr crc 8); byte_of_Z cmd] ++ payload) 0)
    with MAGIC_SIGNATURE by (rewrite get_unaligned_le32_le_bytes; reflexivity).
  rewrite Z.eqb_refl. cbn [negb].
  replace (get_unaligned_le16 (le_bytes 4 MAGIC_SIGNATURE ++
             [byte_of_Z crc; byte_of_Z (Z.shiftr crc 8); byte_of_Z cmd] ++ payload) 4)
    with crc by (symmetry; exact (le16_bytes crc Hc)).
  replace (skipn 6 (le_bytes 4 MAGIC_SIGNATURE ++
             [byte_of_Z crc; byte_of_Z (Z.shiftr crc 8); byte_of_Z cmd] ++ payload))
    with (byte_of_Z cmd :: payload) by reflexivity.
  fold crc. rewrite Z.eqb_refl. cbn [negb].
  replace (byte_at (le_bytes 4 MAGIC_SIGNATURE ++
             [byte_of_Z crc; byte_of_Z (Z.shiftr crc 8); byte_of_Z cmd] ++ payload) 6)
    with (byte_val (byte_of_Z cmd)) by reflexivity.
  rewrite byte_val_of_Z. reflexivity.
Qed.

(** A payload word is found at frame offset 7 plus its payload offset. *)
Lemma mk_frame_payload_word (cmd : Z) (pre post : list byte) (v : Z) :
  get_unaligned_le32 (mk_frame cmd (pre ++ le_bytes 4 v ++ post))
    (7 + Z.of_nat (length pre)) = v mod 2 ^ 32.
Proof.
  rewrite mk_frame_shape.
  set (hdr := le_bytes 4 MAGIC_SIGNATURE ++
              [byte_of_Z (simple_crc16 (byte_of_Z cmd :: pre ++ le_bytes 4 v ++ post));
               byte_of_Z (Z.shiftr (simple_crc16 (byte_of_Z cmd :: pre ++ le_bytes 4 v ++ post)) 8);
               byte_of_Z cmd]).
  replace (le_bytes 4 MAGIC_SIGNATURE ++ _ ++ pre ++ le_bytes 4 v ++ post)
    with ((hdr ++ pre) ++ le_bytes 4 v ++ post)
    by (unfold hdr; rewrite <- !app_assoc; reflexivity).
  replace (7 + Z.of_nat (length pre)) with (Z.of_nat (length (hdr ++ pre)))
    by (rewrite length_app; unfold hdr; cbn [le_bytes map seq app length]; lia).
  rewrite get_unaligned_le32_app. apply get_unaligned_le32_le_bytes.
Qed.

(** X5 (framing round trip): a frame laid out as magic, CRC16 of command
    byte and payload, command byte, payload passes all three validation
    checks, whatever the command byte and whatever the payload (the empty
    one included), and a 32-bit payload word written little-endian at payload
    offset [length pre] is read back by the unaligned read at frame offset
    [7 + length pre]. *)
Theorem check_frame_mk_frame (cmd : Z) (payload pre post : list byte) (v : Z) :
  check_frame (mk_frame cmd payload) = FrameOk (cmd mod 256) /\
  get_unaligned_le32 (mk_frame cmd (pre ++ le_bytes 4 v ++ post))
    (7 + Z.of_nat (length pre)) = v mod 2 ^ 32.
Proof. split; [apply mk_frame_passes|apply mk_frame_payload_word]. Qed.

(** * Further properties of the command channel *)

Lemma read_field_keeps {A : Type} (f : stealth_config -> A) (data : list byte)
    (store : Z -> stealth_config -> stealth_config) (st : stealth_config * Z) :
  (forall v c, f (store v c) = f c) ->
  f (fst (read_field data store st)) = f (fst st).
Proof.
  intros H. destruct st as [c offset]. unfold read_field.
  destruct (offset + 4 <=? Z.of_nat (length data)); cbn [fst]; [apply H|reflexivity].
Qed.

Lemma set_joystick_fields_keeps {A : Type} (f : stealth_config -> A)
    (data : list byte) (c : stealth_config) :
  (forall g c, f (upd_joystick g c) = f c) ->
  f (set_joystick_fields data c) = f c.
Proof.
  intros H. unfold set_joystick_fields.
  repeat (rewrite (read_field_keeps f) by (intros; apply H)). reflexivity.
Qed.

Lemma set_slide_key_fields_keeps {A : Type} (f : stealth_config -> A)
    (data : list byte) (c : stealth_config) :
  (forall g c, f (upd_slide_key g c) = f c) ->
  f (set_slide_key_fields data c) = f c.
Proof.
  intros H. unfold set_slide_key_fields.
  repeat (rewrite (read_field_keeps f) by (intros; apply H)). reflexivity.
Qed.

(** The return value of the dispatch is 0 exactly on the handled commands
    that are long enough. *)
Lemma dispatch_accepts (cmd : Z) (data : list byte) (jiffies : Z) (c : stealth_config) :
  7 <= Z.of_nat (length data) ->
  (fst (dispatch cmd data jiffies c) = 0 /\
   exists L, min_frame_len cmd = Some L /\ L <= Z.of_nat (length data)) \/
  (dispatch cmd data jiffies c = (- EINVAL, c) /\
   forall L, min_frame_len cmd = Some L -> Z.of_nat (length data) < L).
Proof.
  intros Hlen. unfold dispatch, min_frame_len.
  destruct (Z.eqb_spec cmd CMD_ACTIVATE) as [E|_];
    [left; split; [reflexivity|exists 7; split; [reflexivity|lia]]|].
  destruct (Z.eqb_spec cmd CMD_DEACTIVATE) as [E|_];
    [left; split; [reflexivity|exists 7; split; [reflexivity|lia]]|].
  destruct (Z.eqb_spec cmd CMD_HEARTBEAT) as [E|_];
    [left; split; [reflexivity|exists 7; split; [reflexivity|lia]]|].
  destruct (Z.eqb_spec cmd CMD_SET_CONFIG) as [E|_].
  { destruct (Z.ltb_spec (Z.of_nat (length data)) 15).
    - right. split; [reflexivity|]. intros L HL. injection HL as <-. lia.
    - left. split; [reflexivity|exists 15; split; [reflexivity|lia]]. }
  destruct (Z.eqb_spec cmd CMD_SET_MODE) as [E|_].
  { destruct (Z.ltb_spec (Z.of_nat (length data)) 11).
    - right. split; [reflexivity|]. intros L HL. injection HL as <-. lia.
    - left. split; [reflexivity|exists 11; split; [reflexivity|lia]]. }
  destruct (Z.eqb_spec cmd CMD_SET_SENSITIVITY) as [E|_].
  { destruct (Z.ltb_spec (Z.of_nat (length data)) 11).
    - right. split; [reflexivity|]. intros L HL. injection HL as <-. lia.
    - left. split; [reflexivity|exists 11; split; [reflexivity|lia]]. }
  destruct (Z.eqb_spec cmd CMD_SET_JOYSTICK) as [E|_];
    [left; split; [reflexivity|exists 7; split; [reflexivity|lia]]|].
  destruct (Z.eqb_spec cmd CMD_SET_SLIDE_KEY) as [E|_];
    [left; split; [reflexivity|exists 7; split; [reflexivity|lia]]|].
  destruct (Z.eqb_spec cmd CMD_SET_KEY_MAPPING) as [E|_].
  { destruct (Z.geb_spec (Z.of_nat (length data)) 11).
    - left. split; [|exists 11; split; [reflexivity|lia]].
      destruct (negb (get_unaligned_le32 data 7 =? 0)); reflexivity.
    - right. split; [reflexivity|]. intros L HL. injection HL as <-. lia. }
  right. split; [reflexivity|]. intros L HL. discriminate HL.
Qed.

Lemma check_frame_ok_length (data : list byte) (cmd : Z) :
  check_frame data = FrameOk cmd ->
  7 <= Z.of_nat (length data) /\ 0 <= cmd < 256.
Proof.
  unfold check_frame, hdr_min_len.
  destruct (Z.ltb_spec (Z.of_nat (length data)) 7); [discriminate|].
  destruct (negb (get_unaligned_le32 data 0 =? MAGIC_SIGNATURE)); [discriminate|].
  destruct (negb (get_unaligned_le16 data 4 =? simple_crc16 (skipn 6 data))); [discriminate|].
  intros H0. injection H0 as <-. split; [lia|apply byte_val_range].
Qed.

(** X6 (acceptance table): a frame that passes validation is accepted
    (return value 0) exactly when its command code is one of the nine
    handled ones and the frame has at least that command's minimum length
    (7, 11 or 15); every other frame, GET_STATUS and unknown codes included,
    returns -EINVAL. *)
Theorem process_hidden_command_accepts
    (data : list byte) (cmd jiffies : Z) (c : stealth_config) :
  check_frame data = FrameOk cmd ->
  (fst (process_hidden_command data jiffies c) = 0 <->
   exists L, min_frame_len cmd = Some L /\ L <= Z.of_nat (length data)) /\
  (fst (process_hidden_command data jiffies c) = 0 \/
   process_hidden_command data jiffies c = (- EINVAL, c)).
Proof.
  intros Hc. destruct (check_frame_ok_length data cmd Hc) as [Hlen _].
  unfold process_hidden_command. rewrite Hc.
  destruct (dispatch_accepts cmd data jiffies c Hlen) as [[H0 HL]|[HE HL]].
  - destruct (dispatch cmd data jiffies c) as [ret c']. cbn [fst] in H0. subst ret.
    cbn [Z.eqb fst]. split; [split; [intros _; exact HL|reflexivity]|left; reflexivity].
  - rewrite HE. replace (- EINVAL =? 0) with false by reflexivity. cbn [fst].
    split; [|right; reflexivity].
    split; [intros H; discriminate H|].
    intros (L & H1 & H2). specialize (HL L H1). lia.
Qed.

Lemma process_hidden_command_accepts_witness :
  (fst (process_hidden_command (mk_frame CMD_GET_STATUS []) 0 init_config) = 0 <->
   exists L, min_frame_len CMD_GET_STATUS = Some L
             /\ L <= Z.of_nat (length (mk_frame CMD_GET_STATUS []))) /\
  (fst (process_hidden_command (mk_frame CMD_GET_STATUS []) 0 init_config) = 0 \/
   process_hidden_command (mk_frame CMD_GET_STATUS []) 0 init_config = (- EINVAL, init_config)).
Proof.
  apply (process_hidden_command_accepts (mk_frame CMD_GET_STATUS []) CMD_GET_STATUS 0 init_config).
  vm_compute. reflexivity.
Defined.

Lemma dispatch_counters (cmd : Z) (data : list byte) (jiffies : Z) (c : stealth_config) :
  stats_commands (snd (dispatch cmd data jiffies c)) = stats_commands c /\
  stats_moves (snd (dispatch cmd data jiffies c)) = stats_moves c /\
  stats_slides (snd (dispatch cmd data jiffies c)) = stats_slides c.
Proof.
  unfold dispatch. split_ifs; cbn [snd];
    rewrite ?(set_joystick_fields_keeps stats_commands), ?(set_joystick_fields_keeps stats_moves),
      ?(set_joystick_fields_keeps stats_slides), ?(set_slide_key_fields_keeps stats_commands),
      ?(set_slide_key_fields_keeps stats_moves), ?(set_slide_key_fields_keeps stats_slides)
      by reflexivity;
    repeat split.
Qed.

(** Every buffer is either rejected with the configuration unchanged or
    accepted and counted once. *)
Lemma process_hidden_command_outcome (data : list byte) (jiffies : Z) (c : stealth_config) :
  (fst (process_hidden_command data jiffies c) = 0 /\
   stats_commands (snd (process_hidden_command data jiffies c))
     = u64 (stats_commands c + 1) /\
   stats_moves (snd (process_hidden_command data jiffies c)) = stats_moves c /\
   stats_slides (snd (process_hidden_command data jiffies c)) = stats_slides c) \/
  process_hidden_command data jiffies c = (- EINVAL, c).
Proof.
  unfold process_hidden_command.
  destruct (check_frame data) as [| | |cmd] eqn:Hc; try (right; reflexivity).
  destruct (check_frame_ok_length data cmd Hc) as [Hlen _].
  destruct (dispatch_counters cmd data jiffies c) as (A & B & C).
  destruct (dispatch_accepts cmd data jiffies c Hlen) as [[H0 _]|[HE _]].
  - left. destruct (dispatch cmd data jiffies c) as [ret c'].
    cbn [fst snd] in *. subst ret. cbn [Z.eqb fst snd].
    cbn [stats_commands stats_moves stats_slides set_stats_commands].
    rewrite A. repeat split; assumption.
  - right. rewrite HE. reflexivity.
Qed.

(** X7 (atomic commands, counted once): whatever the buffer, the processor
    returns 0 or -EINVAL; on -EINVAL the configuration is returned unchanged;
    on 0 the command counter has grown by exactly one (modulo 2^64); and no
    command changes the moves or slides counters. *)
Theorem process_hidden_command_counts (data : list byte) (jiffies : Z) (c : stealth_config) :
  (fst (process_hidden_command data jiffies c) = 0 /\
   stats_commands (snd (process_hidden_command data jiffies c))
     = u64 (stats_commands c + 1) /\
   stats_moves (snd (process_hidden_command data jiffies c)) = stats_moves c /\
   stats_slides (snd (process_hidden_command data jiffies c)) = stats_slides c) \/
  process_hidden_command data jiffies c = (- EINVAL, c).
Proof. apply process_hidden_command_outcome. Qed.

(** X8 (who writes the activation state): among the commands only an accepted
    ACTIVATE sets [activated] (to 1) and only an accepted DEACTIVATE clears
    it; only ACTIVATE and HEARTBEAT store the current tick count in
    [activate_time]; every other buffer, accepted or not, leaves both as they
    were.  In particular HEARTBEAT does not reactivate a deactivated
    service. *)
Theorem process_hidden_command_activation
    (data : list byte) (jiffies : Z) (c : stealth_config) :
  activated (snd (process_hidden_command data jiffies c)) =
    match check_frame data with
    | FrameOk cmd =>
        if cmd =? CMD_ACTIVATE then 1
        else if cmd =? CMD_DEACTIVATE then 0
        else activated c
    | _ => activated c
    end /\
  activate_time (snd (process_hidden_command data jiffies c)) =
    match check_frame data with
    | FrameOk cmd =>
        if (cmd =? CMD_ACTIVATE) || (cmd =? CMD_HEARTBEAT) then u64 jiffies
        else activate_time c
    | _ => activate_time c
    end.
Proof.
  unfold process_hidden_command.
  destruct (check_frame data) as [| | |cmd]; try (split; reflexivity).
  unfold dispatch.
  destruct (Z.eqb_spec cmd CMD_ACTIVATE) as [E|_]; [split; reflexivity|].
  destruct (Z.eqb_spec cmd CMD_DEACTIVATE) as [E|_]; [subst cmd; split; reflexivity|].
  destruct (Z.eqb_spec cmd CMD_HEARTBEAT) as [E|_]; [split; reflexivity|].
  cbn [orb].
  destruct (Z.eqb_spec cmd CMD_SET_CONFIG) as [E|_].
  { destruct (Z.of_nat (length data) <? 15); split; reflexivity. }
  destruct (Z.eqb_spec cmd CMD_SET_MODE) as [E|_].
  { destruct (Z.of_nat (length data) <? 11); split; reflexivity. }
  destruct (Z.eqb_spec cmd CMD_SET_SENSITIVITY) as [E|_].
  { destruct (Z.of_nat (length data) <? 11); split; reflexivity. }
  destruct (Z.eqb_spec cmd CMD_SET_JOYSTICK) as [E|_].
  { cbn [snd Z.eqb activated activate_time set_stats_commands].
    split; [apply (set_joystick_fields_keeps activated)
           |apply (set_joystick_fields_keeps activate_time)]; reflexivity. }
  destruct (Z.eqb_spec cmd CMD_SET_SLIDE_KEY) as [E|_].
  { cbn [snd Z.eqb activated activate_time set_stats_commands].
    split; [apply (set_slide_key_fields_keeps activated)
           |apply (set_slide_key_fields_keeps activate_time)]; reflexivity. }
  destruct (Z.eqb_spec cmd CMD_SET_KEY_MAPPING) as [E|_].
  { destruct (Z.of_nat (length data) >=? 11); [|split; reflexivity].
    destruct (negb (get_unaligned_le32 data 7 =? 0)); split; reflexivity. }
  split; reflexivity.
Qed.

(** * Further properties of key handling *)

Section KeysKeep.

Context {A : Type} (f : stealth_config -> A) (Hf : untouched_by_keys f).

Lemma send_touch_keeps (slot x y pressure : Z) (w : world) :
  f (cfg_of (send_touch_event_safe slot x y pressure w)) = f (cfg_of w).
Proof.
  destruct (send_touch_config slot x y pressure w) as [k E]. rewrite E.
  apply Hf.
Qed.

Lemma update_joystick_keeps (keycode pressed : Z) (w : world) :
  f (cfg_of (update_joystick_state keycode pressed w)) = f (cfg_of w).
Proof.
  destruct Hf as (_ & Hj & _ & _).
  unfold update_joystick_state.
  destruct (negb (truthy (joystick.enabled (joystick (cfg_of w))))
            || negb (current_mode (cfg_of w) =? MODE_JOYSTICK)); [reflexivity|].
  set (w1 := with_config (upd_joystick (joystick_key_update keycode pressed)) w).
  assert (K1 : f (cfg_of w1) = f (cfg_of w)) by (apply Hj).
  destruct (joystick_vector (joystick (cfg_of w1))) as [dx dy].
  destruct (negb (dx =? 0) || negb (dy =? 0)).
  - rewrite send_touch_keeps. rewrite <- K1. apply Hj.
  - destruct (truthy (joystick.active (joystick (cfg_of w1)))); [|exact K1].
    rewrite send_touch_keeps. rewrite <- K1. apply Hj.
Qed.

Lemma cursor_mode_key_keeps (keycode pressed : Z) (w : world) :
  f (cfg_of (cursor_mode_key keycode pressed w)) = f (cfg_of w).
Proof.
  destruct Hf as (_ & _ & Hc & _).
  unfold cursor_mode_key.
  match goal with
  | |- f (cfg_of (with_config ?g ?w0)) = _ =>
      change (cfg_of (with_config g w0)) with (g (cfg_of w0))
  end.
  rewrite (Hc _ _).
  destruct ((keycode =? cursor.last_key (cursor (cfg_of w))) && truthy pressed);
    [|reflexivity].
  match goal with
  | |- f (cfg_of (with_config ?g ?w0)) = _ =>
      change (cfg_of (with_config g w0)) with (g (cfg_of w0))
  end.
  rewrite (Hc _ _), send_touch_keeps.
  change (cfg_of (emit ?e ?w0)) with (cfg_of w0).
  apply send_touch_keeps.
Qed.

Lemma mode_key_keeps (keycode pressed : Z) (w : world) :
  f (cfg_of (mode_key keycode pressed w)) = f (cfg_of w).
Proof.
  unfold mode_key.
  destruct (current_mode (cfg_of w) =? MODE_JOYSTICK); [apply update_joystick_keeps|].
  destruct (current_mode (cfg_of w) =? MODE_CURSOR); [apply cursor_mode_key_keeps|].
  reflexivity.
Qed.

Lemma keymap_walk_keeps (km : list key_mapping.t) (keycode pressed : Z) (w : world) :
  f (cfg_of (keymap_walk km keycode pressed w)) = f (cfg_of w).
Proof.
  destruct (keymap_walk_config km keycode pressed w) as [k E]. rewrite E. apply Hf.
Qed.

Lemma handle_key_mapping_keeps (keycode pressed : Z) (w : world) :
  f (cfg_of (handle_key_mapping keycode pressed w)) = f (cfg_of w).
Proof.
  unfold handle_key_mapping.
  destruct ((keycode =? mode_switch_key (cfg_of w)) && truthy pressed).
  - apply Hf.
  - rewrite keymap_walk_keeps. apply mode_key_keeps.
Qed.

End KeysKeep.

Lemma heartbeat_check_keeps {A : Type} (f : stealth_config -> A) (HZ now : Z)
    (c : stealth_config) :
  (forall v c, f (set_activated v c) = f c) ->
  f (heartbeat_check HZ now c) = f c.
Proof. intros H. unfold heartbeat_check. split_ifs; auto. Qed.

Lemma stealth_worker_tick_keeps {A : Type} (f : stealth_config -> A) (c : stealth_config) :
  (forall c, f (set_stats_commands 0 (set_stats_slides 0 (set_stats_clicks 0
               (set_stats_moves 0 c)))) = f c) ->
  f (stealth_worker_tick c) = f c.
Proof. intros H. unfold stealth_worker_tick. split_ifs; auto. Qed.

Lemma untouched_view : untouched_by_keys view.
Proof. repeat split. Qed.

Lemma untouched_activated : untouched_by_keys activated.
Proof. repeat split. Qed.

(** What a command does to the view sub-state: nothing, or a clamped
    sensitivity. *)
Lemma process_hidden_command_view (data : list byte) (jiffies : Z) (c : stealth_config) :
  view (snd (process_hidden_command data jiffies c)) = view c \/
  view (snd (process_hidden_command data jiffies c)) =
    view.set_sensitivity (stealth_clamp (wrap (get_unaligned_le32 data 7)) 1 10000) (view c).
Proof.
  unfold process_hidden_command.
  destruct (check_frame data) as [| | |cmd]; try (left; reflexivity).
  unfold dispatch.
  destruct (Z.eqb_spec cmd CMD_ACTIVATE) as [E|_]; [left; reflexivity|].
  destruct (Z.eqb_spec cmd CMD_DEACTIVATE) as [E|_]; [left; reflexivity|].
  destruct (Z.eqb_spec cmd CMD_HEARTBEAT) as [E|_]; [left; reflexivity|].
  destruct (Z.eqb_spec cmd CMD_SET_CONFIG) as [E|_].
  { destruct (Z.of_nat (length data) <? 15); left; reflexivity. }
  destruct (Z.eqb_spec cmd CMD_SET_MODE) as [E|_].
  { destruct (Z.of_nat (length data) <? 11); left; reflexivity. }
  destruct (Z.eqb_spec cmd CMD_SET_SENSITIVITY) as [E|_].
  { destruct (Z.of_nat (length data) <? 11); [left|right]; reflexivity. }
  destruct (Z.eqb_spec cmd CMD_SET_JOYSTICK) as [E|_].
  { left. cbn [snd Z.eqb view set_stats_commands].
    apply (set_joystick_fields_keeps view). reflexivity. }
  destruct (Z.eqb_spec cmd CMD_SET_SLIDE_KEY) as [E|_].
  { left. cbn [snd Z.eqb view set_stats_commands].
    apply (set_slide_key_fields_keeps view). reflexivity. }
  destruct (Z.eqb_spec cmd CMD_SET_KEY_MAPPING) as [E|_].
  { left. destruct (Z.of_nat (length data) >=? 11); [|reflexivity].
    destruct (negb (get_unaligned_le32 data 7 =? 0)); reflexivity. }
  left. reflexivity.
Qed.

(** X9 (sensitivity stays bounded): in every reachable state the view
    sensitivity lies in [1, 10000]; only SET_SENSITIVITY writes it, clamped,
    and nothing else writes the view sub-state. *)
Theorem view_sensitivity_bounded (HZ : Z) (w : world) :
  reachable HZ w -> 1 <= view.sensitivity (view (cfg_of w)) <= 10000.
Proof.
  induction 1 as [e|w o _ IH]; [vm_compute; split; discriminate|].
  destruct o as [data jiffies|keycode pressed|jiffies|]; cbn [step].
  - change (cfg_of (with_config (fun c => snd (process_hidden_command data jiffies c)) w))
      with (snd (process_hidden_command data jiffies (cfg_of w))).
    destruct (process_hidden_command_view data jiffies (cfg_of w)) as [E|E]; rewrite E.
    + exact IH.
    + cbn [view.sensitivity view.set_sensitivity]. apply clamp_bounds. lia.
  - rewrite (handle_key_mapping_keeps view untouched_view). exact IH.
  - change (cfg_of (with_config (heartbeat_check HZ jiffies) w))
      with (heartbeat_check HZ jiffies (cfg_of w)).
    rewrite (heartbeat_check_keeps view) by reflexivity. exact IH.
  - change (cfg_of (with_config stealth_worker_tick w))
      with (stealth_worker_tick (cfg_of w)).
    rewrite (stealth_worker_tick_keeps view) by reflexivity. exact IH.
Qed.

Lemma view_sensitivity_bounded_witness :
  1 <= view.sensitivity (view (cfg_of
         (step 250 (Command (mk_frame CMD_SET_SENSITIVITY (le_bytes 4 4000000000)) 0)
            (init_world (fun _ => 0))))) <= 10000.
Proof.
  apply (view_sensitivity_bounded 250). apply reach_step, reach_init.
Defined.

(** * Further properties of the injection engine *)

Lemma send_touch_on (slot x y pressure : Z) (w : world) :
  input_dev (stealth_dev w) = true -> activated (cfg_of w) <> 0 ->
  negb (input_dev (stealth_dev w)) || negb (truthy (activated (cfg_of w))) = false.
Proof.
  intros Hd Ha. rewrite Hd. unfold truthy.
  replace (activated (cfg_of w) =? 0) with false by (symmetry; apply Z.eqb_neq; exact Ha).
  reflexivity.
Qed.

(** X10 (release): when the service is activated and the input device
    exists, a request with pressure <= 0 reports exactly slot, "not in
    contact", tracking id -1 and a sync, whatever the coordinates and the
    jitter setting; it draws no random value and counts one move. *)
Theorem send_touch_event_safe_release (slot x y pressure : Z) (w : world) :
  input_dev (stealth_dev w) = true -> activated (cfg_of w) <> 0 -> pressure <= 0 ->
  send_touch_event_safe slot x y pressure w =
    with_config (fun c => set_stats_moves (u64 (stats_moves c + 1)) c)
      (emit [input_mt_slot slot; input_mt_report_slot_state false;
             input_report_abs ABS_MT_TRACKING_ID (-1); input_sync] w).
Proof.
  intros Hd Ha Hp. unfold send_touch_event_safe.
  rewrite (send_touch_on slot x y pressure w Hd Ha).
  assert (Hc : stealth_clamp pressure 0 255 = 0).
  { unfold stealth_clamp. destruct (Z.ltb_spec pressure 0); [reflexivity|].
    destruct (Z.gtb_spec pressure 255); lia. }
  rewrite Hc. rewrite andb_false_r. reflexivity.
Qed.

Lemma send_touch_event_safe_release_witness :
  send_touch_event_safe 3 500 600 0 activated_world =
    with_config (fun c => set_stats_moves (u64 (stats_moves c + 1)) c)
      (emit [input_mt_slot 3; input_mt_report_slot_state false;
             input_report_abs ABS_MT_TRACKING_ID (-1); input_sync] activated_world).
Proof.
  apply (send_touch_event_safe_release 3 500 600 0 activated_world).
  - reflexivity.
  - vm_compute. discriminate.
  - lia.
Defined.

Lemma wrap_u32 (z : Z) : wrap (u32 z) = wrap z.
Proof.
  unfold wrap, u32. rewrite Zplus_mod_idemp_l. reflexivity.
Qed.

Lemma jitter_offsets_range (jitter_range rand_val : Z) :
  0 < jitter_range < 2 ^ 30 -> 0 <= rand_val < 2 ^ 32 ->
  - jitter_range <= fst (jitter_offsets jitter_range rand_val) <= jitter_range /\
  - jitter_range <= snd (jitter_offsets jitter_range rand_val) <= jitter_range.
Proof.
  intros Hj Hr. unfold jitter_offsets. cbn [fst snd].
  assert (Hs : u32 (add (mul jitter_range 2) 1) = 2 * jitter_range + 1).
  { unfold add, mul. rewrite (wrap_small (jitter_range * 2)) by (unfold in_int; lia).
    rewrite wrap_small by (unfold in_int; lia).
    unfold u32. rewrite Z.mod_small by lia. lia. }
  rewrite Hs. rewrite !wrap_u32.
  assert (Hu : u32 jitter_range = jitter_range) by (unfold u32; apply Z.mod_small; lia).
  rewrite Hu.
  pose proof (Z.mod_pos_bound rand_val (2 * jitter_range + 1) ltac:(lia)) as B1.
  pose proof (Z.mod_pos_bound (Z.shiftr rand_val 8) (2 * jitter_range + 1) ltac:(lia)) as B2.
  rewrite !wrap_small by (unfold in_int; lia). lia.
Qed.

(** X11 (jitter range): for a jitter range between 1 and 2^30 - 1 both
    offsets derived from one 32-bit draw lie in
    [-jitter_range, +jitter_range]. *)
Theorem jitter_offsets_bounded (jitter_range rand_val : Z) :
  0 < jitter_range < 2 ^ 30 -> 0 <= rand_val < 2 ^ 32 ->
  - jitter_range <= fst (jitter_offsets jitter_range rand_val) <= jitter_range /\
  - jitter_range <= snd (jitter_offsets jitter_range rand_val) <= jitter_range.
Proof. apply jitter_offsets_range. Qed.

Lemma jitter_offsets_bounded_witness :
  - 2 <= fst (jitter_offsets 2 4000000003) <= 2 /\
  - 2 <= snd (jitter_offsets 2 4000000003) <= 2.
Proof. apply (jitter_offsets_bounded 2 4000000003); lia. Defined.

Lemma clamp_near (v j lo hi : Z) :
  lo <= v <= hi ->
  Z.abs (stealth_clamp (v + j) lo hi - v) <= Z.abs j.
Proof.
  intros Hv. unfold stealth_clamp.
  destruct (Z.ltb_spec (v + j) lo); [lia|].
  destruct (Z.gtb_spec (v + j) hi); lia.
Qed.

(** X12 (jittered press): with the service activated, a screen of at most
    2^30 pixels each way and a jitter range between 1 and 2^30 - 1, a press
    is reported once, at a position on the screen that differs from the
    clamped request by at most jitter_range in each coordinate; it takes
    exactly one draw and counts one move. *)
Theorem send_touch_event_safe_jittered (slot x y pressure : Z) (w : world) :
  input_dev (stealth_dev w) = true -> activated (cfg_of w) <> 0 ->
  1 <= screen_width (cfg_of w) <= 2 ^ 30 -> 1 <= screen_height (cfg_of w) <= 2 ^ 30 ->
  0 < jitter_range (cfg_of w) < 2 ^ 30 -> 0 < pressure ->
  exists x' y',
    send_touch_event_safe slot x y pressure w =
      {| stealth_dev :=
           {| input_dev := true;
              config := set_stats_moves (u64 (stats_moves (cfg_of w) + 1)) (cfg_of w) |};
         sink := sink w ++ report_touch slot x' y' (stealth_clamp pressure 0 255);
         entropy := entropy w;
         draws := S (draws w) |} /\
    0 <= x' <= screen_width (cfg_of w) - 1 /\
    0 <= y' <= screen_height (cfg_of w) - 1 /\
    Z.abs (x' - stealth_clamp x 0 (screen_width (cfg_of w) - 1)) <= jitter_range (cfg_of w) /\
    Z.abs (y' - stealth_clamp y 0 (screen_height (cfg_of w) - 1)) <= jitter_range (cfg_of w).
Proof.
  intros Hd Ha Hw Hh Hj Hp. unfold send_touch_event_safe.
  rewrite (send_touch_on slot x y pressure w Hd Ha).
  assert (Hpc : (stealth_clamp pressure 0 255 >? 0) = true).
  { apply Z.gtb_lt. unfold stealth_clamp.
    destruct (Z.ltb_spec pressure 0); [lia|]. destruct (Z.gtb_spec pressure 255); lia. }
  rewrite Hpc.
  replace (jitter_range (cfg_of w) >? 0) with true by (symmetry; apply Z.gtb_lt; lia).
  cbn [andb].
  unfold get_random_bytes.
  pose proof (jitter_offsets_range (jitter_range (cfg_of w)) (u32 (entropy w (draws w))) Hj
                ltac:(unfold u32; apply Z.mod_pos_bound; lia)) as [Bx By].
  destruct (jitter_offsets (jitter_range (cfg_of w)) (u32 (entropy w (draws w)))) as [jx jy].
  cbn [fst snd] in Bx, By.
  unfold sub. rewrite !wrap_small by (unfold in_int; lia).
  pose proof (clamp_bounds x 0 (screen_width (cfg_of w) - 1) ltac:(lia)) as Cx.
  pose proof (clamp_bounds y 0 (screen_height (cfg_of w) - 1) ltac:(lia)) as Cy.
  set (cx := stealth_clamp x 0 (screen_width (cfg_of w) - 1)) in *.
  set (cy := stealth_clamp y 0 (screen_height (cfg_of w) - 1)) in *.
  unfold add. rewrite !wrap_small by (unfold in_int; lia).
  exists (stealth_clamp (cx + jx) 0 (screen_width (cfg_of w) - 1)),
         (stealth_clamp (cy + jy) 0 (screen_height (cfg_of w) - 1)).
  split.
  - unfold with_config, emit, cfg_of. cbn [stealth_dev sink entropy draws input_dev config].
    rewrite Hd. reflexivity.
  - split; [apply clamp_bounds; lia|]. split; [apply clamp_bounds; lia|].
    pose proof (clamp_near cx jx 0 (screen_width (cfg_of w) - 1) Cx).
    pose proof (clamp_near cy jy 0 (screen_height (cfg_of w) - 1) Cy).
    lia.
Qed.

Lemma send_touch_event_safe_jittered_witness :
  exists x' y',
    send_touch_event_safe 0 5000 (-100) 100 activated_world =
      {| stealth_dev :=
           {| input_dev := true;
              config := set_stats_moves (u64 (stats_moves (cfg_of activated_world) + 1))
                          (cfg_of activated_world) |};
         sink := sink activated_world ++ report_touch 0 x' y' (stealth_clamp 100 0 255);
         entropy := entropy activated_world;
         draws := S (draws activated_world) |} /\
    0 <= x' <= screen_width (cfg_of activated_world) - 1 /\
    0 <= y' <= screen_height (cfg_of activated_world) - 1 /\
    Z.abs (x' - stealth_clamp 5000 0 (screen_width (cfg_of activated_world) - 1))
      <= jitter_range (cfg_of activated_world) /\
    Z.abs (y' - stealth_clamp (-100) 0 (screen_height (cfg_of activated_world) - 1))
      <= jitter_range (cfg_of activated_world).
Proof.
  apply (send_touch_event_safe_jittered 0 5000 (-100) 100 activated_world).
  - reflexivity.
  - vm_compute. discriminate.
  - vm_compute. split; discriminate.
  - vm_compute. split; discriminate.
  - vm_compute. split; reflexivity.
  - lia.
Defined.

(** * Further properties of the mode controller *)




Lemma wrap_add_wrap (a b : Z) : wrap (wrap a + b) = wrap (a + b).
Proof.
  unfold wrap. f_equal.
  replace ((a + 2 ^ 31) mod 2 ^ 32 - 2 ^ 31 + b + 2 ^ 31)
    with ((a + 2 ^ 31) mod 2 ^ 32 + b) by lia.
  rewrite Zplus_mod_idemp_l. f_equal. lia.
Qed.

(** X14 (opposing directions cancel): with "up" and "down" both held the
    vertical displacement is 0, and with "left" and "right" both held the
    horizontal one is 0, for every radius and deadzone. *)
Theorem joystick_vector_cancels (j : joystick.t) :
  (test_bit 0 (joystick.key_states j) = true -> test_bit 1 (joystick.key_states j) = true ->
   snd (joystick_vector j) = 0) /\
  (test_bit 2 (joystick.key_states j) = true -> test_bit 3 (joystick.key_states j) = true ->
   fst (joystick_vector j) = 0).
Proof.
  assert (C : add (sub 0 (joystick.radius j)) (joystick.radius j) = 0).
  { unfold add, sub. rewrite wrap_add_wrap.
    replace (0 - joystick.radius j + joystick.radius j) with 0 by lia. reflexivity. }
  unfold joystick_vector. cbv zeta. split; intros H0 H1; rewrite H0, H1, C; cbn [fst snd].
  - destruct (abs 0 <? joystick.deadzone j); reflexivity.
  - destruct (abs 0 <? joystick.deadzone j); reflexivity.
Qed.

Lemma joystick_vector_cancels_witness :
  snd (joystick_vector (joystick.set_key_states 3 (joystick init_config))) = 0.
Proof.
  apply (proj1 (joystick_vector_cancels (joystick.set_key_states 3 (joystick init_config))));
    reflexivity.
Defined.




(** X16 (modes without a handler): in a reachable state whose mode is neither
    CURSOR nor JOYSTICK (VIEW, SILENT, or a value outside the four), a key
    event that is not a press of the mode-switch key leaves the world exactly
    as it was: no emission, no state change. *)
Theorem key_event_ignored_outside_cursor_and_joystick
    (HZ : Z) (keycode pressed : Z) (w : world) :
  reachable HZ w ->
  current_mode (cfg_of w) <> MODE_CURSOR -> current_mode (cfg_of w) <> MODE_JOYSTICK ->
  (keycode =? mode_switch_key (cfg_of w)) && truthy pressed = false ->
  handle_key_mapping keycode pressed w = w.
Proof.
  intros R Hc Hj Hs.
  destruct (reachable_fixed HZ w R) as [_ Hf].
  unfold fixed in Hf. injection Hf as _ _ _ _ Hk _ _.
  unfold handle_key_mapping. rewrite Hs.
  unfold mode_key.
  replace (current_mode (cfg_of w) =? MODE_JOYSTICK) with false
    by (symmetry; apply Z.eqb_neq; exact Hj).
  replace (current_mode (cfg_of w) =? MODE_CURSOR) with false
    by (symmetry; apply Z.eqb_neq; exact Hc).
  rewrite Hk. reflexivity.
Qed.

Lemma key_event_ignored_outside_cursor_and_joystick_witness :
  handle_key_mapping 30 1 activated_world = activated_world.
Proof.
  apply (key_event_ignored_outside_cursor_and_joystick 250 30 1 activated_world).
  - apply reach_step, reach_init.
  - vm_compute. discriminate.
  - vm_compute. discriminate.
  - reflexivity.
Defined.

(** X17 (first match wins): the walk over the mapping list acts on the first
    node carrying the keycode and on no other; nodes after it are never
    looked at, and without any such node nothing happens. *)
Theorem keymap_walk_first_match
    (before after : list key_mapping.t) (node : key_mapping.t)
    (keycode pressed : Z) (w : world) :
  Forall (fun n => key_mapping.keycode n <> keycode) before ->
  (key_mapping.keycode node = keycode ->
   keymap_walk (before ++ node :: after) keycode pressed w = keymap_fire node pressed w) /\
  keymap_walk before keycode pressed w = w.
Proof.
  intros Hb. induction Hb as [|n l Hn _ [IH1 IH2]]; cbn [app keymap_walk].
  - split; [|reflexivity]. intros ->. rewrite Z.eqb_refl. reflexivity.
  - replace (key_mapping.keycode n =? keycode) with false
      by (symmetry; apply Z.eqb_neq; exact Hn).
    split; assumption.
Qed.

Lemma keymap_walk_first_match_witness :
  keymap_walk ([hold_31] ++ tap_30 :: [hold_30]) 30 1 steady_world
  = keymap_fire tap_30 1 steady_world.
Proof.
  apply (proj1 (keymap_walk_first_match [hold_31] [hold_30] tap_30 30 1 steady_world
                  ltac:(repeat constructor; vm_compute; discriminate))).
  reflexivity.
Defined.

Lemma untouched_jitter_range : untouched_by_keys jitter_range.
Proof. repeat split. Qed.

Lemma untouched_screen :
  untouched_by_keys (fun c => (screen_width c, screen_height c)).
Proof. repeat split. Qed.

(** X18 (tap and hold mappings): with the service activated and jitter off, a
    press on a tap mapping (action 0) reports a press with pressure 100 at
    the mapping's clamped coordinates and slot, sleeps for the mapping's
    duration, then reports the release of that slot; a press on a hold
    mapping (action 1) reports once, with the mapping's own pressure clamped
    to [0, 255], and no release follows. *)
Theorem keymap_fire_press (node : key_mapping.t) (pressed : Z) (w : world) :
  input_dev (stealth_dev w) = true -> activated (cfg_of w) <> 0 ->
  jitter_range (cfg_of w) <= 0 -> pressed <> 0 ->
  let p := key_mapping.params node in
  let cx v := stealth_clamp v 0 (sub (screen_width (cfg_of w)) 1) in
  let cy v := stealth_clamp v 0 (sub (screen_height (cfg_of w)) 1) in
  (key_mapping.action node = 0 ->
   sink (keymap_fire node pressed w) =
     sink w
     ++ report_touch (key_mapping.slot node)
          (cx (key_mapping.click_x p)) (cy (key_mapping.click_y p)) 100
     ++ [msleep (key_mapping.click_duration p)]
     ++ report_touch (key_mapping.slot node)
          (cx (key_mapping.click_x p)) (cy (key_mapping.click_y p)) 0) /\
  (key_mapping.action node = 1 ->
   sink (keymap_fire node pressed w) =
     sink w
     ++ report_touch (key_mapping.slot node)
          (cx (key_mapping.hold_x p)) (cy (key_mapping.hold_y p))
          (stealth_clamp (key_mapping.hold_pressure p) 0 255)).
Proof.
  intros Hd Ha Hj Hp p cx cy. unfold keymap_fire, truthy.
  replace (pressed =? 0) with false by (symmetry; apply Z.eqb_neq; exact Hp).
  cbn [negb]. split; intros Hact; rewrite Hact.
  - change (0 =? 0) with true. cbv iota.
    set (w1 := send_touch_event_safe (key_mapping.slot node)
                 (key_mapping.click_x (key_mapping.params node))
                 (key_mapping.click_y (key_mapping.params node)) 100 w).
    set (w2 := emit [msleep (key_mapping.click_duration (key_mapping.params node))] w1).
    assert (K : kept w w1) by apply kept_send.
    assert (Hd2 : input_dev (stealth_dev w2) = true).
    { change (input_dev (stealth_dev w1) = true). destruct K as (A & _).
      rewrite A. exact Hd. }
    assert (Ha2 : activated (cfg_of w2) <> 0).
    { change (cfg_of w2) with (cfg_of w1). unfold w1.
      rewrite (send_touch_keeps activated untouched_activated). exact Ha. }
    assert (Hj2 : jitter_range (cfg_of w2) <= 0).
    { change (cfg_of w2) with (cfg_of w1). unfold w1.
      rewrite (send_touch_keeps jitter_range untouched_jitter_range). exact Hj. }
    assert (Hs2 : (screen_width (cfg_of w2), screen_height (cfg_of w2))
                  = (screen_width (cfg_of w), screen_height (cfg_of w))).
    { change (cfg_of w2) with (cfg_of w1). unfold w1.
      apply (send_touch_keeps _ untouched_screen). }
    injection Hs2 as Hsw Hsh.
    rewrite (send_touch_no_jitter _ _ _ 0 w2 Hd2 Ha2 Hj2).
    rewrite Hsw, Hsh.
    change (sink w2) with (sink w1 ++ [msleep (key_mapping.click_duration (key_mapping.params node))]).
    unfold w1. rewrite (send_touch_no_jitter _ _ _ 100 w Hd Ha Hj).
    rewrite <- !app_assoc. reflexivity.
  - change (1 =? 0) with false. change (1 =? 1) with true. cbv iota.
    rewrite (send_touch_no_jitter _ _ _ _ w Hd Ha Hj). reflexivity.
Qed.

Lemma keymap_fire_press_witness :
  sink (keymap_fire tap_30 1 steady_world) =
    sink steady_world
    ++ report_touch 5 2799 20 100 ++ [msleep 30] ++ report_touch 5 2799 20 0.
Proof.
  apply (proj1 (keymap_fire_press tap_30 1 steady_world eq_refl
                  ltac:(vm_compute; discriminate) ltac:(vm_compute; discriminate)
                  ltac:(lia))).
  reflexivity.
Defined.

Lemma toggle_key_range (n pressed ks : Z) :
  0 <= n <= 3 -> 0 <= ks <= 15 -> 0 <= toggle_key n pressed ks <= 15.
Proof.
  intros Hn Hk.
  assert (Cn : n = 0 \/ n = 1 \/ n = 2 \/ n = 3) by lia.
  assert (Ck : ks = 0 \/ ks = 1 \/ ks = 2 \/ ks = 3 \/ ks = 4 \/ ks = 5 \/ ks = 6 \/ ks = 7 \/
               ks = 8 \/ ks = 9 \/ ks = 10 \/ ks = 11 \/ ks = 12 \/ ks = 13 \/ ks = 14 \/
               ks = 15) by lia.
  unfold toggle_key. destruct (truthy pressed);
    destruct Cn as [-> | [-> | [-> | ->]]];
    repeat (destruct Ck as [-> | Ck]; [vm_compute; split; discriminate|]);
    subst ks; vm_compute; split; discriminate.
Qed.

Lemma joystick_key_update_range (keycode pressed : Z) (j : joystick.t) :
  0 <= joystick.key_states j <= 15 ->
  0 <= joystick.key_states (joystick_key_update keycode pressed j) <= 15.
Proof.
  intros H. unfold joystick_key_update.
  split_ifs; cbn [joystick.key_states joystick.set_key_states];
    try apply toggle_key_range; try lia; exact H.
Qed.

Lemma dispatch_joystick_keys (cmd : Z) (data : list byte) (jiffies : Z) (c : stealth_config) :
  joystick_keys (snd (dispatch cmd data jiffies c)) = joystick_keys c.
Proof.
  unfold dispatch. split_ifs; cbn [snd]; try reflexivity.
  - unfold set_joystick_fields.
    repeat (rewrite (read_field_keeps joystick_keys) by reflexivity). reflexivity.
  - apply (set_slide_key_fields_keeps joystick_keys). reflexivity.
Qed.

Lemma process_hidden_command_joystick_keys
    (data : list byte) (jiffies : Z) (c : stealth_config) :
  joystick_keys (snd (process_hidden_command data jiffies c)) = joystick_keys c.
Proof.
  unfold process_hidden_command.
  destruct (check_frame data) as [| | |cmd]; try reflexivity.
  pose proof (dispatch_joystick_keys cmd data jiffies c) as H.
  destruct (dispatch cmd data jiffies c) as [ret c'].
  destruct (ret =? 0); exact H.
Qed.

Lemma joystick_keys_ok_eq (c c' : stealth_config) :
  joystick_keys c' = joystick_keys c -> joystick_keys_ok c -> joystick_keys_ok c'.
Proof.
  unfold joystick_keys, joystick_keys_ok. intros H. injection H as -> -> -> -> ->.
  exact (fun x => x).
Qed.

Lemma joystick_move_keys (dx dy : Z) (j : joystick.t) :
  joystick.key_up (joystick_move dx dy j) = joystick.key_up j /\
  joystick.key_down (joystick_move dx dy j) = joystick.key_down j /\
  joystick.key_left (joystick_move dx dy j) = joystick.key_left j /\
  joystick.key_right (joystick_move dx dy j) = joystick.key_right j /\
  joystick.key_states (joystick_move dx dy j) = joystick.key_states j.
Proof. unfold joystick_move. cbv zeta. split_ifs; repeat split. Qed.

Lemma joystick_key_update_bindings (keycode pressed : Z) (j : joystick.t) :
  joystick.key_up (joystick_key_update keycode pressed j) = joystick.key_up j /\
  joystick.key_down (joystick_key_update keycode pressed j) = joystick.key_down j /\
  joystick.key_left (joystick_key_update keycode pressed j) = joystick.key_left j /\
  joystick.key_right (joystick_key_update keycode pressed j) = joystick.key_right j.
Proof. unfold joystick_key_update. split_ifs; repeat split. Qed.

Lemma update_joystick_keys_ok (keycode pressed : Z) (w : world) :
  joystick_keys_ok (cfg_of w) ->
  joystick_keys_ok (cfg_of (update_joystick_state keycode pressed w)).
Proof.
  intros (U & D & L & R & K).
  unfold update_joystick_state.
  destruct (negb (truthy (joystick.enabled (joystick (cfg_of w))))
            || negb (current_mode (cfg_of w) =? MODE_JOYSTICK));
    [repeat split; assumption || lia|].
  set (w1 := with_config (upd_joystick (joystick_key_update keycode pressed)) w).
  assert (O1 : joystick_keys_ok (cfg_of w1)).
  { unfold joystick_keys_ok.
    change (joystick (cfg_of w1))
      with (joystick_key_update keycode pressed (joystick (cfg_of w))).
    destruct (joystick_key_update_bindings keycode pressed (joystick (cfg_of w)))
      as (B1 & B2 & B3 & B4).
    rewrite B1, B2, B3, B4.
    repeat split; try assumption; apply joystick_key_update_range; exact K. }
  destruct (joystick_vector (joystick (cfg_of w1))) as [dx dy].
  destruct (negb (dx =? 0) || negb (dy =? 0)).
  - unfold joystick_keys_ok. rewrite send_touch_joystick.
    change (joystick (cfg_of (with_config (upd_joystick (joystick_move dx dy)) w1)))
      with (joystick_move dx dy (joystick (cfg_of w1))).
    destruct (joystick_move_keys dx dy (joystick (cfg_of w1))) as (M1 & M2 & M3 & M4 & M5).
    rewrite M1, M2, M3, M4, M5. exact O1.
  - destruct (truthy (joystick.active (joystick (cfg_of w1)))); [|exact O1].
    unfold joystick_keys_ok. rewrite send_touch_joystick. exact O1.
Qed.

Lemma untouched_joystick_keys_cursor (keycode pressed : Z) (w : world) :
  joystick_keys (cfg_of (cursor_mode_key keycode pressed w)) = joystick_keys (cfg_of w).
Proof.
  unfold cursor_mode_key.
  destruct ((keycode =? cursor.last_key (cursor (cfg_of w))) && truthy pressed);
    [|reflexivity].
  unfold joystick_keys.
  match goal with
  | |- context [joystick (cfg_of (with_config ?g (with_config ?h ?w0)))] =>
      change (joystick (cfg_of (with_config g (with_config h w0))))
        with (joystick (cfg_of w0))
  end.
  rewrite send_touch_joystick.
  change (joystick (cfg_of (emit ?e ?w0))) with (joystick (cfg_of w0)).
  rewrite send_touch_joystick. reflexivity.
Qed.

Lemma handle_key_mapping_keys_ok (keycode pressed : Z) (w : world) :
  joystick_keys_ok (cfg_of w) ->
  joystick_keys_ok (cfg_of (handle_key_mapping keycode pressed w)).
Proof.
  intros H. unfold handle_key_mapping.
  destruct ((keycode =? mode_switch_key (cfg_of w)) && truthy pressed); [exact H|].
  destruct (keymap_walk_config (keymap_list (cfg_of (mode_key keycode pressed w)))
              keycode pressed (mode_key keycode pressed w)) as [k E].
  rewrite E.
  apply (joystick_keys_ok_eq (cfg_of (mode_key keycode pressed w))); [reflexivity|].
  unfold mode_key.
  destruct (current_mode (cfg_of w) =? MODE_JOYSTICK); [apply update_joystick_keys_ok; exact H|].
  destruct (current_mode (cfg_of w) =? MODE_CURSOR); [|exact H].
  apply (joystick_keys_ok_eq (cfg_of w)); [apply untouched_joystick_keys_cursor|exact H].
Qed.

(** X19 (joystick keys): in every reachable state the four direction keys
    are the ones set at initialisation (17, 31, 30, 32; no command can rebind
    them) and the pressed-direction bitmap has only its four low bits in
    use. *)
Theorem joystick_keys_invariant (HZ : Z) (w : world) :
  reachable HZ w -> joystick_keys_ok (cfg_of w).
Proof.
  induction 1 as [e|w o _ IH].
  - unfold joystick_keys_ok. cbn. lia.
  - destruct o as [data jiffies|keycode pressed|jiffies|]; cbn [step].
    + apply (joystick_keys_ok_eq (cfg_of w)); [|exact IH].
      apply process_hidden_command_joystick_keys.
    + apply handle_key_mapping_keys_ok. exact IH.
    + apply (joystick_keys_ok_eq (cfg_of w)); [|exact IH].
      apply (heartbeat_check_keeps joystick_keys). reflexivity.
    + apply (joystick_keys_ok_eq (cfg_of w)); [|exact IH].
      apply (stealth_worker_tick_keeps joystick_keys). reflexivity.
Qed.

Lemma joystick_keys_invariant_witness : joystick_keys_ok (cfg_of diagonal_world).
Proof.
  apply (joystick_keys_invariant 250).
  unfold diagonal_world, joystick_world. apply reachable_run, reachable_run, reach_init.
Defined.

(** * Further properties of the watchdog and of the worker *)

(** X20 (watchdog never activates): a timer check either leaves the
    configuration as it is or, on an activated service, clears [activated]
    and nothing else; it never sets the flag; with a heartbeat interval of 0
    it never deactivates; repeating the check at the same time changes
    nothing more.  The callback re-arms the timer exactly when the device
    exists. *)
Theorem heartbeat_check_only_deactivates (HZ now : Z) (c : stealth_config) :
  (heartbeat_check HZ now c = c \/
   (activated c <> 0 /\ heartbeat_check HZ now c = set_activated 0 c)) /\
  (heartbeat_interval c = 0 -> heartbeat_check HZ now c = c) /\
  heartbeat_check HZ now (heartbeat_check HZ now c) = heartbeat_check HZ now c /\
  (forall dev, snd (heartbeat_timer_callback HZ now dev) =
               match dev with Some _ => true | None => false end).
Proof.
  split; [|split; [|split]].
  - unfold heartbeat_check, truthy.
    destruct (Z.eqb_spec (activated c) 0) as [E|N]; cbn [negb]; [left; reflexivity|].
    destruct ((u64 (heartbeat_interval c) >? 0)
              && (u64 (now - activate_time c) >? u64 (u64 (heartbeat_interval c) * HZ)));
      [right; split; [exact N|reflexivity]|left; reflexivity].
  - intros H0. unfold heartbeat_check. rewrite H0.
    destruct (truthy (activated c)); reflexivity.
  - unfold heartbeat_check at 2.
    destruct (truthy (activated c)) eqn:T.
    + destruct ((u64 (heartbeat_interval c) >? 0)
                && (u64 (now - activate_time c) >? u64 (u64 (heartbeat_interval c) * HZ)))
        eqn:G.
      * unfold heartbeat_check at 2. rewrite T, G. reflexivity.
      * unfold heartbeat_check. rewrite T, G. reflexivity.
    + unfold heartbeat_check. rewrite T. reflexivity.
  - intros [d|]; reflexivity.
Qed.

(** X21 (worker threshold): a worker wake-up leaves the configuration alone
    while the command counter is at most 10000, and above that zeroes the
    four counters; either way the command counter is at most 10000
    afterwards, and a second wake-up changes nothing. *)
Theorem stealth_worker_tick_threshold (c : stealth_config) :
  (stats_commands c <= 10000 -> stealth_worker_tick c = c) /\
  (10000 < stats_commands c ->
   stealth_worker_tick c =
     set_stats_commands 0 (set_stats_slides 0 (set_stats_clicks 0 (set_stats_moves 0 c)))) /\
  stats_commands (stealth_worker_tick c) <= 10000 /\
  stealth_worker_tick (stealth_worker_tick c) = stealth_worker_tick c.
Proof.
  unfold stealth_worker_tick.
  destruct (Z.gtb_spec (stats_commands c) 10000) as [G|L].
  - cbn [stats_commands set_stats_commands]. change (0 >? 10000) with false. cbv iota.
    repeat split; try reflexivity; try lia.
  - replace (stats_commands c >? 10000) with false
      by (symmetry; destruct (Z.gtb_spec (stats_commands c) 10000); [lia|reflexivity]).
    repeat split; try reflexivity; try lia.
Qed.

Lemma process_hidden_command_ret (data : list byte) (jiffies : Z) (c c' : stealth_config) :
  fst (process_hidden_command data jiffies c) = fst (process_hidden_command data jiffies c').
Proof.
  unfold process_hidden_command.
  destruct (check_frame data) as [| | |cmd] eqn:Hc; try reflexivity.
  destruct (check_frame_ok_length data cmd Hc) as [Hlen _].
  destruct (dispatch_accepts cmd data jiffies c Hlen) as [[H0 HL]|[HE HL]];
    destruct (dispatch_accepts cmd data jiffies c' Hlen) as [[H0' HL']|[HE' HL']].
  - destruct (dispatch cmd data jiffies c) as [r1 c1].
    destruct (dispatch cmd data jiffies c') as [r2 c2].
    cbn [fst] in *. subst r1 r2. reflexivity.
  - exfalso. destruct HL as (L & A & B). specialize (HL' L A). lia.
  - exfalso. destruct HL' as (L & A & B). specialize (HL L A). lia.
  - rewrite HE, HE'. reflexivity.
Qed.

Lemma run_commands_counts (frames : list (list byte * Z)) :
  forall c,
    Forall (fun fr => fst (process_hidden_command (fst fr) (snd fr) init_config) = 0) frames ->
    0 <= stats_commands c ->
    stats_commands c + Z.of_nat (length frames) < 2 ^ 64 ->
    stats_commands (run_commands frames c) = stats_commands c + Z.of_nat (length frames).
Proof.
  unfold run_commands.
  induction frames as [|fr frames IH]; intros c Hall H0 Hb; cbn [fold_left length].
  - cbn. lia.
  - inversion Hall as [|x l Hfr Hrest]; subst.
    rewrite (process_hidden_command_ret (fst fr) (snd fr) init_config c) in Hfr.
    destruct (process_hidden_command_outcome (fst fr) (snd fr) c) as [(_ & Hc & _)|E].
    + cbn [length] in Hb. rewrite Nat2Z.inj_succ in Hb |- *.
      rewrite u64_small in Hc by lia.
      rewrite IH; [lia|exact Hrest|lia|lia].
    + rewrite E in Hfr. discriminate Hfr.
Qed.

(** X22 (counting up to the worker's threshold): from the initial
    configuration, a sequence of accepted commands leaves the command counter
    equal to the number of commands; the next worker wake-up leaves the
    counters alone after at most 10000 commands and zeroes all four after
    10001 or more. *)
Theorem worker_resets_after_threshold (frames : list (list byte * Z)) :
  Forall (fun fr => fst (process_hidden_command (fst fr) (snd fr) init_config) = 0) frames ->
  Z.of_nat (length frames) < 2 ^ 64 ->
  stats_commands (run_commands frames init_config) = Z.of_nat (length frames) /\
  (Z.of_nat (length frames) <= 10000 ->
   stealth_worker_tick (run_commands frames init_config) = run_commands frames init_config) /\
  (10000 < Z.of_nat (length frames) ->
   stats_moves (stealth_worker_tick (run_commands frames init_config)) = 0 /\
   stats_clicks (stealth_worker_tick (run_commands frames init_config)) = 0 /\
   stats_slides (stealth_worker_tick (run_commands frames init_config)) = 0 /\
   stats_commands (stealth_worker_tick (run_commands frames init_config)) = 0).
Proof.
  intros Hall Hlen.
  pose proof (run_commands_counts frames init_config Hall ltac:(cbn; lia)
                ltac:(cbn [stats_commands init_config]; lia)) as Hc.
  cbn [stats_commands init_config] in Hc. rewrite Z.add_0_l in Hc.
  split; [exact Hc|]. unfold stealth_worker_tick. rewrite Hc. split; intros H.
  - replace (Z.of_nat (length frames) >? 10000) with false; [reflexivity|].
    symmetry. destruct (Z.gtb_spec (Z.of_nat (length frames)) 10000); [lia|reflexivity].
  - replace (Z.of_nat (length frames) >? 10000) with true
      by (symmetry; apply Z.gtb_lt; lia).
    repeat split.
Qed.

Lemma worker_resets_after_threshold_witness :
  stats_commands
    (stealth_worker_tick
       (run_commands (repeat (mk_frame CMD_HEARTBEAT [], 5) (Z.to_nat 10001)) init_config)) = 0.
Proof.
  assert (A : Forall (fun fr => fst (process_hidden_command (fst fr) (snd fr) init_config) = 0)
                (repeat (mk_frame CMD_HEARTBEAT [], 5) (Z.to_nat 10001))).
  { apply Forall_forall. intros fr Hin. apply repeat_spec in Hin. subst fr.
    vm_compute. reflexivity. }
  assert (B : Z.of_nat (length (repeat (mk_frame CMD_HEARTBEAT [], 5) (Z.to_nat 10001))) = 10001)
    by (rewrite repeat_length; apply Z2Nat.id; lia).
  destruct (worker_resets_after_threshold _ A ltac:(rewrite B; lia)) as (_ & _ & R).
  apply R. rewrite B. lia.
Defined.

(** * Further properties of the device entry points *)

Lemma firstn_capped (buf : list byte) :
  firstn (Z.to_nat (if Z.of_nat (length buf) >? 256 then 256 else Z.of_nat (length buf))) buf
  = firstn 256 buf.
Proof.
  destruct (Z.gtb_spec (Z.of_nat (length buf)) 256) as [G|L]; [reflexivity|].
  rewrite Nat2Z.id. rewrite firstn_all. symmetry. apply firstn_all2. lia.
Qed.

Lemma stealth_write_unfold (buf : list byte) (jiffies : Z) (w : world) :
  7 <= Z.of_nat (length buf) ->
  stealth_write buf false false jiffies w =
    (if fst (process_hidden_command (firstn 256 buf) jiffies (cfg_of w)) <? 0
     then fst (process_hidden_command (firstn 256 buf) jiffies (cfg_of w))
     else Z.min (Z.of_nat (length buf)) 256,
     with_config (fun _ => snd (process_hidden_command (firstn 256 buf) jiffies (cfg_of w)))
       (snd (get_random_bytes w))).
Proof.
  intros H. unfold stealth_write.
  replace (Z.of_nat (length buf) <? 7) with false by (symmetry; apply Z.ltb_ge; lia).
  rewrite firstn_capped.
  unfold get_random_bytes. cbn [snd].
  change (cfg_of {| stealth_dev := stealth_dev w; sink := sink w;
                    entropy := entropy w; draws := S (draws w) |}) with (cfg_of w).
  destruct (process_hidden_command (firstn 256 buf) jiffies (cfg_of w)) as [ret c].
  cbn [fst snd].
  destruct (ret <? 0); [reflexivity|].
  f_equal. destruct (Z.gtb_spec (Z.of_nat (length buf)) 256); lia.
Qed.


(** X24 (write: truncation): only the first 256 bytes of a write are looked
    at; offering a longer buffer is the same, return value included, as
    offering its first 256 bytes. *)
Theorem stealth_write_truncates
    (buf : list byte) (alloc_fails copy_fails : bool) (jiffies : Z) (w : world) :
  stealth_write buf alloc_fails copy_fails jiffies w =
  stealth_write (firstn 256 buf) alloc_fails copy_fails jiffies w.
Proof.
  destruct (Z.leb_spec (Z.of_nat (length buf)) 256) as [L|G].
  - rewrite firstn_all2 by lia. reflexivity.
  - assert (Hl : length (firstn 256 buf) = 256%nat) by (rewrite length_firstn; lia).
    unfold stealth_write. rewrite Hl.
    replace (Z.of_nat (length buf) <? 7) with false by (symmetry; apply Z.ltb_ge; lia).
    replace (Z.of_nat (length buf) >? 256) with true by (symmetry; apply Z.gtb_lt; lia).
    change (Z.of_nat 256 <? 7) with false. change (Z.of_nat 256 >? 256) with false.
    cbv iota. change (Z.to_nat (Z.of_nat 256)) with 256%nat. change (Z.to_nat 256) with 256%nat.
    rewrite firstn_firstn. reflexivity.
Qed.

(** X25 (write: end to end): writing a well-formed frame of at most 256 bytes
    whose command is handled and long enough returns the frame length; for
    ACTIVATE the service is then activated with [activate_time] the current
    tick count. *)
Theorem stealth_write_frame (cmd : Z) (payload : list byte) (jiffies : Z) (w : world) :
  7 + Z.of_nat (length payload) <= 256 ->
  (exists L, min_frame_len (cmd mod 256) = Some L /\ L <= 7 + Z.of_nat (length payload)) ->
  fst (stealth_write (mk_frame cmd payload) false false jiffies w)
    = 7 + Z.of_nat (length payload) /\
  (cmd mod 256 = CMD_ACTIVATE ->
   activated (cfg_of (snd (stealth_write (mk_frame cmd payload) false false jiffies w))) = 1 /\
   activate_time (cfg_of (snd (stealth_write (mk_frame cmd payload) false false jiffies w)))
     = u64 jiffies).
Proof.
  intros Hlen HL.
  assert (Hl : Z.of_nat (length (mk_frame cmd payload)) = 7 + Z.of_nat (length payload)).
  { rewrite mk_frame_shape. cbn [le_bytes map seq app length]. lia. }
  rewrite stealth_write_unfold by lia.
  rewrite (firstn_all2 (n := 256)) by lia.
  pose proof (mk_frame_passes cmd payload) as Hc.
  cbn [fst snd]. split.
  - unfold process_hidden_command. rewrite Hc.
    destruct (dispatch_accepts (cmd mod 256) (mk_frame cmd payload) jiffies (cfg_of w)
                ltac:(lia)) as [[H0 _]|[_ HN]].
    + destruct (dispatch (cmd mod 256) (mk_frame cmd payload) jiffies (cfg_of w)) as [ret c].
      cbn [fst] in H0. subst ret. cbn [Z.eqb fst]. change (0 <? 0) with false. cbv iota. lia.
    + exfalso. destruct HL as (L & A & B). specialize (HN L A). lia.
  - intros Ha.
    change (cfg_of (with_config ?f ?w0)) with (f (cfg_of w0)). cbv beta.
    unfold process_hidden_command. rewrite Hc, Ha. split; reflexivity.
Qed.

Lemma stealth_write_frame_witness :
  fst (stealth_write (mk_frame CMD_ACTIVATE []) false false 1234 (init_world (fun _ => 0)))
    = 7 + Z.of_nat (length (@nil byte)) /\
  (CMD_ACTIVATE mod 256 = CMD_ACTIVATE ->
   activated (cfg_of (snd (stealth_write (mk_frame CMD_ACTIVATE []) false false 1234
                             (init_world (fun _ => 0))))) = 1 /\
   activate_time (cfg_of (snd (stealth_write (mk_frame CMD_ACTIVATE []) false false 1234
                                 (init_world (fun _ => 0))))) = u64 1234).
Proof.
  apply (stealth_write_frame CMD_ACTIVATE [] 1234 (init_world (fun _ => 0))).
  - cbn. lia.
  - exists 7. split; [reflexivity|cbn; lia].
Defined.

(** X26 (read: the status text is offered once): at a positive offset a read
    returns 0 without copying; at offset 0 it delivers the first
    min(len, 26) bytes of the fixed text and moves the offset there, so after
    any non-empty read every further read returns 0 -- a reader that asks for
    fewer than 26 bytes never sees the rest; a copy fault returns -EFAULT and
    leaves the offset. *)
Theorem stealth_read_once (len : Z) :
  0 <= len ->
  (forall off copy_fails, 0 < off -> stealth_read len off copy_fails = (0, off, [])) /\
  stealth_read len 0 false
    = (Z.min len 26, Z.min len 26, firstn (Z.to_nat len) response) /\
  stealth_read len 0 true = (- EFAULT, 0, []) /\
  (0 < len ->
   forall len' copy_fails,
     stealth_read len' (snd (fst (stealth_read len 0 false))) copy_fails
     = (0, Z.min len 26, [])).
Proof.
  intros Hlen.
  assert (A : forall off copy_fails, 0 < off -> stealth_read len off copy_fails = (0, off, [])).
  { intros off cf Ho. unfold stealth_read.
    replace (off >? 0) with true by (symmetry; apply Z.gtb_lt; exact Ho). reflexivity. }
  assert (B : stealth_read len 0 false
              = (Z.min len 26, Z.min len 26, firstn (Z.to_nat len) response)).
  { unfold stealth_read. change (0 >? 0) with false. cbv iota zeta.
    change (Z.of_nat (length response)) with 26.
    destruct (Z.gtb_spec len 26) as [G|L].
    - rewrite Z.min_r by lia. f_equal.
      change (Z.to_nat 26) with (length response).
      rewrite firstn_all. symmetry. apply firstn_all2.
      change (length response) with (Z.to_nat 26). lia.
    - rewrite Z.min_l by lia. reflexivity. }
  split; [exact A|]. split; [exact B|]. split.
  - unfold stealth_read. change (0 >? 0) with false. reflexivity.
  - intros Hp len' cf. rewrite B. cbn [fst snd].
    unfold stealth_read.
    replace (Z.min len 26 >? 0) with true by (symmetry; apply Z.gtb_lt; lia).
    reflexivity.
Qed.

Lemma stealth_read_once_witness :
  stealth_read 10 0 false = (Z.min 10 26, Z.min 10 26, firstn (Z.to_nat 10) response) /\
  stealth_read 100 (snd (fst (stealth_read 10 0 false))) false = (0, Z.min 10 26, []).
Proof.
  destruct (stealth_read_once 10 ltac:(lia)) as (_ & B & _ & D).
  split; [exact B|apply D; lia].
Defined.

(** * Identifier generation *)

Lemma store_byte_length (i : nat) (v : byte) (id : list byte) :
  length (store_byte i v id) = length id.
Proof.
  revert i. induction id as [|b rest IH]; intros [|i]; cbn [store_byte length];
    try reflexivity. rewrite IH. reflexivity.
Qed.

Lemma store_byte_same (i : nat) (v : byte) (id : list byte) (d : byte) :
  (i < length id)%nat -> nth i (store_byte i v id) d = v.
Proof.
  revert i. induction id as [|b rest IH]; intros [|i] H; cbn [store_byte nth length] in *;
    try lia; [reflexivity|]. apply IH. lia.
Qed.

Lemma store_byte_other (i k : nat) (v : byte) (id : list byte) (d : byte) :
  i <> k -> nth k (store_byte i v id) d = nth k id d.
Proof.
  revert i k. induction id as [|b rest IH]; intros [|i] [|k] H; cbn [store_byte nth];
    try reflexivity; try lia. apply IH. lia.
Qed.

Lemma land_ff_byte (z : Z) : byte_val (byte_of_Z (Z.land z 0xFF)) = Z.land z 0xFF.
Proof.
  rewrite byte_val_of_Z. apply Z.mod_small.
  change 0xFF with (Z.ones 8). rewrite Z.land_ones by lia.
  apply Z.mod_pos_bound. lia.
Qed.

Lemma hidden_id_fill_spec (n : nat) :
  forall i rand_val id w,
    length (fst (hidden_id_fill n i rand_val id w)) = length id /\
    snd (hidden_id_fill n i rand_val id w) =
      {| stealth_dev := stealth_dev w; sink := sink w; entropy := entropy w;
         draws := draws w + Z.to_nat ((Z.of_nat (i + n) + 3) / 4 - (Z.of_nat i + 3) / 4) |} /\
    (forall k d, (k < i \/ i + n <= k)%nat ->
       nth k (fst (hidden_id_fill n i rand_val id w)) d = nth k id d) /\
    (forall k d, (i <= k < i + n)%nat -> (k < length id)%nat ->
       byte_val (nth k (fst (hidden_id_fill n i rand_val id w)) d) =
       Z.land (Z.shiftr (lane_source w rand_val i k) (Z.of_nat k mod 4 * 8)) 0xFF).
Proof.
  induction n as [|n IH]; intros i rand_val id w.
  - cbn [hidden_id_fill fst snd]. split; [reflexivity|]. split.
    + replace (i + 0)%nat with i by lia. rewrite Z.sub_diag.
      destruct w. cbn. f_equal. lia.
    + split; [reflexivity|]. intros k d H. lia.
  - cbn [hidden_id_fill].
    destruct (Z.eqb_spec (Z.of_nat i mod 4) 0) as [E|N].
    + (* a fresh draw *)
      unfold get_random_bytes.
      set (w1 := {| stealth_dev := stealth_dev w; sink := sink w;
                    entropy := entropy w; draws := S (draws w) |}).
      set (rv := u32 (entropy w (draws w))).
      set (id1 := store_byte i (byte_of_Z (Z.land (Z.shiftr rv (Z.of_nat i mod 4 * 8)) 0xFF)) id).
      destruct (IH (S i) rv id1 w1) as (L & W & U & C).
      split; [rewrite L; apply store_byte_length|]. split.
      * rewrite W. unfold w1. cbn [stealth_dev sink entropy draws]. f_equal.
        replace (S i + n)%nat with (i + S n)%nat by lia.
        zify. Z.to_euclidean_division_equations. lia.
      * split.
        -- intros k d H. rewrite U by lia. apply store_byte_other. lia.
        -- intros k d H Hk.
           destruct (Nat.eq_dec k i) as [->|Hne].
           ++ rewrite U by lia. unfold id1. rewrite store_byte_same by exact Hk.
              rewrite land_ff_byte. unfold lane_source.
              rewrite Z.eqb_refl. replace (Z.of_nat i mod 4 =? 0) with true
                by (symmetry; apply Z.eqb_eq; exact E).
              cbn [negb andb]. unfold rv. do 4 f_equal.
              zify. Z.to_euclidean_division_equations. lia.
           ++ rewrite C by (unfold id1; rewrite ?store_byte_length; lia).
              do 2 f_equal. unfold lane_source.
              replace (Z.of_nat i mod 4 =? 0) with true by (symmetry; apply Z.eqb_eq; exact E).
              rewrite andb_false_r.
              replace (negb (Z.of_nat (S i) mod 4 =? 0)) with true.
              2:{ symmetry. apply negb_true_iff, Z.eqb_neq.
                  zify. Z.to_euclidean_division_equations. lia. }
              rewrite andb_true_r.
              destruct (Z.eqb_spec (Z.of_nat k / 4) (Z.of_nat (S i) / 4)) as [Q|Q].
              ** unfold rv. do 2 f_equal.
                 zify. Z.to_euclidean_division_equations. lia.
              ** unfold w1. cbn [entropy draws]. do 2 f_equal.
                 zify. Z.to_euclidean_division_equations. lia.
    + (* the previous draw is reused *)
      set (id1 := store_byte i (byte_of_Z (Z.land (Z.shiftr rand_val (Z.of_nat i mod 4 * 8)) 0xFF)) id).
      destruct (IH (S i) rand_val id1 w) as (L & W & U & C).
      split; [rewrite L; apply store_byte_length|]. split.
      * rewrite W. f_equal.
        replace (S i + n)%nat with (i + S n)%nat by lia.
        zify. Z.to_euclidean_division_equations. lia.
      * split.
        -- intros k d H. rewrite U by lia. apply store_byte_other. lia.
        -- intros k d H Hk.
           destruct (Nat.eq_dec k i) as [->|Hne].
           ++ rewrite U by lia. unfold id1. rewrite store_byte_same by exact Hk.
              rewrite land_ff_byte. unfold lane_source.
              rewrite Z.eqb_refl. replace (Z.of_nat i mod 4 =? 0) with false
                by (symmetry; apply Z.eqb_neq; exact N).
              reflexivity.
           ++ rewrite C by (unfold id1; rewrite ?store_byte_length; lia).
              do 2 f_equal. unfold lane_source.
              replace (Z.of_nat i mod 4 =? 0) with false by (symmetry; apply Z.eqb_neq; exact N).
              cbn [negb]. rewrite andb_true_r.
              destruct (Z.eqb_spec (Z.of_nat (S i) mod 4) 0) as [E1|N1]; cbn [negb].
              ** rewrite andb_false_r.
                 replace (Z.of_nat k / 4 =? Z.of_nat i / 4) with false.
                 2:{ symmetry. apply Z.eqb_neq. zify. Z.to_euclidean_division_equations. lia. }
                 do 3 f_equal. zify. Z.to_euclidean_division_equations. lia.
              ** rewrite andb_true_r.
                 replace (Z.of_nat k / 4 =? Z.of_nat (S i) / 4)
                   with (Z.of_nat k / 4 =? Z.of_nat i / 4).
                 2:{ f_equal. zify. Z.to_euclidean_division_equations. lia. }
                 destruct (Z.of_nat k / 4 =? Z.of_nat i / 4); [reflexivity|].
                 do 3 f_equal. zify. Z.to_euclidean_division_equations. lia.
Qed.

Lemma lxor_bytes (a v : Z) :
  0 <= a < 256 -> 0 <= v < 256 -> byte_val (byte_of_Z (Z.lxor a v)) = Z.lxor a v.
Proof.
  intros Ha Hv. rewrite byte_val_of_Z. change 256 with (2 ^ 8) in *.
  apply Z.bits_inj'. intros n Hn.
  destruct (Z.lt_ge_cases n 8) as [Hlt|Hge].
  - apply Z.mod_pow2_bits_low. exact Hlt.
  - rewrite Z.mod_pow2_bits_high by lia. rewrite Z.lxor_spec.
    replace a with (a mod 2 ^ 8) by (apply Z.mod_small; exact Ha).
    replace v with (v mod 2 ^ 8) by (apply Z.mod_small; exact Hv).
    rewrite !Z.mod_pow2_bits_high by lia. reflexivity.
Qed.

Lemma xor_byte_length (i : nat) (v : Z) (id : list byte) :
  length (xor_byte i v id) = length id.
Proof. apply store_byte_length. Qed.

Lemma xor_byte_same (i : nat) (v : Z) (id : list byte) (d : byte) :
  (i < length id)%nat -> 0 <= v < 256 ->
  byte_val (nth i (xor_byte i v id) d) = Z.lxor (byte_val (nth i id d)) v.
Proof.
  intros Hi Hv. unfold xor_byte. rewrite store_byte_same by exact Hi.
  rewrite (nth_indep id Byte.x00 d Hi).
  apply lxor_bytes; [apply byte_val_range|exact Hv].
Qed.

Lemma xor_byte_other (i k : nat) (v : Z) (id : list byte) (d : byte) :
  i <> k -> nth k (xor_byte i v id) d = nth k id d.
Proof. apply store_byte_other. Qed.

Lemma land_ff_range (z : Z) : 0 <= Z.land z 0xFF < 256.
Proof.
  change 0xFF with (Z.ones 8). rewrite Z.land_ones by lia.
  apply Z.mod_pos_bound. lia.
Qed.

(** X27 (identifier generation): for a buffer of at least [len >= 4] bytes,
    the call keeps the buffer length, leaves the bytes from index [len] on
    untouched, takes exactly ceil(len / 4) draws and changes nothing else in
    the world; byte [k >= 4] is byte lane [k mod 4] of draw number [k / 4],
    and bytes 0..3 are the lanes of the first draw exclusive-ORed with the
    low 32 bits of the wall-clock seconds, most significant byte first. *)
Theorem generate_hidden_id_spec (id : list byte) (len : nat) (tv_sec : Z) (w : world) :
  (4 <= len <= length id)%nat ->
  length (fst (generate_hidden_id id len tv_sec w)) = length id /\
  snd (generate_hidden_id id len tv_sec w) =
    {| stealth_dev := stealth_dev w; sink := sink w; entropy := entropy w;
       draws := draws w + Z.to_nat ((Z.of_nat len + 3) / 4) |} /\
  (forall k d, (len <= k)%nat ->
     nth k (fst (generate_hidden_id id len tv_sec w)) d = nth k id d) /\
  (forall k d, (4 <= k < len)%nat ->
     byte_val (nth k (fst (generate_hidden_id id len tv_sec w)) d) =
     Z.land (Z.shiftr (u32 (entropy w (draws w + Z.to_nat (Z.of_nat k / 4))))
               (Z.of_nat k mod 4 * 8)) 0xFF) /\
  (forall k d, (k < 4)%nat ->
     byte_val (nth k (fst (generate_hidden_id id len tv_sec w)) d) =
     Z.lxor (Z.land (Z.shiftr (u32 (entropy w (draws w))) (Z.of_nat k * 8)) 0xFF)
            (Z.land (Z.shiftr tv_sec (8 * (3 - Z.of_nat k))) 0xFF)).
Proof.
  intros Hlen. unfold generate_hidden_id.
  destruct (hidden_id_fill_spec len 0 0 id w) as (L & W & U & C).
  destruct (hidden_id_fill len 0 0 id w) as [id1 w1]. cbn [fst snd] in *.
  assert (Lane : forall k, lane_source w 0 0 k
                           = u32 (entropy w (draws w + Z.to_nat (Z.of_nat k / 4)))).
  { intros k. unfold lane_source. change (Z.of_nat 0 mod 4 =? 0) with true.
    cbn [negb]. rewrite andb_false_r. change ((Z.of_nat 0 + 3) / 4) with 0.
    rewrite Z.sub_0_r. reflexivity. }
  set (id2 := xor_byte 0 (Z.land (Z.shiftr tv_sec 24) 255) id1).
  set (id3 := xor_byte 1 (Z.land (Z.shiftr tv_sec 16) 255) id2).
  set (id4 := xor_byte 2 (Z.land (Z.shiftr tv_sec 8) 255) id3).
  set (id5 := xor_byte 3 (Z.land tv_sec 255) id4).
  assert (L2 : length id2 = length id) by (unfold id2; rewrite xor_byte_length; exact L).
  assert (L3 : length id3 = length id) by (unfold id3; rewrite xor_byte_length; exact L2).
  assert (L4 : length id4 = length id) by (unfold id4; rewrite xor_byte_length; exact L3).
  split; [unfold id5; rewrite xor_byte_length; exact L4|]. split.
  { rewrite W. f_equal. change (Z.of_nat 0 + 3) with 3. change (3 / 4) with 0.
    rewrite Z.sub_0_r. reflexivity. }
  assert (High : forall k d, (4 <= k)%nat -> nth k id5 d = nth k id1 d).
  { intros k d Hk. unfold id5, id4, id3, id2.
    rewrite !xor_byte_other by lia. reflexivity. }
  split; [|split].
  - intros k d Hk. rewrite High by lia. apply U. lia.
  - intros k d Hk. rewrite High by lia. rewrite C by lia. rewrite Lane. reflexivity.
  - intros k d Hk.
    assert (First : forall j, (j < 4)%nat ->
              byte_val (nth j id1 d)
              = Z.land (Z.shiftr (u32 (entropy w (draws w))) (Z.of_nat j * 8)) 0xFF).
    { intros j Hj. rewrite C by lia. rewrite Lane.
      replace (Z.of_nat j / 4) with 0 by (symmetry; apply Z.div_small; lia).
      replace (Z.of_nat j mod 4) with (Z.of_nat j) by (symmetry; apply Z.mod_small; lia).
      change (Z.to_nat 0) with 0%nat. rewrite Nat.add_0_r. reflexivity. }
    destruct k as [|[|[|[|k]]]]; [| | | |lia].
    + unfold id5, id4, id3. rewrite !xor_byte_other by lia.
      unfold id2. rewrite xor_byte_same by (lia || apply land_ff_range).
      rewrite First by lia. reflexivity.
    + unfold id5, id4. rewrite !xor_byte_other by lia.
      unfold id3. rewrite xor_byte_same by (lia || apply land_ff_range).
      unfold id2. rewrite xor_byte_other by lia.
      rewrite First by lia. reflexivity.
    + unfold id5. rewrite !xor_byte_other by lia.
      unfold id4. rewrite xor_byte_same by (lia || apply land_ff_range).
      unfold id3, id2. rewrite !xor_byte_other by lia.
      rewrite First by lia. reflexivity.
    + unfold id5. rewrite xor_byte_same by (lia || apply land_ff_range).
      unfold id4, id3, id2. rewrite !xor_byte_other by lia.
      rewrite First by lia. reflexivity.
Qed.

Lemma generate_hidden_id_spec_witness :
  length (fst (generate_hidden_id (repeat Byte.x00 16) 16 1700000000 (init_world (fun n => Z.of_nat n))))
  = length (repeat Byte.x00 16).
Proof.
  apply (generate_hidden_id_spec (repeat Byte.x00 16) 16 1700000000
           (init_world (fun n => Z.of_nat n))).
  cbn. lia.
Defined.
